(** * Zabbix maintenance scripts: a shallow embedding and its properties

    The development follows three source files:

    - [zabbix_group_update.py]: the free function [call_api], the rename
      workflow ([rename_group], [move_hosts_to_group]), the cleanup of empty
      groups ([is_group_empty], [delete_empty_group], [cleanup_empty_groups])
      and [main];
    - [rollback_script.py]: [rollback_group_names], [restore_hosts_to_group];
    - [template_replacer.py]: the method [ZabbixAPI._call_api] (the copies in
      [zabbix_detector.py] and [zabbix_group_improved.py] are the same code),
      the other methods of [ZabbixAPI] (the session, the lookups,
      [replace_host_template], [delete_trigger]), [TriggerAnalyzer] and the
      two operations of [TemplateReplacer] with the deletion of triggers.

    The scripts are dynamically typed and talk to a remote server.  Values
    are JSON values with the Python operations the scripts apply to them
    (each one raising what Python raises), the server is an arbitrary
    deterministic state machine answering requests, and a script is a
    computation that threads the server state, may raise, and emits the
    requests, prints, log records, sleeps and file writes it performs.

    What a script reads from its surroundings is an argument of its
    embedding: the rows of the CSV file, the content of the backup file,
    the reading of the clock, the order in which a set is enumerated,
    the lines typed at a prompt.
    Strings are UTF-8 byte strings; [strip] and [int] follow Python on
    ASCII white space and ASCII digits; JSON numbers are integers.  An
    f-string is kept as its template and the values interpolated. *)

From Stdlib Require Import String Ascii List ZArith Bool Lia DecimalString DecimalPos.
Import ListNotations.

Set Warnings "-register-all".

Local Open Scope string_scope.
Local Open Scope Z_scope.

(* ================================================================== *)
(** * Python values and built-in operations *)
(* ================================================================== *)

Module Py.

(** A value decoded from JSON ([None], [bool], [int], [str], [list],
    [dict] with string keys).  Numbers are integers; a [dict] is an
    association list in insertion order whose keys are distinct, as a
    decoded dictionary's are. *)
Inductive json : Type :=
| JNull
| JBool (b : bool)
| JNum (n : Z)
| JStr (s : string)
| JArr (items : list json)
| JObj (fields : list (string * json)).

(** The exceptions the scripts can meet. [Exception] carries the object
    given to [raise Exception(obj)], [ExceptionF] a formatted message
    (template and interpolated values). *)
Inductive exn : Type :=
| KeyError (key : json)
| IndexError
| TypeError
| ValueError
| AttributeError
| Timeout
| ConnectionError
| HTTPError (status : Z)
| JSONDecodeError
| Exception (payload : json)
| ExceptionF (template : string) (args : list json).

Inductive res (A : Type) : Type :=
| Ok (a : A)
| Raise (e : exn).
Arguments Ok {A} a.
Arguments Raise {A} e.

Definition is_ok {A} (r : res A) : bool :=
  match r with Ok _ => true | Raise _ => false end.

(** [except (ValueError, TypeError)]: [JSONDecodeError] is a subclass of
    [ValueError]. *)
Definition is_value_or_type_error (e : exn) : bool :=
  match e with
  | ValueError | TypeError | JSONDecodeError => true
  | _ => false
  end.

(** ** Strings *)

Definition is_space (c : ascii) : bool :=
  let n := nat_of_ascii c in
  ((9 <=? n) && (n <=? 13) || (28 <=? n) && (n <=? 32))%nat.

Fixpoint lstrip (s : string) : string :=
  match s with
  | EmptyString => EmptyString
  | String c r => if is_space c then lstrip r else s
  end.

Fixpoint rstrip (s : string) : string :=
  match s with
  | EmptyString => EmptyString
  | String c r =>
      let r' := rstrip r in
      if is_space c && String.eqb r' EmptyString then EmptyString else String c r'
  end.

(** [s.strip()], for the ASCII white space Python strips. *)
Definition strip (s : string) : string := rstrip (lstrip s).

(** [s.startswith(p)] *)
Definition startswith (s p : string) : bool := String.prefix p s.

(** [sub in s] for strings. *)
Fixpoint str_contains (sub s : string) : bool :=
  String.prefix sub s ||
  match s with
  | EmptyString => false
  | String _ r => str_contains sub r
  end.

(** [s.split(c)] for a one-character separator. *)
Fixpoint split_on (c : ascii) (s : string) : list string :=
  match s with
  | EmptyString => [EmptyString]
  | String x r =>
      let parts := split_on c r in
      if Ascii.eqb x c then EmptyString :: parts
      else match parts with
           | p :: ps => String x p :: ps
           | [] => [String x EmptyString]
           end
  end.

(** The characters of a string: a UTF-8 continuation byte (10xxxxxx)
    belongs to the character before it. *)
Definition is_continuation (c : ascii) : bool :=
  let n := nat_of_ascii c in ((128 <=? n) && (n <? 192))%nat.

Fixpoint chars (s : string) : list string :=
  match s with
  | EmptyString => []
  | String c r =>
      match chars r with
      | [] => [String c EmptyString]
      | p :: ps =>
          match r with
          | String d _ =>
              if is_continuation d then String c p :: ps
              else String c EmptyString :: p :: ps
          | EmptyString => String c EmptyString :: p :: ps
          end
      end
  end.

Definition is_digit (c : ascii) : bool :=
  let n := nat_of_ascii c in ((48 <=? n) && (n <=? 57))%nat.

Definition digit_value (c : ascii) : Z := Z.of_nat (nat_of_ascii c) - 48.

(** Decimal digits, single underscores allowed between digits. *)
Fixpoint parse_digits (s : string) (acc : Z) (after_digit : bool) : option Z :=
  match s with
  | EmptyString => if after_digit then Some acc else None
  | String c r =>
      if is_digit c then parse_digits r (10 * acc + digit_value c) true
      else if Ascii.eqb c "_" && after_digit then parse_digits r acc false
      else None
  end.

(** [int(s)] for a string of ASCII characters. *)
Definition int_of_str (s : string) : option Z :=
  match strip s with
  | String "+" r => parse_digits r 0 false
  | String "-" r => option_map Z.opp (parse_digits r 0 false)
  | t => parse_digits t 0 false
  end.

(** [str(n)] for an integer. *)
Definition str_of_int (n : Z) : string := NilZero.string_of_int (Z.to_int n).

(** ** Truth value, length, equality *)

(** [bool(v)], the test of [if v] and [if not v]. *)
Definition truthy (v : json) : bool :=
  match v with
  | JNull => false
  | JBool b => b
  | JNum n => negb (n =? 0)
  | JStr s => negb (String.eqb s EmptyString)
  | JArr l => match l with [] => false | _ => true end
  | JObj m => match m with [] => false | _ => true end
  end.

(** [len(v)] *)
Definition len (v : json) : res Z :=
  match v with
  | JStr s => Ok (Z.of_nat (List.length (chars s)))
  | JArr l => Ok (Z.of_nat (List.length l))
  | JObj m => Ok (Z.of_nat (List.length m))
  | _ => Raise TypeError
  end.

Fixpoint assoc {A} (k : string) (m : list (string * A)) : option A :=
  match m with
  | [] => None
  | (k', v) :: r => if String.eqb k k' then Some v else assoc k r
  end.

(** [a == b]: [True == 1], lists compare element by element, dictionaries
    by their bindings whatever the order. *)
Fixpoint eq (a b : json) {struct a} : bool :=
  match a, b with
  | JNull, JNull => true
  | JBool x, JBool y => Bool.eqb x y
  | JBool x, JNum n => n =? (if x then 1 else 0)
  | JNum n, JBool x => n =? (if x then 1 else 0)
  | JNum x, JNum y => x =? y
  | JStr x, JStr y => String.eqb x y
  | JArr xs, JArr ys =>
      (fix go (xs ys : list json) : bool :=
         match xs, ys with
         | [], [] => true
         | x :: xs', y :: ys' => eq x y && go xs' ys'
         | _, _ => false
         end) xs ys
  | JObj m, JObj m' =>
      (List.length m =? List.length m')%nat &&
      (fix go (m : list (string * json)) : bool :=
         match m with
         | [] => true
         | (k, v) :: r =>
             match assoc k m' with
             | Some v' => eq v v'
             | None => false
             end && go r
         end) m
  | _, _ => false
  end.

(** Lists and dictionaries cannot be hashed. *)
Definition hashable (v : json) : bool :=
  match v with
  | JArr _ | JObj _ => false
  | _ => true
  end.

(** [x in l] for a list [l]. *)
Definition in_list (x : json) (l : list json) : bool :=
  existsb (fun y => eq y x) l.

(** [x in s] for a set [s] (kept as the list of its elements): the
    element is hashed first. *)
Definition in_set (x : json) (s : list json) : res bool :=
  if hashable x then Ok (in_list x s) else Raise TypeError.

(** [key in v] for a string [key]. *)
Definition contains_key (key : string) (v : json) : res bool :=
  match v with
  | JObj m => Ok (match assoc key m with Some _ => true | None => false end)
  | JArr l => Ok (in_list (JStr key) l)
  | JStr s => Ok (str_contains key s)
  | _ => Raise TypeError
  end.

(** ** Subscripts, [dict.get], iteration *)

(** [v[key]] for a string [key]. *)
Definition getitem (v : json) (key : string) : res json :=
  match v with
  | JObj m =>
      match assoc key m with
      | Some x => Ok x
      | None => Raise (KeyError (JStr key))
      end
  | _ => Raise TypeError
  end.

(** [v[0]] *)
Definition first (v : json) : res json :=
  match v with
  | JArr l => match l with x :: _ => Ok x | [] => Raise IndexError end
  | JStr s => match chars s with c :: _ => Ok (JStr c) | [] => Raise IndexError end
  | JObj _ => Raise (KeyError (JNum 0))
  | _ => Raise TypeError
  end.

(** [v.get(key, default)] *)
Definition get (v : json) (key : string) (default : json) : res json :=
  match v with
  | JObj m =>
      match assoc key m with
      | Some x => Ok x
      | None => Ok default
      end
  | _ => Raise AttributeError
  end.

(** The elements [for x in v] runs through. *)
Definition iter (v : json) : res (list json) :=
  match v with
  | JArr l => Ok l
  | JObj m => Ok (map (fun kv => JStr (fst kv)) m)
  | JStr s => Ok (map JStr (chars s))
  | _ => Raise TypeError
  end.

(** [int(v)] *)
Definition int (v : json) : res Z :=
  match v with
  | JNum n => Ok n
  | JBool b => Ok (if b then 1 else 0)
  | JStr s =>
      match int_of_str s with
      | Some n => Ok n
      | None => Raise ValueError
      end
  | _ => Raise TypeError
  end.

(** [s.strip()] on a value: only strings have the method. *)
Definition strip_value (v : json) : res string :=
  match v with
  | JStr s => Ok (strip s)
  | _ => Raise AttributeError
  end.

End Py.

Import Py.

(* ================================================================== *)
(** * The remote server and the computations of the scripts *)
(* ================================================================== *)

(** One HTTP POST of a JSON-RPC payload: the target, the payload's
    [method], [params] and [id], the bearer token of the [Authorization]
    header when there is one, and the [timeout] argument when given. *)
Record request : Type := Request {
  url : string;
  method : string;
  params : json;
  id : Z;
  bearer : option json;
  timeout : option Z
}.

(** What the transport gives back: no answer in time, no connection, or
    an HTTP response with its status and its body decoded as JSON
    ([None] when the body is not valid JSON). *)
Inductive transport : Type :=
| TimedOut
| Refused
| Reply (status_code : Z) (body : option json).

Inductive level : Type := INFO | WARNING | ERROR.

(** A value interpolated in an f-string. *)
Inductive arg : Type :=
| AVal (v : json)
| AErr (e : exn)
| ABody (b : option json).

(** An f-string: its text with [{}] for each interpolation, and the
    interpolated values in order. *)
Record message : Type := Msg { template : string; args : list arg }.

(** What a script does to the outside world, in program order. *)
Inductive event : Type :=
| Call (r : request)
| Print (m : message)
| Log (l : level) (m : message)
| Sleep (milliseconds : Z)
| WriteFile (name : message) (content : json).

Definition is_call (e : event) : bool :=
  match e with Call _ => true | _ => false end.

(** The requests among the events. *)
Definition calls (evs : list event) : list request :=
  flat_map (fun e => match e with Call r => [r] | _ => [] end) evs.

(** The methods called, in order. *)
Definition methods_called (evs : list event) : list string :=
  map method (calls evs).

Definition is_error_log (e : event) : bool :=
  match e with Log ERROR _ => true | _ => false end.

(** [[f(x) for x in l]] where [f] may raise. *)
Fixpoint map_res {A B} (f : A -> res B) (l : list A) : res (list B) :=
  match l with
  | [] => Ok []
  | x :: rest =>
      match f x with
      | Raise e => Raise e
      | Ok y =>
          match map_res f rest with
          | Raise e => Raise e
          | Ok ys => Ok (y :: ys)
          end
      end
  end.

(** [[x for x in l if p(x)]] where [p] may raise. *)
Fixpoint filter_res {A} (p : A -> res bool) (l : list A) : res (list A) :=
  match l with
  | [] => Ok []
  | x :: rest =>
      match p x with
      | Raise e => Raise e
      | Ok b =>
          match filter_res p rest with
          | Raise e => Raise e
          | Ok ys => Ok (if b then x :: ys else ys)
          end
      end
  end.

(** The element [g['groupid']] of the set comprehension
    [{g['groupid'] for g in offline_groups}]: it is hashed when added. *)
Definition groupid_element (g : json) : res json :=
  match getitem g "groupid" with
  | Ok x => if hashable x then Ok x else Raise TypeError
  | Raise e => Raise e
  end.

(** [requests.post(...)]: the transport's failures are exceptions. *)
Record response : Type := Response { status_code : Z; body : option json }.

Definition received (t : transport) : res response :=
  match t with
  | TimedOut => Raise Timeout
  | Refused => Raise ConnectionError
  | Reply st b => Ok (Response st b)
  end.

(** [response.json()] *)
Definition response_json (r : response) : res json :=
  match body r with
  | Some v => Ok v
  | None => Raise JSONDecodeError
  end.

(** [response.raise_for_status()] *)
Definition raise_for_status (r : response) : res unit :=
  if (400 <=? status_code r) && (status_code r <? 600)
  then Raise (HTTPError (status_code r))
  else Ok tt.

Section Scripts.

(** The server: any state, any deterministic answer to a request. *)
Context {Srv : Type}.
Variable serve : Srv -> request -> transport * Srv.

(** A computation runs from a server state to a value or an exception,
    the next server state and the events it emitted. *)
Definition M (A : Type) : Type := Srv -> res A * Srv * list event.

Definition ret {A} (a : A) : M A := fun s => (Ok a, s, []).

Definition raise {A} (e : exn) : M A := fun s => (Raise e, s, []).

Definition bind {A B} (m : M A) (k : A -> M B) : M B :=
  fun s =>
    match m s with
    | (Ok a, s1, ev1) =>
        match k a s1 with
        | (r, s2, ev2) => (r, s2, (ev1 ++ ev2)%list)
        end
    | (Raise e, s1, ev1) => (Raise e, s1, ev1)
    end.

(** A pure operation that may raise. *)
Definition lift {A} (r : res A) : M A :=
  match r with
  | Ok a => ret a
  | Raise e => raise e
  end.

Definition emit (e : event) : M unit := fun s => (Ok tt, s, [e]).

(** [try: m  except Exception as e: handler(e)] *)
Definition try_except {A} (m : M A) (handler : exn -> M A) : M A :=
  fun s =>
    match m s with
    | (Raise e, s1, ev1) =>
        match handler e s1 with
        | (r, s2, ev2) => (r, s2, (ev1 ++ ev2)%list)
        end
    | done => done
    end.

Declare Scope script_scope.
Delimit Scope script_scope with script.
Notation "x <- m ;; k" := (bind m (fun x => k))
  (at level 61, m at next level, right associativity) : script_scope.
Notation "m ;; k" := (bind m (fun _ => k))
  (at level 61, right associativity) : script_scope.
Local Open Scope script_scope.

Definition print (template : string) (args : list arg) : M unit :=
  emit (Print (Msg template args)).

Definition logging (l : level) (template : string) (args : list arg) : M unit :=
  emit (Log l (Msg template args)).

(** [time.sleep(0.1)] *)
Definition sleep_100ms : M unit := emit (Sleep 100).

(** [for x in l: body(x)] *)
Fixpoint for_each {A} (l : list A) (body : A -> M unit) : M unit :=
  match l with
  | [] => ret tt
  | x :: rest => body x ;; for_each rest body
  end.

(** A loop that carries the variables it assigns. *)
Fixpoint for_fold {A B} (l : list A) (body : A -> B -> M B) (acc : B) : M B :=
  match l with
  | [] => ret acc
  | x :: rest => acc' <- body x acc ;; for_fold rest body acc'
  end.


(* ================================================================== *)
(** * zabbix_group_update.py *)
(* ================================================================== *)

Definition ZABBIX_URL : string := "http://127.0.0.1/api_jsonrpc.php".
Definition USERNAME : string := "Admin".
Definition PASSWORD : string := "zabbix".

(** [requests.post]: the request reaches the server, whose answer is a
    response or an exception. *)
Definition post (r : request) : M response :=
  fun s => let (t, s') := serve s r in (received t, s', [Call r]).

Definition login_request : request :=
  {| url := ZABBIX_URL; method := "user.login";
     params := JObj [("username", JStr USERNAME); ("password", JStr PASSWORD)];
     id := 1; bearer := None; timeout := None |}.

Definition get_auth_token : M json :=
  response <- post login_request ;;
  print "Zabbix 返回内容：{}" [ABody (body response)] ;;
  result <- lift (response_json response) ;;
  lift (getitem result "result").

(** The request [call_api] posts. *)
Definition api_request (method : string) (params auth_token : json) : request :=
  {| url := ZABBIX_URL; method := method; params := params; id := 1;
     bearer := Some auth_token; timeout := None |}.

Definition call_api (method : string) (params auth_token : json) : M json :=
  response <- post (api_request method params auth_token) ;;
  result <- lift (response_json response) ;;
  has_error <- lift (contains_key "error" result) ;;
  if has_error then
    err <- lift (getitem result "error") ;;
    raise (Exception err)
  else
    lift (getitem result "result").

(** [d[k] = v] on a dictionary kept as its items in insertion order. *)
Definition dict_set (d : list (json * json)) (k v : json)
  : res (list (json * json)) :=
  if hashable k then
    Ok (if existsb (fun kv => eq (fst kv) k) d
        then map (fun kv => if eq (fst kv) k then (fst kv, v) else kv) d
        else (d ++ [(k, v)])%list)
  else Raise TypeError.

(** The items of the dictionary [json.dump] writes, in order. *)
Definition dumped (d : list (json * json)) : json :=
  JArr (map (fun kv => JArr [fst kv; snd kv]) d).

(** [ts] is the reading of the clock, [datetime.now().strftime(...)]. *)
Definition backup_all_groups_and_hosts (ts : string) (auth_token : json) : M string :=
  print "开始备份所有分组和主机信息..." [] ;;
  all_groups <- call_api "hostgroup.get"
    (JObj [("output", JArr [JStr "groupid"; JStr "name"]);
           ("selectHosts", JArr [JStr "hostid"; JStr "name"])]) auth_token ;;
  groups <- lift (iter all_groups) ;;
  backup <- for_fold groups (fun group backup =>
      groupid <- lift (getitem group "groupid") ;;
      hosts <- lift (get group "hosts" (JArr [])) ;;
      name <- lift (getitem group "name") ;;
      backup' <- lift (dict_set backup name
                         (JObj [("groupid", groupid); ("hosts", hosts)])) ;;
      n <- lift (len hosts) ;;
      print "[备份] 分组: {} (ID: {}), 主机数量: {}"
            [AVal name; AVal groupid; AVal (JNum n)] ;;
      ret backup') [] ;;
  let backup_file := "group_backup_" ++ ts ++ ".json" in
  emit (WriteFile (Msg "group_backup_{}.json" [AVal (JStr ts)]) (dumped backup)) ;;
  logging INFO "[备份完成] 文件：{}" [AVal (JStr backup_file)] ;;
  print "备份完成，保存文件: {}" [AVal (JStr backup_file)] ;;
  ret backup_file.

Definition prefixes : list string :=
  ["a_"; "b_"; "c_"; "d_"; "e_"; "f_"; "g_"; "h_"; "i_"; "j_"; "k_"; "l_";
   "m_"; "n_"; "o_"; "p_"; "q_"; "r_"; "s_"; "t_"; "u_"; "v_"; "w_"; "x_";
   "y_"; "z_"].

(** The parameters of the group lookup by name. *)
Definition lookup_params (name : string) : json :=
  JObj [("filter", JObj [("name", JStr name)]);
        ("output", JArr [JStr "groupid"; JStr "name"]);
        ("selectHosts", JArr [JStr "hostid"])].

(** [for prefix in prefixes: ... if result: ... break]; [result] is the
    variable the loop assigns. *)
Fixpoint try_prefixes (ps : list string) (original_name : string)
    (auth_token result : json) : M json :=
  match ps with
  | [] => ret result
  | prefix :: rest =>
      let prefixed_name := prefix ++ original_name in
      result <- call_api "hostgroup.get" (lookup_params prefixed_name) auth_token ;;
      if truthy result then
        print "[找到匹配] 使用前缀 '{}' 找到分组：{}"
              [AVal (JStr prefix); AVal (JStr prefixed_name)] ;;
        logging INFO "[找到匹配] 使用前缀 '{}' 找到分组：{}"
              [AVal (JStr prefix); AVal (JStr prefixed_name)] ;;
        ret result
      else try_prefixes rest original_name auth_token result
  end.

(** The first part of [rename_group]: the exact lookup, then the
    prefixed ones. *)
Definition find_group (original_name : string) (auth_token : json) : M json :=
  result <- call_api "hostgroup.get" (lookup_params original_name) auth_token ;;
  if negb (truthy result)
  then try_prefixes prefixes original_name auth_token result
  else ret result.

(** The lookup of a group by name that [move_hosts_to_group] makes. *)
Definition target_params (target_group_name : string) : json :=
  JObj [("filter", JObj [("name", JStr target_group_name)]);
        ("output", JArr [JStr "groupid"])].

(** The parameters that create a group. *)
Definition create_params (name : string) : json := JObj [("name", JStr name)].

(** The parameters that replace a host's groups by the target alone. *)
Definition move_params (hostid target_groupid : json) : json :=
  JObj [("hostid", hostid);
        ("groups", JArr [JObj [("groupid", target_groupid)]])].

Definition move_hosts_to_group (hostids : list json) (target_group_name : string)
    (auth_token : json) : M unit :=
  match hostids with
  | [] => ret tt
  | _ =>
      groups <- call_api "hostgroup.get" (target_params target_group_name) auth_token ;;
      target_groupid <-
        (if truthy groups then
           g <- lift (first groups) ;;
           lift (getitem g "groupid")
         else
           created <- call_api "hostgroup.create"
             (create_params target_group_name) auth_token ;;
           ids <- lift (getitem created "groupids") ;;
           lift (first ids)) ;;
      for_each hostids (fun hostid =>
        call_api "host.update" (move_params hostid target_groupid) auth_token ;;
        ret tt)
  end.

(** [old_name.split('_')[0] + '_'] *)
Definition prefix_of (old_name : json) : res string :=
  match old_name with
  | JStr s => Ok (hd EmptyString (split_on "_" s) ++ "_")
  | _ => Raise AttributeError
  end.

(** The name the rename path sends: [final_new_name]. *)
Definition final_new_name (old_name : json) (new_name : string) : M string :=
  has_underscore <- lift (contains_key "_" old_name) ;;
  if has_underscore then
    prefix <- lift (prefix_of old_name) ;;
    if negb (startswith new_name prefix) then
      let final := prefix ++ new_name in
      print "[保留前缀] 为新名称添加前缀：{} -> {}"
            [AVal (JStr new_name); AVal (JStr final)] ;;
      logging INFO "[保留前缀] 为新名称添加前缀：{} -> {}"
            [AVal (JStr new_name); AVal (JStr final)] ;;
      ret final
    else ret new_name
  else ret new_name.

(** The parameters of a rename. *)
Definition rename_params (groupid : json) (name : string) : json :=
  JObj [("groupid", groupid); ("name", JStr name)].

(** What [rename_group] does with the result of the lookup. *)
Definition apply_rename (result : json) (original_name new_name : string)
    (auth_token : json) : M json :=
  if negb (truthy result) then
    logging WARNING "[未找到] 原分组：{}（已尝试所有前缀）" [AVal (JStr original_name)] ;;
    print "[未找到] 原分组：{}（已尝试所有前缀）" [AVal (JStr original_name)] ;;
    ret JNull
  else
    n <- lift (len result) ;;
    if 1 <? n then
      found <- lift (iter result) ;;
      match_names <- lift (map_res (fun g => getitem g "name") found) ;;
      logging WARNING "[匹配多个分组] 原分组：{} 匹配到多个：{}"
              [AVal (JStr original_name); AVal (JArr match_names)] ;;
      print "[匹配多个分组] 原分组：{} 匹配到多个：{}"
            [AVal (JStr original_name); AVal (JArr match_names)] ;;
      ret JNull
    else
      group <- lift (first result) ;;
      groupid <- lift (getitem group "groupid") ;;
      old_name <- lift (getitem group "name") ;;
      hosts <- lift (get group "hosts" (JArr [])) ;;
      hs <- lift (iter hosts) ;;
      hostids <- lift (map_res (fun h => getitem h "hostid") hs) ;;
      if String.eqb new_name "下线" then
        move_hosts_to_group hostids "下线" auth_token ;;
        print "[迁移] 将分组 '{}' 中 {} 个主机移动到 '下线'"
              [AVal old_name; AVal (JNum (Z.of_nat (List.length hostids)))] ;;
        logging INFO "[迁移] 将分组 '{}' 中 {} 个主机移动到 '下线'"
              [AVal old_name; AVal (JNum (Z.of_nat (List.length hostids)))] ;;
        ret groupid
      else
        final <- final_new_name old_name new_name ;;
        call_api "hostgroup.update" (rename_params groupid final) auth_token ;;
        logging INFO "[成功] 分组 '{}' 重命名为 '{}'" [AVal old_name; AVal (JStr final)] ;;
        print "[成功] 分组 '{}' 重命名为 '{}'" [AVal old_name; AVal (JStr final)] ;;
        ret JNull.

Definition rename_group (original_name new_name : string) (auth_token : json)
  : M json :=
  try_except
    (result <- find_group original_name auth_token ;;
     apply_rename result original_name new_name auth_token)
    (fun e =>
       logging ERROR "[失败] 分组 '{}' 重命名为 '{}' 出错：{}"
               [AVal (JStr original_name); AVal (JStr new_name); AErr e] ;;
       print "[失败] 分组 '{}' 重命名为 '{}' 出错：{}"
             [AVal (JStr original_name); AVal (JStr new_name); AErr e] ;;
       ret JNull).

(** [try: groupid_int = int(groupid)  except (ValueError, TypeError)]:
    the integer, or the exception the handler caught. *)
Definition try_int (groupid : json) : M (Z + exn) :=
  match int groupid with
  | Ok n => ret (inl n)
  | Raise e => if is_value_or_type_error e then ret (inr e) else raise e
  end.

(** The parameters of the emptiness check. *)
Definition empty_check_params (groupid_int : Z) : json :=
  JObj [("output", JArr [JStr "hostid"]);
        ("groupids", JArr [JNum groupid_int]);
        ("limit", JNum 1)].

Definition is_group_empty (groupid auth_token : json) : M bool :=
  try_except
    (match groupid with
     | JNull =>
         logging ERROR "[检查群组] groupid 为 None" [] ;;
         ret false
     | _ =>
         converted <- try_int groupid ;;
         match converted with
         | inr e =>
             logging ERROR "[检查群组] 无法将 groupid '{}' 转换为整数: {}"
                     [AVal groupid; AErr e] ;;
             ret false
         | inl groupid_int =>
             result <- call_api "host.get" (empty_check_params groupid_int) auth_token ;;
             n <- lift (len result) ;;
             ret (n =? 0)
         end
     end)
    (fun e =>
       logging ERROR "[检查群组] 检查群组 {} 是否为空时出错：{}" [AVal groupid; AErr e] ;;
       ret false).

(** The parameters of the deletion: [[str(groupid_int)]]. *)
Definition delete_params (groupid_int : Z) : json :=
  JArr [JStr (str_of_int groupid_int)].

Definition delete_empty_group (groupid group_name auth_token : json) : M bool :=
  try_except
    (match groupid with
     | JNull =>
         logging ERROR "[删除群组] groupid 为 None，群组名: {}" [AVal group_name] ;;
         ret false
     | _ =>
         converted <- try_int groupid ;;
         match converted with
         | inr e =>
             logging ERROR "[删除群组] 无法将 groupid '{}' 转换为整数: {}，群组名: {}"
                     [AVal groupid; AErr e; AVal group_name] ;;
             ret false
         | inl groupid_int =>
             empty <- is_group_empty groupid auth_token ;;
             if negb empty then
               print "[跳过删除] 群组 '{}' 不为空，跳过删除" [AVal group_name] ;;
               logging WARNING "[跳过删除] 群组 '{}' 不为空，跳过删除" [AVal group_name] ;;
               ret false
             else
               call_api "hostgroup.delete" (delete_params groupid_int) auth_token ;;
               print "[删除成功] 空群组 '{}' 已删除" [AVal group_name] ;;
               logging INFO "[删除成功] 空群组 '{}' 已删除" [AVal group_name] ;;
               ret true
         end
     end)
    (fun e =>
       print "[删除失败] 群组 '{}' 删除失败：{}" [AVal group_name; AErr e] ;;
       logging ERROR "[删除失败] 群组 '{}' 删除失败：{}" [AVal group_name; AErr e] ;;
       ret false).

Definition cleanup_empty_groups (group_ids_to_check : list json) (auth_token : json)
  : M Z :=
  match group_ids_to_check with
  | [] => ret 0
  | _ =>
      print "开始检查并清理 {} 个可能为空的群组..."
            [AVal (JNum (Z.of_nat (List.length group_ids_to_check)))] ;;
      deleted_count <- for_fold group_ids_to_check (fun groupid deleted_count =>
        try_except
          (match groupid with
           | JNull =>
               logging ERROR "[清理群组] groupid 为 None，跳过" [] ;;
               ret deleted_count
           | _ =>
               converted <- try_int groupid ;;
               match converted with
               | inr e =>
                   logging ERROR "[清理群组] 无法将 groupid '{}' 转换为整数: {}，跳过"
                           [AVal groupid; AErr e] ;;
                   ret deleted_count
               | inl groupid_int =>
                   group_info <- call_api "hostgroup.get"
                     (JObj [("output", JArr [JStr "groupid"; JStr "name"]);
                            ("groupids", JArr [JNum groupid_int])]) auth_token ;;
                   if negb (truthy group_info) then
                     logging WARNING "[清理群组] 群组 {} 不存在，跳过" [AVal groupid] ;;
                     ret deleted_count
                   else
                     g <- lift (first group_info) ;;
                     group_name <- lift (getitem g "name") ;;
                     deleted <- delete_empty_group groupid group_name auth_token ;;
                     ret (if deleted then deleted_count + 1 else deleted_count)
               end
           end)
          (fun e =>
             logging ERROR "[清理群组] 处理群组 {} 时出错：{}" [AVal groupid; AErr e] ;;
             ret deleted_count)) 0 ;;
      (if 0 <? deleted_count then
         print "✅ 清理完成，共删除 {} 个空群组" [AVal (JNum deleted_count)] ;;
         logging INFO "清理完成，共删除 {} 个空群组" [AVal (JNum deleted_count)]
       else
         print "没有空群组需要删除" []) ;;
      ret deleted_count
  end.

(** [s.add(x)] on a set kept as the list of its elements. *)
Definition set_add (s : list json) (x : json) : res (list json) :=
  if hashable x then Ok (if in_list x s then s else (s ++ [x])%list)
  else Raise TypeError.

(** The order in which [list(s)] enumerates a set is not fixed by the
    language. *)
Variable set_iteration : list json -> list json.

(** The body of the first loop of [main]: [rows] is the list the loop
    fills, each element [([orig_name], new_name)].  (The set
    [all_orig_names], filled here and never read, is left out, as are the
    line breaks that open some messages.) *)
Definition read_row (row : json) (rows : list (list string * string))
  : M (list (list string * string)) :=
  print "读取行数据：{}" [AVal row] ;;
  new_name_raw <- lift (getitem row "修改后系统名称") ;;
  match new_name_raw with
  | JNull => print "跳过空值行：{}" [AVal row] ;; ret rows
  | _ =>
      new_name <- lift (strip_value new_name_raw) ;;
      if String.eqb new_name EmptyString then
        print "跳过空值行：{}" [AVal row] ;; ret rows
      else if String.eqb new_name "无需修改" then ret rows
      else
        orig_raw <- lift (getitem row "原系统名称") ;;
        orig_name <- lift (strip_value orig_raw) ;;
        if String.eqb orig_name EmptyString then ret rows
        else ret (rows ++ [([orig_name], new_name)])%list
  end.

(** The first loop of [main]: the rows kept from the CSV file. *)
Definition read_rows (csv_rows : list json) : M (list (list string * string)) :=
  for_fold csv_rows read_row [].

(** The second loop of [main]: the renames, collecting the groups to
    clean up. *)
Definition process_rows (rows : list (list string * string)) (auth_token : json)
  : M (list json) :=
  let total := Z.of_nat (List.length rows) in
  acc <- for_fold rows (fun row (acc : Z * list json) =>
    let '(orig_names, new_name) := row in
    let count := fst acc + 1 in
    print "正在处理第 {}/{} 条记录，目标名称：'{}'，原系统名称列表：{}"
          [AVal (JNum count); AVal (JNum total); AVal (JStr new_name);
           AVal (JArr (map JStr orig_names))] ;;
    groups_to_cleanup <- for_fold orig_names (fun orig_name groups_to_cleanup =>
      print "  正在修改分组：'{}' -> '{}'" [AVal (JStr orig_name); AVal (JStr new_name)] ;;
      original_groupid <- rename_group orig_name new_name auth_token ;;
      groups_to_cleanup' <-
        (if truthy original_groupid && String.eqb new_name "下线"
         then lift (set_add groups_to_cleanup original_groupid)
         else ret groups_to_cleanup) ;;
      sleep_100ms ;;
      ret groups_to_cleanup') (snd acc) ;;
    ret (count, groups_to_cleanup)) (0, []) ;;
  ret (snd acc).

(** [fieldnames] and [csv_rows] are what [csv.DictReader] reads from
    [group_changes.csv]; [ts] is the reading of the clock. *)
Definition main (fieldnames : json) (csv_rows : list json) (ts : string) : M unit :=
  auth_token <- get_auth_token ;;
  print "读取 CSV 文件头字段：{}" [AVal fieldnames] ;;
  rows <- read_rows csv_rows ;;
  backup_file <- backup_all_groups_and_hosts ts auth_token ;;
  groups_to_cleanup <- process_rows rows auth_token ;;
  (match groups_to_cleanup with
   | [] => print "没有需要清理的群组" []
   | _ =>
       print "开始清理空的主机群组..." [] ;;
       cleanup_empty_groups (set_iteration groups_to_cleanup) auth_token ;;
       ret tt
   end) ;;
  print "✅ 所有操作完成，备份文件：{}" [AVal (JStr backup_file)].

(* ================================================================== *)
(** * rollback_script.py *)
(* ================================================================== *)

(** The parameters of the request for a host's groups. *)
Definition host_groups_params (hostid : json) : json :=
  JObj [("output", JArr [JStr "hostid"]);
        ("selectGroups", JArr [JStr "groupid"]);
        ("hostids", hostid)].

(** The parameters that set a host's groups. *)
Definition host_update_params (hostid : json) (group_ids : list json) : json :=
  JObj [("hostid", hostid);
        ("groups", JArr (map (fun gid => JObj [("groupid", gid)]) group_ids))].

(** [gid not in offline_groupids], the filter of the list comprehension. *)
Definition not_offline (offline_groupids : list json) (gid : json) : res bool :=
  match in_set gid offline_groupids with
  | Ok b => Ok (negb b)
  | Raise e => Raise e
  end.

(** The body of the loop over the snapshot's hosts, with the set
    [offline_groupids] computed before the loop. *)
Definition restore_host (offline_groupids : list json) (target_groupid auth_token : json)
    (host : json) : M unit :=
  hostid <- lift (getitem host "hostid") ;;
  hostname <- lift (get host "name" (JStr "未知名称")) ;;
  try_except
    (host_info <- call_api "host.get" (host_groups_params hostid) auth_token ;;
     if truthy host_info then
       h <- lift (first host_info) ;;
       existing_groups <- lift (get h "groups" (JArr [])) ;;
       gs <- lift (iter existing_groups) ;;
       group_ids <- lift (map_res (fun g => getitem g "groupid") gs) ;;
       kept <- lift (filter_res (not_offline offline_groupids) group_ids) ;;
       let new_group_ids :=
         if negb (in_list target_groupid kept)
         then (kept ++ [target_groupid])%list else kept in
       let new_group_ids :=
         match new_group_ids with
         | [] => [target_groupid]
         | _ => new_group_ids
         end in
       call_api "host.update" (host_update_params hostid new_group_ids) auth_token ;;
       print "[恢复主机] ID: {}, 名称: {}, 结果: 成功" [AVal hostid; AVal hostname] ;;
       logging INFO "[恢复主机] ID: {}, 名称: {}, 结果: 成功" [AVal hostid; AVal hostname]
     else ret tt)
    (fun ex =>
       print "[主机恢复失败] ID: {}, 名称: {}, 错误: {}" [AVal hostid; AVal hostname; AErr ex] ;;
       logging ERROR "[主机恢复失败] ID: {}, 名称: {}, 错误: {}"
               [AVal hostid; AVal hostname; AErr ex]).

(** The lookup of the groups named "下线". *)
Definition offline_params : json :=
  JObj [("filter", JObj [("name", JStr "下线")]); ("output", JArr [JStr "groupid"])].

Definition restore_hosts_to_group (hosts target_groupid : json) (group_name : string)
    (auth_token : json) : M unit :=
  if negb (truthy hosts) then
    print "[跳过] 分组 '{}' 没有需要恢复的主机" [AVal (JStr group_name)]
  else
    n <- lift (len hosts) ;;
    print "[恢复主机] 开始恢复 {} 个主机到分组 '{}'" [AVal (JNum n); AVal (JStr group_name)] ;;
    offline_groups <- call_api "hostgroup.get" offline_params auth_token ;;
    offs <- lift (iter offline_groups) ;;
    offline_groupids <- lift (map_res groupid_element offs) ;;
    hs <- lift (iter hosts) ;;
    for_each hs (restore_host offline_groupids target_groupid auth_token).

(** The lookup of a group by its id. *)
Definition group_by_id_params (groupid : json) : json :=
  JObj [("output", JArr [JStr "groupid"; JStr "name"]);
        ("groupids", JArr [groupid])].

(** The body of the loop over the snapshot: one group, with the two
    counters the loop updates. *)
Definition rollback_group (auth_token : json) (item : string * json)
    (counts : Z * Z) : M (Z * Z) :=
  let '(old_name, info) := item in
  let '(success_count, error_count) := counts in
  groupid <- lift (getitem info "groupid") ;;
  print "[回滚检查] 原分组名: '{}'，groupid: {}" [AVal (JStr old_name); AVal groupid] ;;
  outcome <- try_except
    (result <- call_api "hostgroup.get" (group_by_id_params groupid) auth_token ;;
     if negb (truthy result) then
       print "[缺失] 分组ID {} 不存在，尝试重新创建分组 '{}'" [AVal groupid; AVal (JStr old_name)] ;;
       counts' <- try_except
         (created <- call_api "hostgroup.create" (create_params old_name) auth_token ;;
          ids <- lift (getitem created "groupids") ;;
          new_groupid <- lift (first ids) ;;
          print "[回滚] 已重新创建分组 '{}'，ID: {}" [AVal (JStr old_name); AVal new_groupid] ;;
          logging INFO "[回滚] 已重新创建分组 '{}'，ID: {}" [AVal (JStr old_name); AVal new_groupid] ;;
          hosts <- lift (getitem info "hosts") ;;
          restore_hosts_to_group hosts new_groupid old_name auth_token ;;
          ret (success_count + 1, error_count))
         (fun e2 =>
            print "[回滚失败] 分组 '{}'：无法重新创建或关联主机，错误：{}" [AVal (JStr old_name); AErr e2] ;;
            logging ERROR "[回滚失败] 分组 '{}'：无法重新创建或关联主机，错误：{}"
                    [AVal (JStr old_name); AErr e2] ;;
            ret (success_count, error_count + 1)) ;;
       (* continue *)
       ret (counts', false)
     else
       g <- lift (first result) ;;
       current_name <- lift (getitem g "name") ;;
       print "[检查名称] 当前名称：'{}'，目标：'{}'" [AVal current_name; AVal (JStr old_name)] ;;
       hosts <- lift (getitem info "hosts") ;;
       restore_hosts_to_group hosts groupid old_name auth_token ;;
       (if negb (eq current_name (JStr old_name)) then
          call_api "hostgroup.update" (rename_params groupid old_name) auth_token ;;
          print "[回滚成功] 分组 '{}' -> '{}'" [AVal current_name; AVal (JStr old_name)] ;;
          logging INFO "[回滚成功] 分组 '{}' -> '{}'" [AVal current_name; AVal (JStr old_name)]
        else
          print "[已是原名] 分组 '{}' 无需重命名" [AVal (JStr old_name)]) ;;
       ret ((success_count + 1, error_count), true))
    (fun e =>
       print "[回滚失败] 分组 '{}'：{}" [AVal (JStr old_name); AErr e] ;;
       logging ERROR "[回滚失败] 分组 '{}'：{}" [AVal (JStr old_name); AErr e] ;;
       ret ((success_count, error_count + 1), true)) ;;
  (if snd outcome then sleep_100ms else ret tt) ;;
  ret (fst outcome).

(** [backup.items()] of the object [json.load] read. *)
Definition items (backup : json) : res (list (string * json)) :=
  match backup with
  | JObj m => Ok m
  | _ => Raise AttributeError
  end.

(** [backup] is the content of the backup file, as [json.load] reads it;
    the result is the pair of counters the function prints. *)
Definition rollback_group_names (backup_file : string) (backup auth_token : json)
  : M (Z * Z) :=
  print "开始回滚操作，备份文件：{}" [AVal (JStr backup_file)] ;;
  n <- lift (len backup) ;;
  print "共有 {} 个分组需要处理" [AVal (JNum n)] ;;
  groups <- lift (items backup) ;;
  counts <- for_fold groups (rollback_group auth_token) (0, 0) ;;
  print "✅ 回滚操作完成！" [] ;;
  print "成功: {} 个分组" [AVal (JNum (fst counts))] ;;
  print "失败: {} 个分组" [AVal (JNum (snd counts))] ;;
  (if 0 <? snd counts then print "详细错误信息请查看 rollback.log 文件" [] else ret tt) ;;
  ret counts.

(* ================================================================== *)
(** * template_replacer.py: the API client *)
(* ================================================================== *)

(** The fields of a [ZabbixAPI] object and of its [ZabbixConfig] that
    [_call_api] reads or writes. *)
Record ZabbixAPI : Type := {
  config_url : string;
  config_timeout : Z;
  auth_token : json;
  request_id : Z
}.

(** [ZabbixAPI(ZabbixConfig())] *)
Definition new_client : ZabbixAPI :=
  {| config_url := "http://localhost/api_jsonrpc.php"; config_timeout := 30;
     auth_token := JNull; request_id := 1 |}.

(** The request [_call_api] posts. *)
Definition client_request (self : ZabbixAPI) (method : string) (params : json)
    (auth_required : bool) : request :=
  {| url := config_url self; method := method; params := params;
     id := request_id self;
     bearer := if auth_required && truthy (auth_token self)
               then Some (auth_token self) else None;
     timeout := Some (config_timeout self) |}.

(** The method returns the object as it leaves it ([request_id]
    incremented before the request is sent) and the computation of the
    result. *)
Definition _call_api (self : ZabbixAPI) (method : string) (params : json)
    (auth_required : bool) : ZabbixAPI * M json :=
  let self' :=
    {| config_url := config_url self; config_timeout := config_timeout self;
       auth_token := auth_token self; request_id := request_id self + 1 |} in
  (self',
   try_except
     (response <- post (client_request self method params auth_required) ;;
      lift (raise_for_status response) ;;
      result <- lift (response_json response) ;;
      has_error <- lift (contains_key "error" result) ;;
      if has_error then
        err <- lift (getitem result "error") ;;
        fallback <- lift (get err "message" (JStr "未知错误")) ;;
        error_msg <- lift (get err "data" fallback) ;;
        raise (ExceptionF "Zabbix API 错误: {}" [error_msg])
      else
        lift (get result "result" JNull))
     (fun e =>
        match e with
        | Timeout => raise (ExceptionF "API 请求超时 (>{}s)" [JNum (config_timeout self)])
        | ConnectionError => raise (ExceptionF "无法连接到 Zabbix 服务器: {}" [JStr (config_url self)])
        | HTTPError st => raise (ExceptionF "HTTP 错误: {}" [JNum st])
        | JSONDecodeError => raise (ExceptionF "API 响应不是有效的 JSON 格式" [])
        | other => raise other
        end)).

(* ================================================================== *)
(** * template_replacer.py: the methods of the client *)
(* ================================================================== *)

(** A method of [ZabbixAPI] reads and writes the fields of the object
    ([auth_token], [request_id]), and what it wrote stays written when
    it raises.  Given the object, a method is a computation of its
    outcome, a value or the exception that leaves it, and of the object
    as it leaves it. *)
Definition K (A : Type) : Type := ZabbixAPI -> M (res A * ZabbixAPI).

Definition kret {A} (a : A) : K A := fun self => ret (Ok a, self).

Definition kraise {A} (e : exn) : K A := fun self => ret (Raise e, self).

Definition klift {A} (r : res A) : K A := fun self => ret (r, self).

Definition kbind {A B} (m : K A) (k : A -> K B) : K B :=
  fun self =>
    out <- m self ;;
    match fst out with
    | Ok a => k a (snd out)
    | Raise e => ret (Raise e, snd out)
    end.

(** [try: m  except Exception as e: handler(e)] *)
Definition ktry {A} (m : K A) (handler : exn -> K A) : K A :=
  fun self =>
    out <- m self ;;
    match fst out with
    | Ok a => ret out
    | Raise e => handler e (snd out)
    end.

(** [try: m  finally: final] *)
Definition kfinally {A} (m : K A) (final : K unit) : K A :=
  fun self =>
    out <- m self ;;
    out' <- final (snd out) ;;
    match fst out' with
    | Ok _ => ret (fst out, snd out')
    | Raise e => ret (Raise e, snd out')
    end.

(** A computation that does not touch the object. *)
Definition krun {A} (m : M A) : K A :=
  fun self => try_except (a <- m ;; ret (Ok a, self)) (fun e => ret (Raise e, self)).

(** [self.auth_token = v] *)
Definition set_auth_token (v : json) : K unit :=
  fun self =>
    ret (Ok tt, {| config_url := config_url self; config_timeout := config_timeout self;
                   auth_token := v; request_id := request_id self |}).

(** [self.auth_token] *)
Definition read_auth_token : K json := fun self => ret (Ok (auth_token self), self).

(** [self._call_api(method, params, auth_required)] *)
Definition api (method : string) (params : json) (auth_required : bool) : K json :=
  fun self =>
    krun (snd (_call_api self method params auth_required))
         (fst (_call_api self method params auth_required)).

(** [logger.info], [logger.warning], [logger.error] *)
Definition klog (l : level) (template : string) (args : list arg) : K unit :=
  krun (logging l template args).

Definition kprint (template : string) (args : list arg) : K unit :=
  krun (print template args).

Fixpoint kfor_fold {A B} (l : list A) (body : A -> B -> K B) (acc : B) : K B :=
  match l with
  | [] => kret acc
  | x :: rest => kbind (body x acc) (fun acc' => kfor_fold rest body acc')
  end.

Declare Scope client_scope.
Delimit Scope client_scope with client.
Notation "x <- m ;; k" := (kbind m (fun x => k))
  (at level 61, m at next level, right associativity) : client_scope.
Notation "m ;; k" := (kbind m (fun _ => k))
  (at level 61, right associativity) : client_scope.
Local Open Scope client_scope.

(** The fields [user] and [password] of [ZabbixConfig]. *)
Definition config_user : string := "Admin".
Definition config_password : string := "zabbix".

Definition login : K unit :=
  klog INFO "正在登录 Zabbix..." [] ;;
  ktry
    (token <- api "user.login"
                (JObj [("username", JStr config_user); ("password", JStr config_password)])
                false ;;
     set_auth_token token ;;
     klog INFO "登录成功" [])
    (fun e =>
       klog ERROR "登录失败: {}" [AErr e] ;;
       kraise e).

Definition logout : K unit :=
  token <- read_auth_token ;;
  if truthy token then
    kfinally
      (ktry
         (api "user.logout" (JObj []) true ;;
          klog INFO "已注销" [])
         (fun e => klog WARNING "注销失败: {}" [AErr e]))
      (set_auth_token JNull)
  else kret tt.

(** [with ZabbixAPI(config) as api: body]: [__enter__] logs in,
    [__exit__] logs out however the body ends, and lets the body's
    exception through. *)
Definition with_api {A} (body : K A) : K A :=
  login ;;
  kfinally body logout.

(** [xs[0] if xs else None] *)
Definition first_or_none (xs : json) : K json :=
  if truthy xs then klift (first xs) else kret JNull.

Definition get_hostgroup_by_name (group_name : string) : K json :=
  groups <- api "hostgroup.get"
              (JObj [("filter", JObj [("name", JStr group_name)]);
                     ("output", JArr [JStr "groupid"; JStr "name"])]) true ;;
  first_or_none groups.

Definition get_template_by_name (template_name : string) : K json :=
  templates <- api "template.get"
                 (JObj [("filter", JObj [("name", JStr template_name)]);
                        ("output", JArr [JStr "templateid"; JStr "name"])]) true ;;
  first_or_none templates.

Definition get_hosts_in_group_with_template (group_id template_id : json) : K json :=
  api "host.get"
    (JObj [("output", JArr [JStr "hostid"; JStr "name"]);
           ("groupids", group_id);
           ("templateids", template_id);
           ("selectParentTemplates", JArr [JStr "templateid"; JStr "name"])]) true.

(** The parameters of the lookup of a host by its id. *)
Definition host_by_id_params (host_id : json) : json :=
  JObj [("output", JArr [JStr "hostid"; JStr "name"]);
        ("hostids", host_id);
        ("selectParentTemplates", JArr [JStr "templateid"; JStr "name"])].

Definition get_host_by_id (host_id : json) : K json :=
  hosts <- api "host.get" (host_by_id_params host_id) true ;;
  first_or_none hosts.

Definition get_host_by_name (host_name : string) : K json :=
  hosts <- api "host.get"
             (JObj [("output", JArr [JStr "hostid"; JStr "name"]);
                    ("filter", JObj [("name", JStr host_name)]);
                    ("selectParentTemplates", JArr [JStr "templateid"; JStr "name"])]) true ;;
  first_or_none hosts.

(** The parameters of the request for the triggers of a host that are
    not inherited. *)
Definition host_triggers_params (host_id : json) : json :=
  JObj [("output", JArr [JStr "triggerid"; JStr "description"; JStr "expression";
                         JStr "priority"; JStr "status"; JStr "templateid"]);
        ("hostids", host_id);
        ("inherited", JBool false);
        ("filter", JObj [("flags", JNum 0)]);
        ("selectItems", JArr [JStr "itemid"; JStr "name"; JStr "key_"])].

(** [not trigger.get("templateid") or trigger.get("templateid") == "0"] *)
Definition non_template (trigger : json) : res bool :=
  match get trigger "templateid" JNull with
  | Ok templateid => Ok (negb (truthy templateid) || eq templateid (JStr "0"))
  | Raise e => Raise e
  end.

Definition get_host_non_template_triggers (host_id : json) : K (list json) :=
  ktry
    (triggers <- api "trigger.get" (host_triggers_params host_id) true ;;
     listed <- klift (iter triggers) ;;
     klift (filter_res non_template listed))
    (fun e =>
       klog ERROR "获取主机 {} 的非模板触发器失败: {}" [AVal host_id; AErr e] ;;
       kret []).

Definition delete_trigger (trigger_id : json) : K bool :=
  ktry
    (api "trigger.delete" (JArr [trigger_id]) true ;;
     kret true)
    (fun e =>
       klog ERROR "删除触发器 {} 失败: {}" [AVal trigger_id; AErr e] ;;
       kret false).

(** The body of the loop of [replace_host_template] over the host's
    templates: [acc] is the pair of [new_templates] and
    [template_replaced]. *)
Definition replace_in_template (host old_template_id new_template_id template : json)
    (acc : list json * bool) : M (list json * bool) :=
  (templateid <- lift (getitem template "templateid") ;;
   if eq templateid old_template_id then
     host_name <- lift (getitem host "name") ;;
     template_name <- lift (getitem template "name") ;;
     logging INFO "主机 {} 模板 {} 将被替换" [AVal host_name; AVal template_name] ;;
     ret (fst acc ++ [JObj [("templateid", new_template_id)]], true)
   else
     templateid' <- lift (getitem template "templateid") ;;
     ret (fst acc ++ [JObj [("templateid", templateid')]], snd acc))%list%script.

(** The parameters that set the templates of a host. *)
Definition templates_update_params (host_id : json) (new_templates : list json) : json :=
  JObj [("hostid", host_id); ("templates", JArr new_templates)].

(** What [replace_host_template] does with the host it has looked up. *)
Definition replace_found_host (host host_id old_template_id new_template_id : json)
  : K bool :=
  if negb (truthy host) then
    klog ERROR "主机 {} 不存在" [AVal host_id] ;;
    kret false
  else
    current_templates <- klift (get host "parentTemplates" (JArr [])) ;;
    templates <- klift (iter current_templates) ;;
    acc <- krun (for_fold templates
                   (replace_in_template host old_template_id new_template_id)
                   ([], false)) ;;
    if negb (snd acc) then
      host_name <- klift (getitem host "name") ;;
      klog WARNING "主机 {} 未使用指定的旧模板" [AVal host_name] ;;
      kret false
    else
      api "host.update" (templates_update_params host_id (fst acc)) true ;;
      host_name <- klift (getitem host "name") ;;
      klog INFO "主机 {} 模板替换成功" [AVal host_name] ;;
      kret true.

Definition replace_host_template (host_id old_template_id new_template_id : json)
  : K bool :=
  ktry
    (host <- get_host_by_id host_id ;;
     replace_found_host host host_id old_template_id new_template_id)
    (fun e =>
       klog ERROR "替换主机 {} 模板失败: {}" [AVal host_id; AErr e] ;;
       kret false).

(** ** The trigger analyzer *)

(** [priority_map.get(str(priority), "未知")].  Only the texts "0" to
    "5" are keys of the map, and [str] gives such a text for a string
    that is one or for a number from 0 to 5 only. *)
Definition _get_priority_name (priority : json) : string :=
  let text :=
    match priority with
    | JStr s => s
    | JNum n => str_of_int n
    | _ => "None"
    end in
  if String.eqb text "0" then "未分类"
  else if String.eqb text "1" then "信息"
  else if String.eqb text "2" then "警告"
  else if String.eqb text "3" then "一般严重"
  else if String.eqb text "4" then "严重"
  else if String.eqb text "5" then "灾难"
  else "未知".

(** The entry of [items_info] for one item of a trigger. *)
Definition item_info (item : json) : M json :=
  (item_name <- lift (get item "name" (JStr "未知监控项")) ;;
   item_key <- lift (get item "key_" (JStr "未知键值")) ;;
   ret (JObj [("item_name", item_name); ("item_key", item_key)]))%script.

(** The entry of [trigger_info] for one trigger. *)
Definition trigger_entry (host_id host_name trigger : json) : M json :=
  (items_raw <- lift (get trigger "items" (JArr [])) ;;
   items <- lift (iter items_raw) ;;
   items_info <- for_fold items
     (fun item acc => info <- item_info item ;; ret (acc ++ [info])%list) [] ;;
   trigger_id <- lift (getitem trigger "triggerid") ;;
   description <- lift (get trigger "description" (JStr "无描述")) ;;
   expression <- lift (get trigger "expression" (JStr "无表达式")) ;;
   priority <- lift (get trigger "priority" (JStr "0")) ;;
   status <- lift (get trigger "status" (JStr "0")) ;;
   ret (JObj [("host_name", host_name);
              ("host_id", host_id);
              ("trigger_id", trigger_id);
              ("description", description);
              ("expression", expression);
              ("priority", JStr (_get_priority_name priority));
              ("status", JStr (if eq status (JStr "0") then "启用" else "禁用"));
              ("items", JArr items_info)]))%script.

Definition analyze_host_triggers (host_id host_name : json) : K (list json) :=
  triggers <- get_host_non_template_triggers host_id ;;
  krun (for_fold triggers
          (fun trigger trigger_info =>
             (entry <- trigger_entry host_id host_name trigger ;;
              ret (trigger_info ++ [entry])%list)%script) []).

(** The columns of the report. *)
Definition report_columns : list string :=
  ["主机名"; "主机ID"; "触发器ID"; "触发器描述"; "表达式"; "优先级"; "状态";
   "监控项名称"; "监控项键值"].

(** One row of the report: the seven fields of the trigger, then the
    name and the key of the item, or "无关联监控项" twice when the trigger
    has no item. *)
Definition report_row (trigger : json) (item : option json) : res json :=
  match map_res (getitem trigger)
                ["host_name"; "host_id"; "trigger_id"; "description"; "expression";
                 "priority"; "status"] with
  | Raise e => Raise e
  | Ok trigger_fields =>
      match match item with
            | Some it => map_res (getitem it) ["item_name"; "item_key"]
            | None => Ok [JStr "无关联监控项"; JStr "无关联监控项"]
            end with
      | Raise e => Raise e
      | Ok item_fields =>
          Ok (JObj (combine report_columns (trigger_fields ++ item_fields)))
      end
  end.

(** The rows written until the first one that raises, and that
    exception. *)
Fixpoint rows_until_error (rows : list (res json)) : list json * option exn :=
  match rows with
  | [] => ([], None)
  | Raise e :: _ => ([], Some e)
  | Ok row :: rest =>
      let (written, err) := rows_until_error rest in (row :: written, err)
  end.

(** The rows of one trigger. *)
Definition trigger_rows (trigger : json) : list json * option exn :=
  match getitem trigger "items" with
  | Raise e => ([], Some e)
  | Ok items =>
      if truthy items then
        match iter items with
        | Raise e => ([], Some e)
        | Ok its => rows_until_error (map (fun it => report_row trigger (Some it)) its)
        end
      else rows_until_error [report_row trigger None]
  end.

Fixpoint report_rows (trigger_data : list json) : list json * option exn :=
  match trigger_data with
  | [] => ([], None)
  | trigger :: rest =>
      match trigger_rows trigger with
      | (rows, Some e) => (rows, Some e)
      | (rows, None) =>
          let (more, err) := report_rows rest in ((rows ++ more)%list, err)
      end
  end.

(** The file is written as far as the rows go: when a row raises, the
    rows before it are in the file and the failure is logged.  The
    content is the list of rows, after the header. *)
Definition generate_trigger_report (trigger_data : list json) (output_file : string)
  : M unit :=
  (let (rows, err) := report_rows trigger_data in
   emit (WriteFile (Msg "{}" [AVal (JStr output_file)]) (JArr rows)) ;;
   match err with
   | None => logging INFO "触发器报告已生成: {}" [AVal (JStr output_file)]
   | Some e => logging ERROR "生成触发器报告失败: {}" [AErr e]
   end)%script.

(** ** The template replacer *)

(** [enumerate(l)] *)
Definition enumerate {A} (l : list A) : list (Z * A) :=
  combine (map Z.of_nat (seq 0 (List.length l))) l.

(** One line of the preview of the triggers found. *)
Definition print_trigger_line (entry : Z * json) : M unit :=
  (host_name <- lift (getitem (snd entry) "host_name") ;;
   description <- lift (getitem (snd entry) "description") ;;
   priority <- lift (getitem (snd entry) "priority") ;;
   print "{}. 主机: {} | 触发器: {} | 优先级: {}"
         [AVal (JNum (fst entry + 1)); AVal host_name; AVal description; AVal priority])%script.

(** [if api.delete_trigger(trigger["trigger_id"]): success_count += 1; ...] *)
Definition delete_and_count (trigger : json) (success_count : Z) : K Z :=
  trigger_id <- klift (getitem trigger "trigger_id") ;;
  deleted <- delete_trigger trigger_id ;;
  if deleted then
    description <- klift (getitem trigger "description") ;;
    host_name <- klift (getitem trigger "host_name") ;;
    klog INFO "已删除触发器: {} (主机: {})" [AVal description; AVal host_name] ;;
    kret (success_count + 1)
  else kret success_count.

Definition _delete_all_triggers (trigger_data : list json) : K unit :=
  klog INFO "开始删除所有非模板触发器..." [] ;;
  success_count <- kfor_fold trigger_data delete_and_count 0 ;;
  klog INFO "删除完成: {}/{} 个触发器成功删除"
       [AVal (JNum success_count); AVal (JNum (Z.of_nat (List.length trigger_data)))].

(** [[int(x.strip()) - 1 for x in indices_input.split(',')]] *)
Definition parse_indices (indices_input : string) : res (list Z) :=
  map_res (fun x => match int (JStr (strip x)) with
                    | Ok n => Ok (n - 1)
                    | Raise e => Raise e
                    end)
          (split_on "," indices_input).

(** [indices_input] is the line the user types. *)
Definition _selective_delete_triggers (trigger_data : list json) (indices_input : string)
  : K unit :=
  kprint "请输入要删除的触发器编号 (用逗号分隔，如: 1,3,5):" [] ;;
  krun (for_each (enumerate trigger_data) print_trigger_line) ;;
  ktry
    (let indices_input := strip indices_input in
     if String.eqb indices_input EmptyString then
       klog INFO "未选择任何触发器" []
     else
       indices <- klift (parse_indices indices_input) ;;
       success_count <- kfor_fold indices
         (fun index success_count =>
            if (0 <=? index) && (index <? Z.of_nat (List.length trigger_data)) then
              delete_and_count (nth (Z.to_nat index) trigger_data JNull) success_count
            else
              klog WARNING "无效编号: {}" [AVal (JNum (index + 1))] ;;
              kret success_count) 0 ;;
       klog INFO "删除完成: {}/{} 个选中的触发器成功删除"
            [AVal (JNum success_count); AVal (JNum (Z.of_nat (List.length indices)))])
    (fun e =>
       match e with
       | ValueError | JSONDecodeError => klog ERROR "输入格式错误，请输入有效的数字" []
       | _ => klog ERROR "处理选择时发生错误: {}" [AErr e]
       end).

(** [choice_input] and [indices_input] are the lines the user types at
    the two prompts. *)
Definition _prompt_trigger_deletion (trigger_data : list json) (report_file : string)
    (choice_input indices_input : string) : K unit :=
  kprint "============================================================" [] ;;
  kprint "检测到非模板触发器！" [] ;;
  kprint "详细信息请查看报告文件: {}" [AVal (JStr report_file)] ;;
  kprint "共发现 {} 个非模板触发器" [AVal (JNum (Z.of_nat (List.length trigger_data)))] ;;
  kprint "============================================================" [] ;;
  kprint "前5个触发器预览:" [] ;;
  krun (for_each (enumerate (firstn 5 trigger_data)) print_trigger_line) ;;
  (if 5 <? Z.of_nat (List.length trigger_data) then
     kprint "... 还有 {} 个触发器，详见报告文件"
            [AVal (JNum (Z.of_nat (List.length trigger_data) - 5))]
   else kret tt) ;;
  kprint "请选择操作:" [] ;;
  kprint "1. 删除所有非模板触发器" [] ;;
  kprint "2. 手动选择删除" [] ;;
  kprint "3. 跳过删除" [] ;;
  ktry
    (let choice := strip choice_input in
     if String.eqb choice "1" then _delete_all_triggers trigger_data
     else if String.eqb choice "2" then _selective_delete_triggers trigger_data indices_input
     else if String.eqb choice "3" then klog INFO "跳过删除操作" []
     else klog WARNING "无效选择，跳过删除操作" [])
    (fun e => klog ERROR "处理用户输入时发生错误: {}" [AErr e]).

(** [ts] is the reading of the clock. *)
Definition _check_non_template_triggers (hosts : list json) (ts : string)
    (choice_input indices_input : string) : K unit :=
  klog INFO "开始检查迁移后的非模板触发器..." [] ;;
  all_trigger_data <- kfor_fold hosts
    (fun host all_trigger_data =>
       host_id <- klift (getitem host "hostid") ;;
       host_name <- klift (getitem host "name") ;;
       trigger_data <- analyze_host_triggers host_id host_name ;;
       kret (all_trigger_data ++ trigger_data)%list) [] ;;
  match all_trigger_data with
  | [] => klog INFO "未发现非模板触发器" []
  | _ =>
      let report_file := "non_template_triggers_" ++ ts ++ ".csv" in
      krun (generate_trigger_report all_trigger_data report_file) ;;
      klog INFO "发现 {} 个非模板触发器"
           [AVal (JNum (Z.of_nat (List.length all_trigger_data)))] ;;
      klog INFO "详细报告已保存到: {}" [AVal (JStr report_file)] ;;
      _prompt_trigger_deletion all_trigger_data report_file choice_input indices_input
  end.

(** The loop of [replace_templates_in_group] over the hosts found:
    [acc] is the pair of [success_count] and [replaced_hosts]. *)
Definition replace_in_host (old_template new_template host : json)
    (acc : Z * list json) : K (Z * list json) :=
  host_id <- klift (getitem host "hostid") ;;
  old_template_id <- klift (getitem old_template "templateid") ;;
  new_template_id <- klift (getitem new_template "templateid") ;;
  replaced <- replace_host_template host_id old_template_id new_template_id ;;
  if replaced then kret (fst acc + 1, (snd acc ++ [host])%list) else kret acc.

(** The block under [with ZabbixAPI(self.config) as api] in
    [replace_templates_in_group]. *)
Definition replace_in_group (group_name old_template_name new_template_name : string)
    (check_triggers : bool) (ts choice_input indices_input : string) : K unit :=
  group <- get_hostgroup_by_name group_name ;;
  if negb (truthy group) then
    klog ERROR "主机组 '{}' 不存在" [AVal (JStr group_name)]
  else
    old_template <- get_template_by_name old_template_name ;;
    if negb (truthy old_template) then
      klog ERROR "旧模板 '{}' 不存在" [AVal (JStr old_template_name)]
    else
      new_template <- get_template_by_name new_template_name ;;
      if negb (truthy new_template) then
        klog ERROR "新模板 '{}' 不存在" [AVal (JStr new_template_name)]
      else
        group_id <- klift (getitem group "groupid") ;;
        old_template_id <- klift (getitem old_template "templateid") ;;
        hosts <- get_hosts_in_group_with_template group_id old_template_id ;;
        if negb (truthy hosts) then
          klog INFO "主机组 '{}' 中没有使用模板 '{}' 的主机"
               [AVal (JStr group_name); AVal (JStr old_template_name)]
        else
          n <- klift (len hosts) ;;
          klog INFO "找到 {} 个主机需要替换模板" [AVal (JNum n)] ;;
          hs <- klift (iter hosts) ;;
          acc <- kfor_fold hs (replace_in_host old_template new_template) (0, []) ;;
          n' <- klift (len hosts) ;;
          klog INFO "模板替换完成: {}/{} 个主机成功" [AVal (JNum (fst acc)); AVal (JNum n')] ;;
          match check_triggers, snd acc with
          | true, _ :: _ =>
              _check_non_template_triggers (snd acc) ts choice_input indices_input
          | _, _ => kret tt
          end.

(** The block under [with ZabbixAPI(self.config) as api] in
    [replace_template_for_host]. *)
Definition replace_in_one_host (host_identifier old_template_name new_template_name : string)
    (by_id check_triggers : bool) (ts choice_input indices_input : string) : K unit :=
  let identifier_type := if by_id then "ID" else "名称" in
  host <- (if by_id then get_host_by_id (JStr host_identifier)
           else get_host_by_name host_identifier) ;;
  if negb (truthy host) then
    klog ERROR "主机 {} '{}' 不存在" [AVal (JStr identifier_type); AVal (JStr host_identifier)]
  else
    old_template <- get_template_by_name old_template_name ;;
    if negb (truthy old_template) then
      klog ERROR "旧模板 '{}' 不存在" [AVal (JStr old_template_name)]
    else
      new_template <- get_template_by_name new_template_name ;;
      if negb (truthy new_template) then
        klog ERROR "新模板 '{}' 不存在" [AVal (JStr new_template_name)]
      else
        host_id <- klift (getitem host "hostid") ;;
        old_template_id <- klift (getitem old_template "templateid") ;;
        new_template_id <- klift (getitem new_template "templateid") ;;
        replaced <- replace_host_template host_id old_template_id new_template_id ;;
        if replaced then
          host_name <- klift (getitem host "name") ;;
          klog INFO "主机 '{}' 模板替换成功" [AVal host_name] ;;
          if check_triggers
          then _check_non_template_triggers [host] ts choice_input indices_input
          else kret tt
        else
          host_name <- klift (getitem host "name") ;;
          klog ERROR "主机 '{}' 模板替换失败" [AVal host_name].

(* end of the client methods *)
Local Close Scope client_scope.

(** ** The two operations of [TemplateReplacer]

    Each one runs its block with a fresh client and logs the exception
    that leaves the block, if any.  [ts] is the reading of the clock,
    [choice_input] and [indices_input] the lines the user types. *)

Definition session {A} (block : K A) : M unit :=
  out <- with_api block new_client ;;
  match fst out with
  | Ok _ => ret tt
  | Raise e => logging ERROR "模板替换过程中发生错误: {}" [AErr e]
  end.

Definition replace_templates_in_group (group_name old_template_name new_template_name : string)
    (check_triggers : bool) (ts choice_input indices_input : string) : M unit :=
  logging INFO "开始在主机组 '{}' 中替换模板" [AVal (JStr group_name)] ;;
  logging INFO "旧模板: {}" [AVal (JStr old_template_name)] ;;
  logging INFO "新模板: {}" [AVal (JStr new_template_name)] ;;
  session (replace_in_group group_name old_template_name new_template_name
             check_triggers ts choice_input indices_input).

Definition replace_template_for_host (host_identifier old_template_name new_template_name : string)
    (by_id check_triggers : bool) (ts choice_input indices_input : string) : M unit :=
  logging INFO "开始为主机 {} '{}' 替换模板"
          [AVal (JStr (if by_id then "ID" else "名称")); AVal (JStr host_identifier)] ;;
  logging INFO "旧模板: {}" [AVal (JStr old_template_name)] ;;
  logging INFO "新模板: {}" [AVal (JStr new_template_name)] ;;
  session (replace_in_one_host host_identifier old_template_name new_template_name
             by_id check_triggers ts choice_input indices_input).

(* ================================================================== *)
(** * Notions the properties are stated with *)
(* ================================================================== *)

(** What [call_api] makes of the transport's answer. *)
Definition decoded (t : transport) : res json :=
  match received t with
  | Raise e => Raise e
  | Ok response =>
      match response_json response with
      | Raise e => Raise e
      | Ok result =>
          match contains_key "error" result with
          | Raise e => Raise e
          | Ok true =>
              match getitem result "error" with
              | Ok err => Raise (Exception err)
              | Raise e => Raise e
              end
          | Ok false => getitem result "result"
          end
      end
  end.

(** An HTTP status that [raise_for_status] rejects. *)
Definition http_failure (st : Z) : bool := (400 <=? st) && (st <? 600).

Definition is_object (v : json) : bool :=
  match v with JObj _ => true | _ => false end.

(** The JSON object [v] has the field [key]. *)
Definition has_field (key : string) (v : json) : bool :=
  match v with
  | JObj m => match assoc key m with Some _ => true | None => false end
  | _ => false
  end.

(** The five failures the API client's contract lists: the transport
    times out, the connection cannot be established, the HTTP status
    indicates failure, the body is not valid JSON, the JSON-RPC response
    contains an [error] field. *)
Definition listed_failure (t : transport) : bool :=
  match t with
  | TimedOut => true
  | Refused => true
  | Reply st None => true
  | Reply st (Some v) => http_failure st || has_field "error" v
  end.

(** The body is valid JSON but not an object. *)
Definition non_object_body (t : transport) : bool :=
  match t with
  | Reply _ (Some v) => negb (is_object v)
  | _ => false
  end.

(** The answers on which the free function [call_api] raises. *)
Definition call_api_failure (t : transport) : bool :=
  match t with
  | TimedOut => true
  | Refused => true
  | Reply _ None => true
  | Reply _ (Some v) =>
      negb (is_object v) || has_field "error" v || negb (has_field "result" v)
  end.

(** A server that gives the same answer to every request. *)
Definition constant_server (t : transport) : unit -> request -> transport * unit :=
  fun s _ => (t, s).

(** A well-formed JSON-RPC answer carrying [result]. *)
Definition ok_body (result : json) : json :=
  JObj [("jsonrpc", JStr "2.0"); ("result", result); ("id", JNum 1)].

Definition ok_reply (result : json) : transport := Reply 200 (Some (ok_body result)).

(** A JSON-RPC error answer. *)
Definition error_reply : transport :=
  Reply 200 (Some (JObj [("jsonrpc", JStr "2.0");
                         ("error", JObj [("code", JNum (-32602));
                                         ("message", JStr "Invalid params.");
                                         ("data", JStr "No permissions to referred object.")]);
                         ("id", JNum 1)])).

(** A server without state that answers from a table of methods and
    parameters, and with [default] for any other request. *)
Fixpoint table_answer (table : list (string * json * transport)) (default : transport)
    (r : request) : transport :=
  match table with
  | [] => default
  | (m, p, t) :: rest =>
      if String.eqb (method r) m && eq (params r) p then t
      else table_answer rest default r
  end.

Definition table_server (table : list (string * json * transport)) (default : transport)
  : unit -> request -> transport * unit :=
  fun s r => (table_answer table default r, s).

(** A server on which group 12 holds a host. *)
Definition occupied_group_server : unit -> request -> transport * unit :=
  table_server
    [("host.get", empty_check_params 12, ok_reply (JArr [JObj [("hostid", JStr "10084")]]))]
    (ok_reply (JArr [])).

(** A server that refuses the emptiness check of group 12. *)
Definition failing_check_server : unit -> request -> transport * unit :=
  table_server [("host.get", empty_check_params 12, error_reply)] (ok_reply (JArr [])).

(** A server on which group 12 holds no host. *)
Definition empty_group_server : unit -> request -> transport * unit :=
  table_server [("host.get", empty_check_params 12, ok_reply (JArr []))]
               (ok_reply (JObj [("groupids", JArr [JStr "12"])])).

(** The names [rename_group] looks up for [original_name], in order:
    the name itself, then the name behind each prefix. *)
Definition candidates (original_name : string) : list string :=
  original_name :: map (fun prefix => prefix ++ original_name) prefixes.

(** The request of the lookup of a group by name. *)
Definition lookup_request (tok : json) (name : string) : request :=
  api_request "hostgroup.get" (lookup_params name) tok.

(** The lookups of [names], made one after the other from state [s], all
    return an empty (false) result: the state reached and the events
    emitted, [None] if some lookup raises or finds something. *)
Fixpoint misses (names : list string) (tok : json) (s : Srv)
  : option (Srv * list event) :=
  match names with
  | [] => Some (s, [])
  | name :: rest =>
      match call_api "hostgroup.get" (lookup_params name) tok s with
      | (Ok r, s1, ev1) =>
          if truthy r then None
          else match misses rest tok s1 with
               | Some (s2, ev2) => Some (s2, (ev1 ++ ev2)%list)
               | None => None
               end
      | _ => None
      end
  end.

(** A server that knows the single group "x_X", of id 7, with one host. *)
Definition prefixed_group_server : unit -> request -> transport * unit :=
  table_server
    [("hostgroup.get", lookup_params "x_X",
      ok_reply (JArr [JObj [("groupid", JStr "7"); ("name", JStr "x_X");
                            ("hosts", JArr [JObj [("hostid", JStr "10084")]])]]))]
    (ok_reply (JArr [])).

(** A server on which every lookup by name finds two groups. *)
Definition ambiguous_server : unit -> request -> transport * unit :=
  constant_server
    (ok_reply (JArr [JObj [("groupid", JStr "7"); ("name", JStr "X"); ("hosts", JArr [])];
                     JObj [("groupid", JStr "8"); ("name", JStr "X"); ("hosts", JArr [])]])).

(** A server without any group. *)
Definition no_group_server : unit -> request -> transport * unit :=
  constant_server (ok_reply (JArr [])).





(** The same server without the group "下线": creating a group gives
    the id 100. *)
Definition no_offline_server : unit -> request -> transport * unit :=
  table_server
    [("hostgroup.get", lookup_params "测试组",
      ok_reply (JArr [JObj [("groupid", JStr "7"); ("name", JStr "测试组");
                            ("hosts", JArr [JObj [("hostid", JStr "10084")];
                                            JObj [("hostid", JStr "10085")]])]]));
     ("hostgroup.get", target_params "下线", ok_reply (JArr []));
     ("hostgroup.create", create_params "下线",
      ok_reply (JObj [("groupids", JArr [JStr "100"])]))]
    (ok_reply (JObj [("hostids", JArr [JStr "10084"])])).


(** The id of a snapshot host ([None] when it has none). *)
Definition hostid_of (host : json) : json :=
  match getitem host "hostid" with
  | Ok hostid => hostid
  | Raise _ => JNull
  end.

(** The request for a snapshot host's groups. *)
Definition host_groups_request (tok host : json) : request :=
  api_request "host.get" (host_groups_params (hostid_of host)) tok.

(** Every request a computation sends, from any state, has a method
    that satisfies [P]. *)
Definition only {A} (P : string -> Prop) (m : M A) : Prop :=
  forall s r s1 ev, m s = (r, s1, ev) -> Forall P (methods_called ev).

(** A snapshot host. *)
Definition snapshot_host (hostid name : string) : json :=
  JObj [("hostid", JStr hostid); ("name", JStr name)].

(** The answer of [host.get] for a host that is in the groups [ids]. *)
Definition host_in_groups (hostid : string) (ids : list string) : transport :=
  ok_reply (JArr [JObj [("hostid", JStr hostid);
                        ("groups", JArr (map (fun i => JObj [("groupid", JStr i)]) ids))]]).

(** A server after an offline move: the group "下线" has id 99, host
    10084 is in the groups 99 and 5, host 10085 in the group 99 alone,
    and no other host exists. *)
Definition restore_server : unit -> request -> transport * unit :=
  table_server
    [("hostgroup.get", offline_params, ok_reply (JArr [JObj [("groupid", JStr "99")]]));
     ("host.get", host_groups_params (JStr "10084"), host_in_groups "10084" ["99"; "5"]);
     ("host.get", host_groups_params (JStr "10085"), host_in_groups "10085" ["99"])]
    (ok_reply (JArr [])).

(** The answer of the lookup of group 7 when its name is [name]. *)
Definition group_7_named (name : string) : transport :=
  ok_reply (JArr [JObj [("groupid", JStr "7"); ("name", JStr name)]]).

(** The snapshot entry of the group "original", of id 7, with [hosts]. *)
Definition snapshot_entry (hosts : list json) : string * json :=
  ("original", JObj [("groupid", JStr "7"); ("hosts", JArr hosts)]).

(** A server on which group 7 is now called "renamed" and the lookup of
    the groups named "下线" is refused. *)
Definition failing_offline_server : unit -> request -> transport * unit :=
  table_server
    [("hostgroup.get", group_by_id_params (JStr "7"), group_7_named "renamed");
     ("hostgroup.get", offline_params, error_reply)]
    (ok_reply (JArr [])).

(** [restore_server] with group 7, now called [name]. *)
Definition rollback_server (name : string) : unit -> request -> transport * unit :=
  table_server
    [("hostgroup.get", group_by_id_params (JStr "7"), group_7_named name);
     ("hostgroup.get", offline_params, ok_reply (JArr [JObj [("groupid", JStr "99")]]));
     ("host.get", host_groups_params (JStr "10084"), host_in_groups "10084" ["99"; "5"]);
     ("host.get", host_groups_params (JStr "10085"), host_in_groups "10085" ["99"])]
    (ok_reply (JArr [])).

(** An event that is neither an error record nor a [host.update]
    request. *)
Definition clean (e : event) : bool :=
  match e with
  | Log ERROR _ => false
  | Call r => negb (String.eqb (method r) "host.update")
  | _ => true
  end.

(** The server no longer knows the snapshot host [host]: in every state
    the request for its groups returns an empty result. *)
Definition gone (tok host : json) : Prop :=
  (exists hostid, getitem host "hostid" = Ok hostid) /\
  forall s : Srv, exists r,
    fst (fst (call_api "host.get" (host_groups_params (hostid_of host)) tok s)) = Ok r /\
    truthy r = false.

(** A server on which group 7, called [name], and the group "下线"
    exist, and no host does. *)
Definition hostless_server (name : string) : unit -> request -> transport * unit :=
  table_server
    [("hostgroup.get", group_by_id_params (JStr "7"), group_7_named name);
     ("hostgroup.get", offline_params, ok_reply (JArr [JObj [("groupid", JStr "99")]]))]
    (ok_reply (JArr [])).

(** Two runs give the same value and the same state, and the same
    events but for the single event [x] that the first one has in
    addition (if it has it at all). *)
Definition differ_by {A} (x : event) (t1 t2 : res A * Srv * list event) : Prop :=
  t1 = t2 \/
  exists r s ea eb,
    t1 = (r, s, (ea ++ x :: eb)%list) /\ t2 = (r, s, (ea ++ eb)%list).

(** The line of the CSV file with these two columns. *)
Definition csv_row (original_name new_name : string) : json :=
  JObj [("原系统名称", JStr original_name); ("修改后系统名称", JStr new_name)].

(** The echo of a row read from the CSV file. *)
Definition row_echo (row : json) : event := Print (Msg "读取行数据：{}" [AVal row]).

(** ** A small Zabbix server, for runs from end to end

    Groups with an id and a name, hosts with the ids of their groups,
    and the next id to give to a group.  It answers the requests the
    group scripts send, and changes its state as Zabbix does. *)
Record zabbix : Type := Zabbix {
  zgroups : list (string * string);
  zhosts : list (string * list string);
  znext : Z
}.

(** The text of an id given as a string or as a number. *)
Definition id_text (v : json) : option string :=
  match v with
  | JStr s => Some s
  | JNum n => Some (str_of_int n)
  | _ => None
  end.

Definition id_texts (v : json) : list string :=
  match v with
  | JArr l => flat_map (fun x => match id_text x with Some s => [s] | None => [] end) l
  | _ => match id_text v with Some s => [s] | None => [] end
  end.

Definition field (key : string) (v : json) : option json :=
  match getitem v key with Ok x => Some x | Raise _ => None end.

Definition mem (x : string) (l : list string) : bool := existsb (String.eqb x) l.

(** A group as [hostgroup.get] shows it, with its hosts if asked. *)
Definition shown_group (z : zabbix) (with_hosts : bool) (g : string * string) : json :=
  JObj ([("groupid", JStr (fst g)); ("name", JStr (snd g))] ++
        (if with_hosts
         then [("hosts",
                JArr (map (fun h => JObj [("hostid", JStr (fst h))])
                          (filter (fun h => mem (fst g) (snd h)) (zhosts z))))]
         else []))%list.

Definition shown_host (h : string * list string) : json :=
  JObj [("hostid", JStr (fst h));
        ("groups", JArr (map (fun i => JObj [("groupid", JStr i)]) (snd h)))].

Definition zabbix_serve (z : zabbix) (r : request) : transport * zabbix :=
  let p := params r in
  if String.eqb (method r) "user.login" then (ok_reply (JStr "token"), z)
  else if String.eqb (method r) "hostgroup.get" then
    let with_hosts := match field "selectHosts" p with Some _ => true | None => false end in
    let chosen :=
      match field "filter" p, field "groupids" p with
      | Some f, _ =>
          match field "name" f with
          | Some (JStr n) => filter (fun g => String.eqb (snd g) n) (zgroups z)
          | _ => zgroups z
          end
      | None, Some ids => filter (fun g => mem (fst g) (id_texts ids)) (zgroups z)
      | None, None => zgroups z
      end in
    (ok_reply (JArr (map (shown_group z with_hosts) chosen)), z)
  else if String.eqb (method r) "hostgroup.create" then
    match field "name" p with
    | Some (JStr n) =>
        let i := str_of_int (znext z) in
        (ok_reply (JObj [("groupids", JArr [JStr i])]),
         {| zgroups := (zgroups z ++ [(i, n)])%list; zhosts := zhosts z;
            znext := znext z + 1 |})
    | _ => (error_reply, z)
    end
  else if String.eqb (method r) "hostgroup.update" then
    match field "groupid" p, field "name" p with
    | Some i, Some (JStr n) =>
        (ok_reply (JObj [("groupids", JArr [i])]),
         {| zgroups := map (fun g => if mem (fst g) (id_texts i) then (fst g, n) else g)
                           (zgroups z);
            zhosts := zhosts z; znext := znext z |})
    | _, _ => (error_reply, z)
    end
  else if String.eqb (method r) "hostgroup.delete" then
    (ok_reply (JObj [("groupids", p)]),
     {| zgroups := filter (fun g => negb (mem (fst g) (id_texts p))) (zgroups z);
        zhosts := zhosts z; znext := znext z |})
  else if String.eqb (method r) "host.get" then
    match field "hostids" p, field "groupids" p with
    | Some ids, _ =>
        (ok_reply (JArr (map shown_host
                             (filter (fun h => mem (fst h) (id_texts ids)) (zhosts z)))), z)
    | None, Some ids =>
        (ok_reply (JArr (map (fun h => JObj [("hostid", JStr (fst h))])
                             (firstn 1 (filter (fun h => existsb (fun i => mem i (snd h))
                                                                 (id_texts ids))
                                               (zhosts z))))), z)
    | None, None => (ok_reply (JArr (map shown_host (zhosts z))), z)
    end
  else if String.eqb (method r) "host.update" then
    match field "hostid" p, field "groups" p with
    | Some i, Some (JArr gs) =>
        let ids := flat_map (fun g => match field "groupid" g with
                                      | Some x => id_texts x
                                      | None => []
                                      end) gs in
        (ok_reply (JObj [("hostids", JArr [i])]),
         {| zgroups := zgroups z;
            zhosts := map (fun h => if mem (fst h) (id_texts i) then (fst h, ids) else h)
                          (zhosts z);
            znext := znext z |})
    | _, _ => (error_reply, z)
    end
  else (error_reply, z).

(** The final state of the server after a run. *)
Definition final_state {A} (t : res A * zabbix * list event) : zabbix := snd (fst t).

(** The group "x_测试组" (id 7) with the hosts 10084 and 10085, and the
    group "other" (id 5) with the host 10084. *)
Definition two_groups : zabbix :=
  {| zgroups := [("7", "x_测试组"); ("5", "other")];
     zhosts := [("10084", ["7"; "5"]); ("10085", ["7"])];
     znext := 100 |}.

(** The snapshot of [two_groups], as the backup writes it. *)
Definition two_groups_backup : json :=
  JObj [("x_测试组",
         JObj [("groupid", JStr "7");
               ("hosts", JArr [snapshot_host "10084" "web"; snapshot_host "10085" "db"])]);
        ("other",
         JObj [("groupid", JStr "5");
               ("hosts", JArr [snapshot_host "10084" "web"])])].

(** ** Notions for the behaviour on every server *)

(** No exception leaves the computation, whatever the server does. *)
Definition never_raises {A} (m : M A) : Prop :=
  forall s, exists v s1 ev, m s = (Ok v, s1, ev).

(** The number of requests for [name] among the events. *)
Definition count_method (name : string) (evs : list event) : nat :=
  List.length (filter (String.eqb name) (methods_called evs)).

(** The contents of the files written, in order. *)
Definition files_written (evs : list event) : list json :=
  flat_map (fun e => match e with WriteFile _ content => [content] | _ => [] end) evs.

(** A line printed or a log record. *)
Definition is_output (e : event) : bool :=
  match e with
  | Print _ | Log _ _ => true
  | _ => false
  end.

(** A computation that stays on this side of the network: it leaves the
    server as it is and only prints and logs. *)
Definition local {A} (m : M A) : Prop :=
  forall s r s1 ev, m s = (r, s1, ev) -> s1 = s /\ forallb is_output ev = true.

(** The request with which the backup reads all groups and their hosts. *)
Definition backup_request (tok : json) : request :=
  api_request "hostgroup.get"
    (JObj [("output", JArr [JStr "groupid"; JStr "name"]);
           ("selectHosts", JArr [JStr "hostid"; JStr "name"])]) tok.




(** A request that changes nothing on the server: the login or a group
    lookup. *)
Definition reads_only (r : request) : bool :=
  String.eqb (method r) "user.login" || String.eqb (method r) "hostgroup.get".

(** Up to the first file written, every request only reads. *)
Fixpoint backed_up_first (evs : list event) : bool :=
  match evs with
  | [] => true
  | WriteFile _ _ :: _ => true
  | Call r :: rest => reads_only r && backed_up_first rest
  | _ :: rest => backed_up_first rest
  end.

(** An event that changes nothing, on the server or on the disk. *)
Definition harmless (e : event) : bool :=
  match e with
  | Call r => reads_only r
  | WriteFile _ _ => false
  | _ => true
  end.

(** Every request the computation sends has a method that satisfies
    [P], and the value it returns, when it returns one, satisfies [Q]. *)
Definition within {A} (P : string -> Prop) (Q : A -> Prop) (m : M A) : Prop :=
  forall s r s1 ev, m s = (r, s1, ev) ->
    Forall P (methods_called ev) /\ forall v, r = Ok v -> Q v.



(** The server after group 7 was deleted: the group "下线" (id 99)
    holds the host 10084, and the next group created gets the id 100. *)
Definition after_deletion : zabbix :=
  {| zgroups := [("99", "下线")]; zhosts := [("10084", ["99"])]; znext := 100 |}.

(** The request is for the method [name]. *)
Definition is_method (name : string) (r : request) : bool :=
  String.eqb (method r) name.

(** ** Notions for the client's methods *)

(** The object after one call of [_call_api]. *)
Definition next_request (self : ZabbixAPI) : ZabbixAPI :=
  {| config_url := config_url self; config_timeout := config_timeout self;
     auth_token := auth_token self; request_id := request_id self + 1 |}.

(** The [Authorization] header of a request that needs one. *)
Definition bearer_of (self : ZabbixAPI) : option json :=
  if truthy (auth_token self) then Some (auth_token self) else None.

(** A method returns an outcome, and [Inv] relates the object before,
    the requests sent and the object after. *)
Definition kinv {A} (Inv : ZabbixAPI -> list request -> ZabbixAPI -> Prop) (m : K A)
  : Prop :=
  forall self s r s1 ev,
    m self s = (r, s1, ev) -> exists out, r = Ok out /\ Inv self (calls ev) (snd out).

(** The requests are numbered from the object's [request_id] on, and
    the object counts them. *)
Definition numbered (self : ZabbixAPI) (reqs : list request) (self' : ZabbixAPI) : Prop :=
  request_id self' = request_id self + Z.of_nat (List.length reqs) /\
  map id reqs = map (fun i => request_id self + Z.of_nat i) (seq 0 (List.length reqs)).

(** The token is left as it is, every request carries it, and every
    request is for one of the [allowed] methods. *)
Definition authorized_for (allowed : list string)
    (self : ZabbixAPI) (reqs : list request) (self' : ZabbixAPI) : Prop :=
  auth_token self' = auth_token self /\
  Forall (fun q => bearer q = bearer_of self /\ In (method q) allowed) reqs.

(** What makes [Inv] an invariant: it holds when nothing is sent, and
    it composes. *)
Definition invariant (Inv : ZabbixAPI -> list request -> ZabbixAPI -> Prop) : Prop :=
  (forall self, Inv self [] self) /\
  (forall a r1 b r2 c, Inv a r1 b -> Inv b r2 c -> Inv a (r1 ++ r2)%list c).

(** A computation that sends no request. *)
Definition silent {A} (m : M A) : Prop :=
  forall s r s1 ev, m s = (r, s1, ev) -> calls ev = [].

(** The request with which [login] logs in. *)
Definition client_login_request (self : ZabbixAPI) : request :=
  client_request self "user.login"
    (JObj [("username", JStr config_user); ("password", JStr config_password)]) false.

(** The request with which [logout] logs out. *)
Definition client_logout_request (self : ZabbixAPI) : request :=
  client_request self "user.logout" (JObj []) true.

(** The object with another token. *)
Definition with_token (v : json) (self : ZabbixAPI) : ZabbixAPI :=
  {| config_url := config_url self; config_timeout := config_timeout self;
     auth_token := v; request_id := request_id self |}.

(** The methods the blocks of the two operations may call. *)
Definition block_methods : list string :=
  ["hostgroup.get"; "template.get"; "host.get"; "host.update"; "trigger.get";
   "trigger.delete"].

(** The requests of a session whose block may call the [allowed]
    methods, run from the server state [s]: the login comes first,
    without a token; if it fails nothing follows; otherwise the requests
    of the block follow, each with the token the login returned (or
    without one, if that token is empty), and then the logout with the
    same token (or nothing, if that token is empty). *)
Definition bracketed (allowed : list string) (s : Srv) (reqs : list request) : Prop :=
  match fst (fst (api "user.login"
                      (JObj [("username", JStr config_user);
                             ("password", JStr config_password)]) false new_client s)) with
  | Ok (Ok token, _) =>
      exists middle closing,
        reqs = (client_login_request new_client :: middle ++ closing)%list /\
        Forall (fun q => bearer q = (if truthy token then Some token else None) /\
                         In (method q) allowed) middle /\
        if truthy token
        then exists q, closing = [q] /\ method q = "user.logout" /\ bearer q = Some token
        else closing = []
  | Ok (Raise _, _) => reqs = [client_login_request new_client]
  | Raise _ => False
  end.

(** A lookup that finds nothing on this server: whenever it returns,
    it returns a false value ([None]). *)
Definition finds_nothing (lookup : K json) : Prop :=
  forall self s,
    match fst (fst (lookup self s)) with
    | Ok (Ok v, _) => truthy v = false
    | _ => True
    end.

(** The lookups of [replace_templates_in_group]. *)
Definition lookup_methods : list string := ["hostgroup.get"; "template.get"].

(** A run that comes after the events [ev1]. *)
Definition after {A} (ev1 : list event) (t : res A * Srv * list event)
  : res A * Srv * list event :=
  let '(r, s, ev) := t in (r, s, (ev1 ++ ev)%list).

(** The templates attached to a host, as [host.get] shows them. *)
Definition attached_templates (host : json) : res (list json) :=
  match get host "parentTemplates" (JArr []) with
  | Ok templates => iter templates
  | Raise e => Raise e
  end.

(** The template [old_template_id] is among [templates]. *)
Definition uses_template (old_template_id : json) (templates : list json) : bool :=
  existsb (fun template =>
             match getitem template "templateid" with
             | Ok templateid => eq templateid old_template_id
             | Raise _ => false
             end) templates.

(** The host is found and the old template is attached to it. *)
Definition uses_old_template (host_id old_template_id : json) (self : ZabbixAPI) (s : Srv)
  : bool :=
  match fst (fst (get_host_by_id host_id self s)) with
  | Ok (Ok host, _) =>
      truthy host &&
      match attached_templates host with
      | Ok templates => uses_template old_template_id templates
      | Raise _ => false
      end
  | _ => false
  end.



(** What a request asks for: its method and its parameters. *)
Definition sent (q : request) : string * json := (method q, params q).

(** The id of an entry of [trigger_data] ([None] when it has none). *)
Definition trigger_id_of (entry : json) : json :=
  match getitem entry "trigger_id" with
  | Ok trigger_id => trigger_id
  | Raise _ => JNull
  end.

(** The deletion of the trigger of an entry, as it is sent. *)
Definition deletion_of (entry : json) : string * json :=
  ("trigger.delete", JArr [trigger_id_of entry]).

(** An entry of [trigger_data] with the fields the deletion and its
    records read. *)
Definition complete_entry (entry : json) : bool :=
  is_ok (getitem entry "trigger_id") && is_ok (getitem entry "description") &&
  is_ok (getitem entry "host_name") && is_ok (getitem entry "priority").

(** The position is one of [trigger_data]. *)
Definition in_range {A} (l : list A) (index : Z) : bool :=
  (0 <=? index) && (index <? Z.of_nat (List.length l)).

(** The methods of a replacement without a check of the triggers. *)
Definition replace_methods : list string :=
  ["hostgroup.get"; "template.get"; "host.get"; "host.update"].

(** The methods of an operation that deletes no trigger. *)
Definition non_deleting_methods : list string :=
  ["hostgroup.get"; "template.get"; "host.get"; "host.update"; "trigger.get"].

(** ** A server for the template replacer

    The group "Linux servers" (id 2) holds the host "web" (id 10084),
    to which the templates "old" (id 10001) and "other" (id 10050) are
    attached; the template "new" has the id 10002.  The host has three
    triggers of its own, one of which carries the id of a template. *)
Definition web_host : json :=
  JObj [("hostid", JStr "10084"); ("name", JStr "web");
        ("parentTemplates",
         JArr [JObj [("templateid", JStr "10001"); ("name", JStr "old")];
               JObj [("templateid", JStr "10050"); ("name", JStr "other")]])].

Definition web_triggers : list json :=
  [JObj [("triggerid", JStr "501"); ("description", JStr "disk full");
         ("priority", JStr "4"); ("status", JStr "0"); ("templateid", JStr "0")];
   JObj [("triggerid", JStr "502"); ("description", JStr "from a template");
         ("priority", JStr "2"); ("status", JStr "0"); ("templateid", JStr "10050")];
   JObj [("triggerid", JStr "503"); ("description", JStr "cpu load");
         ("priority", JStr "2"); ("status", JStr "1")]].

Definition template_server : unit -> request -> transport * unit :=
  table_server
    [("user.login",
      JObj [("username", JStr config_user); ("password", JStr config_password)],
      ok_reply (JStr "token"));
     ("hostgroup.get",
      JObj [("filter", JObj [("name", JStr "Linux servers")]);
            ("output", JArr [JStr "groupid"; JStr "name"])],
      ok_reply (JArr [JObj [("groupid", JStr "2"); ("name", JStr "Linux servers")]]));
     ("template.get",
      JObj [("filter", JObj [("name", JStr "old")]);
            ("output", JArr [JStr "templateid"; JStr "name"])],
      ok_reply (JArr [JObj [("templateid", JStr "10001"); ("name", JStr "old")]]));
     ("template.get",
      JObj [("filter", JObj [("name", JStr "new")]);
            ("output", JArr [JStr "templateid"; JStr "name"])],
      ok_reply (JArr [JObj [("templateid", JStr "10002"); ("name", JStr "new")]]));
     ("host.get",
      JObj [("output", JArr [JStr "hostid"; JStr "name"]);
            ("groupids", JStr "2");
            ("templateids", JStr "10001");
            ("selectParentTemplates", JArr [JStr "templateid"; JStr "name"])],
      ok_reply (JArr [web_host]));
     ("host.get", host_by_id_params (JStr "10084"), ok_reply (JArr [web_host]));
     ("trigger.get", host_triggers_params (JStr "10084"), ok_reply (JArr web_triggers))]
    (ok_reply (JArr [])).

(** An entry of the trigger data, as [analyze_host_triggers] builds it. *)
Definition sample_entry (trigger_id description : string) : json :=
  JObj [("host_name", JStr "web"); ("host_id", JStr "10084");
        ("trigger_id", JStr trigger_id); ("description", JStr description);
        ("expression", JStr "无表达式"); ("priority", JStr "警告");
        ("status", JStr "启用"); ("items", JArr [])].

(* ================================================================== *)
(** * Running computations *)
(* ================================================================== *)

Set Default Proof Using "Type".

Lemma bind_ok {A B} (m : M A) (k : A -> M B) s a s1 e1 :
  m s = (Ok a, s1, e1) ->
  bind m k s = let '(r, s2, e2) := k a s1 in (r, s2, (e1 ++ e2)%list).
Proof. intros H. unfold bind. rewrite H. reflexivity. Qed.

Lemma bind_raise {A B} (m : M A) (k : A -> M B) s e s1 e1 :
  m s = (Raise e, s1, e1) -> bind m k s = (Raise e, s1, e1).
Proof. intros H. unfold bind. rewrite H. reflexivity. Qed.

Lemma try_except_ok {A} (m : M A) h s a s1 e1 :
  m s = (Ok a, s1, e1) -> try_except m h s = (Ok a, s1, e1).
Proof. intros H. unfold try_except. rewrite H. reflexivity. Qed.

Lemma try_except_raise {A} (m : M A) h s e s1 e1 :
  m s = (Raise e, s1, e1) ->
  try_except m h s = let '(r, s2, e2) := h e s1 in (r, s2, (e1 ++ e2)%list).
Proof. intros H. unfold try_except. rewrite H. reflexivity. Qed.

(** [call_api] posts exactly one request and changes the server's state
    as that request does. *)
Lemma call_api_run method params tok s :
  call_api method params tok s =
  (decoded (fst (serve s (api_request method params tok))),
   snd (serve s (api_request method params tok)),
   [Call (api_request method params tok)]).
Proof.
  unfold call_api, bind, post, decoded.
  destruct (serve s (api_request method params tok)) as [t s1]. cbn [fst snd].
  destruct (received t) as [response|e]; [|reflexivity].
  cbn. destruct (response_json response) as [result|e]; [|reflexivity].
  cbn. destruct (contains_key "error" result) as [[|]|e]; [| |reflexivity].
  - cbn. destruct (getitem result "error"); reflexivity.
  - cbn. destruct (getitem result "result"); reflexivity.
Qed.

Lemma call_api_events method params tok s r s1 evs :
  call_api method params tok s = (r, s1, evs) ->
  evs = [Call (api_request method params tok)].
Proof. rewrite call_api_run. congruence. Qed.

(* ================================================================== *)
(** * The API client (C1) *)
(* ================================================================== *)

Lemma call_api_ok_iff (t : transport) :
  is_ok (decoded t) = negb (call_api_failure t).
Proof.
  destruct t as [| |st [v|]]; try reflexivity.
  unfold decoded, call_api_failure. cbn [received response_json body].
  destruct v as [| b | n | str | l | m]; try reflexivity.
  - cbn. destruct (str_contains "error" str); reflexivity.
  - cbn. destruct (in_list (JStr "error") l); reflexivity.
  - cbn. destruct (assoc "error" m); cbn; [reflexivity|].
    destruct (assoc "result" m); reflexivity.
Qed.

Lemma client_ok_iff self method params auth_required s :
  is_ok (fst (fst (snd (_call_api self method params auth_required) s))) =
  negb (listed_failure (fst (serve s (client_request self method params auth_required)))
        || non_object_body (fst (serve s (client_request self method params auth_required)))).
Proof.
  unfold _call_api. cbn [snd]. unfold try_except, bind, post.
  destruct (serve s (client_request self method params auth_required)) as [t s1].
  cbn [fst snd].
  destruct t as [| |st [v|]]; cbn [received listed_failure non_object_body];
    try reflexivity.
  - cbn. unfold raise_for_status, http_failure. cbn [status_code].
    destruct ((400 <=? st) && (st <? 600)); cbn; [reflexivity|].
    destruct v as [| b | n | str | l | m]; try reflexivity.
    + cbn. destruct (str_contains "error" str); reflexivity.
    + cbn. destruct (in_list (JStr "error") l); reflexivity.
    + cbn. destruct (assoc "error" m) as [err|]; cbn.
      * destruct err; cbn; try reflexivity.
        destruct (assoc "message" fields); cbn; destruct (assoc "data" fields); reflexivity.
      * destruct (assoc "result" m); reflexivity.
  - cbn. unfold raise_for_status. cbn [status_code].
    destruct ((400 <=? st) && (st <? 600)); reflexivity.
Qed.

(** C1 (amended).  [ZabbixAPI._call_api] raises exactly when one of the
    five listed failures occurs or the body is valid JSON that is not an
    object.  The free function [call_api] never looks at the HTTP status:
    it raises exactly when the transport times out or cannot connect, the
    body is not valid JSON, the body is not a JSON object, or the object
    has an [error] field or lacks a [result] field. *)
Theorem C1_api_error_signalling :
  forall (s : Srv) (self : ZabbixAPI) (method : string) (params : json)
         (auth_required : bool) (tok : json),
    is_ok (fst (fst (snd (_call_api self method params auth_required) s))) =
      negb (listed_failure (fst (serve s (client_request self method params auth_required)))
            || non_object_body (fst (serve s (client_request self method params auth_required))))
    /\
    is_ok (fst (fst (call_api method params tok s))) =
      negb (call_api_failure (fst (serve s (api_request method params tok)))).
Proof.
  intros. split.
  - apply client_ok_iff.
  - rewrite call_api_run. cbn [fst]. apply call_api_ok_iff.
Qed.

(* ================================================================== *)
(** * Cleanup of empty groups (C4, C9) *)
(* ================================================================== *)

Arguments call_api : simpl never.

(** The check on an identifier [int] accepts: one [host.get] request. *)
Lemma is_group_empty_run groupid n tok s :
  int groupid = Ok n ->
  is_group_empty groupid tok s =
  match call_api "host.get" (empty_check_params n) tok s with
  | (Ok result, s1, ev) =>
      match len result with
      | Ok l => (Ok (l =? 0), s1, ev)
      | Raise e =>
          (Ok false, s1,
           ev ++ [Log ERROR (Msg "[检查群组] 检查群组 {} 是否为空时出错：{}" [AVal groupid; AErr e])])
      end
  | (Raise e, s1, ev) =>
      (Ok false, s1,
       ev ++ [Log ERROR (Msg "[检查群组] 检查群组 {} 是否为空时出错：{}" [AVal groupid; AErr e])])
  end%list.
Proof.
  intros H. unfold is_group_empty, try_except.
  destruct groupid; try discriminate;
    unfold bind, try_int; rewrite H; cbn;
    (destruct (call_api "host.get" (empty_check_params n) tok s) as [[[result|e] s1] ev];
     cbn; [destruct (len result); cbn|]; rewrite ?app_nil_r; reflexivity).
Qed.

(** The check on an identifier [int] rejects, or on [None]: no request. *)
Lemma is_group_empty_rejected groupid e tok s :
  int groupid = Raise e ->
  exists ev, is_group_empty groupid tok s = (Ok false, s, ev) /\ calls ev = [].
Proof.
  intros H. unfold is_group_empty, try_except.
  assert (V : is_value_or_type_error e = true).
  { destruct groupid as [| b | z | str | l | m]; cbn in H;
      try discriminate; try (injection H as <-; reflexivity).
    destruct (int_of_str str); [discriminate | injection H as <-; reflexivity]. }
  destruct groupid;
    try (unfold bind, try_int; rewrite H, V; cbn; eexists; split; reflexivity).
  cbn. eexists; split; reflexivity.
Qed.

Lemma delete_empty_group_rejected groupid e name tok s :
  int groupid = Raise e ->
  exists ev, delete_empty_group groupid name tok s = (Ok false, s, ev) /\ calls ev = [].
Proof.
  intros H. unfold delete_empty_group, try_except.
  assert (V : is_value_or_type_error e = true).
  { destruct groupid as [| b | z | str | l | m]; cbn in H;
      try discriminate; try (injection H as <-; reflexivity).
    destruct (int_of_str str); [discriminate | injection H as <-; reflexivity]. }
  destruct groupid;
    try (unfold bind, try_int; rewrite H, V; cbn; eexists; split; reflexivity).
  cbn. eexists; split; reflexivity.
Qed.

(** The deletion on an identifier [int] accepts: the check, then the
    [hostgroup.delete] request if the check said the group is empty. *)
Lemma delete_empty_group_run groupid n name tok s :
  int groupid = Ok n ->
  delete_empty_group groupid name tok s =
  match is_group_empty groupid tok s with
  | (Ok false, s1, ev) =>
      (Ok false, s1,
       ev ++ [Print (Msg "[跳过删除] 群组 '{}' 不为空，跳过删除" [AVal name]);
              Log WARNING (Msg "[跳过删除] 群组 '{}' 不为空，跳过删除" [AVal name])])
  | (Ok true, s1, ev) =>
      match call_api "hostgroup.delete" (delete_params n) tok s1 with
      | (Ok _, s2, ev2) =>
          (Ok true, s2,
           ev ++ ev2 ++ [Print (Msg "[删除成功] 空群组 '{}' 已删除" [AVal name]);
                         Log INFO (Msg "[删除成功] 空群组 '{}' 已删除" [AVal name])])
      | (Raise e, s2, ev2) =>
          (Ok false, s2,
           ev ++ ev2 ++ [Print (Msg "[删除失败] 群组 '{}' 删除失败：{}" [AVal name; AErr e]);
                         Log ERROR (Msg "[删除失败] 群组 '{}' 删除失败：{}" [AVal name; AErr e])])
      end
  | (Raise e, s1, ev) =>
      (Ok false, s1,
       ev ++ [Print (Msg "[删除失败] 群组 '{}' 删除失败：{}" [AVal name; AErr e]);
              Log ERROR (Msg "[删除失败] 群组 '{}' 删除失败：{}" [AVal name; AErr e])])
  end%list.
Proof.
  intros H. unfold delete_empty_group, try_except.
  destruct groupid; try discriminate;
    unfold bind at 1; unfold try_int; rewrite H; cbn [ret];
    unfold bind at 1;
    (match goal with |- context [is_group_empty ?g tok s] =>
       destruct (is_group_empty g tok s) as [[[[|]|e] s1] ev] end;
     cbn; [ unfold bind;
            destruct (call_api "hostgroup.delete" (delete_params n) tok s1)
              as [[[r|e] s2] ev2]; cbn;
            rewrite ?app_nil_r, <- ?app_assoc; reflexivity
          | rewrite ?app_nil_r, <- ?app_assoc; reflexivity
          | rewrite ?app_nil_r, <- ?app_assoc; reflexivity ]).
Qed.

Lemma calls_app (a b : list event) : calls (a ++ b) = (calls a ++ calls b)%list.
Proof. unfold calls. apply flat_map_app. Qed.

Lemma calls_cons (e : event) (l : list event) :
  calls (e :: l) = (match e with Call r => [r] | _ => [] end ++ calls l)%list.
Proof. reflexivity. Qed.

(** Puts the requests of a concatenation of events in normal form. *)
Ltac calls_norm :=
  repeat (rewrite calls_app || rewrite calls_cons);
  change (calls []) with (@nil request);
  cbn [app]; rewrite ?app_nil_r, <- ?app_assoc; cbn [app].

Lemma methods_called_app (a b : list event) :
  methods_called (a ++ b) = (methods_called a ++ methods_called b)%list.
Proof. unfold methods_called. rewrite calls_app. apply map_app. Qed.

Lemma is_group_empty_calls groupid n tok s :
  int groupid = Ok n ->
  calls (snd (is_group_empty groupid tok s)) =
  [api_request "host.get" (empty_check_params n) tok].
Proof.
  intros H. rewrite (is_group_empty_run _ _ _ _ H), call_api_run.
  destruct (decoded _) as [result|e]; [destruct (len result)|]; reflexivity.
Qed.

(** After a check that answered [False], the deletion is given up. *)
Lemma delete_after_false_check :
  forall (s : Srv) (groupid name tok : json),
    fst (fst (is_group_empty groupid tok s)) = Ok false ->
    fst (fst (delete_empty_group groupid name tok s)) = Ok false /\
    ~ In "hostgroup.delete"
         (methods_called (snd (delete_empty_group groupid name tok s))) /\
    calls (snd (delete_empty_group groupid name tok s)) =
      calls (snd (is_group_empty groupid tok s)) /\
    snd (fst (delete_empty_group groupid name tok s)) =
      snd (fst (is_group_empty groupid tok s)).
Proof.
  intros s groupid name tok H.
  destruct (int groupid) as [n|e] eqn:E.
  - pose proof (is_group_empty_calls groupid n tok s E) as C.
    rewrite (delete_empty_group_run _ _ name _ _ E).
    destruct (is_group_empty groupid tok s) as [[[[|]|e] s1] ev];
      cbn [fst snd] in *; try discriminate.
    unfold methods_called. rewrite calls_app, C. cbn.
    repeat split. intros [F|[]]. discriminate.
  - destruct (is_group_empty_rejected groupid e tok s E) as (ev & -> & C).
    destruct (delete_empty_group_rejected groupid e name tok s E) as (ev' & -> & C').
    cbn [fst snd]. unfold methods_called. rewrite C, C'. cbn. tauto.
Qed.

(** C4. When [is_group_empty] answers [False] for a group,
    [delete_empty_group] returns [False] and issues no
    [hostgroup.delete]: it sends what the check sends and nothing more,
    and leaves the server as the check leaves it. *)
Theorem C4_nonempty_group_is_not_deleted :
  forall (s : Srv) (groupid name tok : json),
    fst (fst (is_group_empty groupid tok s)) = Ok false ->
    fst (fst (delete_empty_group groupid name tok s)) = Ok false /\
    ~ In "hostgroup.delete"
         (methods_called (snd (delete_empty_group groupid name tok s))) /\
    calls (snd (delete_empty_group groupid name tok s)) =
      calls (snd (is_group_empty groupid tok s)) /\
    snd (fst (delete_empty_group groupid name tok s)) =
      snd (fst (is_group_empty groupid tok s)).
Proof. exact delete_after_false_check. Qed.

(** C9. If the [host.get] request of the check raises, [is_group_empty]
    answers [False] and [delete_empty_group] issues no
    [hostgroup.delete]; and whenever [delete_empty_group] issues a
    [hostgroup.delete], the identifier was a number and the [host.get]
    request made for it returned a result of length zero. *)
Theorem C9_unverified_group_is_not_deleted :
  forall (s : Srv) (groupid name tok : json),
    (forall n e,
        int groupid = Ok n ->
        fst (fst (call_api "host.get" (empty_check_params n) tok s)) = Raise e ->
        fst (fst (is_group_empty groupid tok s)) = Ok false /\
        fst (fst (delete_empty_group groupid name tok s)) = Ok false /\
        ~ In "hostgroup.delete"
             (methods_called (snd (delete_empty_group groupid name tok s))))
    /\
    (In "hostgroup.delete"
        (methods_called (snd (delete_empty_group groupid name tok s))) ->
     exists n result,
       int groupid = Ok n /\
       fst (fst (call_api "host.get" (empty_check_params n) tok s)) = Ok result /\
       len result = Ok 0).
Proof.
  intros s groupid name tok. split.
  - intros n e E H.
    assert (G : fst (fst (is_group_empty groupid tok s)) = Ok false).
    { rewrite (is_group_empty_run _ _ _ _ E).
      destruct (call_api "host.get" (empty_check_params n) tok s) as [[r s1] ev].
      cbn [fst] in H. subst r. reflexivity. }
    split; [exact G|].
    destruct (delete_after_false_check s groupid name tok G) as (A & B & _).
    split; assumption.
  - intros D. destruct (int groupid) as [n|e] eqn:E.
    + exists n. revert D.
      rewrite (delete_empty_group_run _ _ name _ _ E), (is_group_empty_run _ _ _ _ E).
      rewrite call_api_run. cbn [fst].
      destruct (decoded _) as [result|e].
      * destruct (len result) as [l|e] eqn:L.
        -- destruct (l =? 0) eqn:Z.
           ++ intros _. exists result.
              apply Z.eqb_eq in Z. subst l. repeat split; try reflexivity. exact L.
           ++ cbn. intros [F|[]]. discriminate.
        -- cbn. intros [F|[]]. discriminate.
      * cbn. intros [F|[]]. discriminate.
    + destruct (delete_empty_group_rejected groupid e name tok s E) as (ev' & Q & C').
      rewrite Q in D. cbn [snd] in D. unfold methods_called in D. rewrite C' in D.
      destruct D.
Qed.

(* ================================================================== *)
(** * The rename workflow: lookup (C6) *)
(* ================================================================== *)

Lemma misses_calls names tok : forall s s1 ev,
  misses names tok s = Some (s1, ev) ->
  calls ev = map (lookup_request tok) names.
Proof.
  induction names as [|name rest IH]; intros s s1 ev H; cbn in H.
  - injection H as <- <-. reflexivity.
  - rewrite call_api_run in H.
    destruct (decoded _) as [r|e]; [|discriminate].
    destruct (truthy r); [discriminate|].
    destruct (misses rest tok _) as [[s2 ev2]|] eqn:E; [|discriminate].
    injection H as <- <-. cbn. f_equal. exact (IH _ _ _ E).
Qed.

(** The loop over the prefixes stops at the first lookup that finds
    something. *)
Lemma try_prefixes_hit original tok : forall ps pre name post r0 s s1 ev1 r s2 ev2,
  map (fun prefix => prefix ++ original) ps = (pre ++ name :: post)%list ->
  misses pre tok s = Some (s1, ev1) ->
  call_api "hostgroup.get" (lookup_params name) tok s1 = (Ok r, s2, ev2) ->
  truthy r = true ->
  exists ev,
    try_prefixes ps original tok r0 s = (Ok r, s2, ev) /\
    calls ev = map (lookup_request tok) (pre ++ [name]).
Proof.
  induction ps as [|p ps IH]; intros pre name post r0 s s1 ev1 r s2 ev2 Hsplit Hmiss Hcall Hr.
  - destruct pre; discriminate.
  - destruct pre as [|n0 pre].
    + cbn in Hsplit, Hmiss. injection Hsplit as Hn Hpost. injection Hmiss as <- <-.
      cbn [try_prefixes]. rewrite Hn. unfold bind at 1. rewrite Hcall, Hr. cbn.
      eexists. split; [reflexivity|].
      rewrite (call_api_events _ _ _ _ _ _ _ Hcall). reflexivity.
    + cbn in Hsplit. injection Hsplit as Hn Hrest.
      cbn [misses] in Hmiss.
      destruct (call_api "hostgroup.get" (lookup_params n0) tok s) as [[[r'|e'] s'] ev'] eqn:C0;
        [|discriminate].
      destruct (truthy r') eqn:T; [discriminate|].
      destruct (misses pre tok s') as [[sm evm]|] eqn:Em; [|discriminate].
      injection Hmiss as <- <-.
      destruct (IH pre name post r' s' sm evm r s2 ev2 Hrest Em Hcall Hr) as (ev & Hrun & Hcalls).
      cbn [try_prefixes]. rewrite Hn. unfold bind at 1. rewrite C0, T, Hrun.
      eexists. split; [reflexivity|].
      rewrite calls_app, Hcalls, (call_api_events _ _ _ _ _ _ _ C0). reflexivity.
Qed.

(** The loop over the prefixes, when no lookup finds anything, ends with
    an empty result. *)
Lemma try_prefixes_miss original tok : forall ps r0 s s1 ev1,
  truthy r0 = false ->
  misses (map (fun prefix => prefix ++ original) ps) tok s = Some (s1, ev1) ->
  exists r, try_prefixes ps original tok r0 s = (Ok r, s1, ev1) /\ truthy r = false.
Proof.
  induction ps as [|p ps IH]; intros r0 s s1 ev1 H0 Hmiss.
  - cbn in Hmiss. injection Hmiss as <- <-. exists r0. split; [reflexivity|exact H0].
  - cbn [map misses] in Hmiss.
    destruct (call_api "hostgroup.get" (lookup_params (p ++ original)) tok s)
      as [[[r'|e'] s'] ev'] eqn:C0; [|discriminate].
    destruct (truthy r') eqn:T; [discriminate|].
    destruct (misses _ tok s') as [[sm evm]|] eqn:Em; [|discriminate].
    injection Hmiss as <- <-.
    destruct (IH r' s' sm evm T Em) as (r & Hrun & Hr).
    exists r. split; [|exact Hr].
    cbn [try_prefixes]. unfold bind at 1. rewrite C0, T, Hrun. reflexivity.
Qed.

Lemma find_group_hit original tok pre name post s s1 ev1 r s2 ev2 :
  candidates original = (pre ++ name :: post)%list ->
  misses pre tok s = Some (s1, ev1) ->
  call_api "hostgroup.get" (lookup_params name) tok s1 = (Ok r, s2, ev2) ->
  truthy r = true ->
  exists ev,
    find_group original tok s = (Ok r, s2, ev) /\
    calls ev = map (lookup_request tok) (pre ++ [name]).
Proof.
  intros Hsplit Hmiss Hcall Hr. unfold candidates in Hsplit. unfold find_group.
  destruct pre as [|n0 pre].
  - cbn in Hsplit, Hmiss. injection Hsplit as Hn _. injection Hmiss as <- <-. subst name.
    unfold bind. rewrite Hcall, Hr. cbn. eexists. split; [reflexivity|].
    rewrite app_nil_r, (call_api_events _ _ _ _ _ _ _ Hcall). reflexivity.
  - cbn in Hsplit. injection Hsplit as Hn Hrest. subst n0.
    cbn [misses] in Hmiss.
    destruct (call_api "hostgroup.get" (lookup_params original) tok s)
      as [[[r'|e'] s'] ev'] eqn:C0; [|discriminate].
    destruct (truthy r') eqn:T; [discriminate|].
    destruct (misses pre tok s') as [[sm evm]|] eqn:Em; [|discriminate].
    injection Hmiss as <- <-.
    destruct (try_prefixes_hit original tok prefixes pre name post r' s' sm evm r s2 ev2
                Hrest Em Hcall Hr) as (ev & Hrun & Hcalls).
    unfold bind. rewrite C0, T. cbn [negb]. rewrite Hrun.
    eexists. split; [reflexivity|].
    rewrite calls_app, Hcalls, (call_api_events _ _ _ _ _ _ _ C0). reflexivity.
Qed.

Lemma find_group_miss original tok s s1 ev1 :
  misses (candidates original) tok s = Some (s1, ev1) ->
  exists r, find_group original tok s = (Ok r, s1, ev1) /\ truthy r = false.
Proof.
  intros Hmiss. unfold candidates in Hmiss. cbn [misses] in Hmiss. unfold find_group.
  destruct (call_api "hostgroup.get" (lookup_params original) tok s)
    as [[[r'|e'] s'] ev'] eqn:C0; [|discriminate].
  destruct (truthy r') eqn:T; [discriminate|].
  destruct (misses _ tok s') as [[sm evm]|] eqn:Em; [|discriminate].
  injection Hmiss as <- <-.
  destruct (try_prefixes_miss original tok prefixes r' s' sm evm T Em) as (r & Hrun & Hr).
  exists r. split; [|exact Hr].
  unfold bind. rewrite C0, T. cbn [negb]. rewrite Hrun. reflexivity.
Qed.

(** [rename_group] is the lookup followed by [apply_rename], under the
    handler that logs a failure and returns [None]. *)
Lemma rename_group_run original new tok s result s1 ev1 :
  find_group original tok s = (Ok result, s1, ev1) ->
  rename_group original new tok s =
  match apply_rename result original new tok s1 with
  | (Ok v, s2, ev2) => (Ok v, s2, ev1 ++ ev2)
  | (Raise e, s2, ev2) =>
      (Ok JNull, s2,
       (ev1 ++ ev2) ++
       [Log ERROR (Msg "[失败] 分组 '{}' 重命名为 '{}' 出错：{}"
                       [AVal (JStr original); AVal (JStr new); AErr e]);
        Print (Msg "[失败] 分组 '{}' 重命名为 '{}' 出错：{}"
                   [AVal (JStr original); AVal (JStr new); AErr e])])
  end%list.
Proof.
  intros H. unfold rename_group, try_except. unfold bind at 1. rewrite H.
  destruct (apply_rename result original new tok s1) as [[[v|e] s2] ev2]; reflexivity.
Qed.

(** C6. The lookup of [rename_group] tries the name itself, then the
    name behind [a_], ..., [z_] in this order, and stops at the first
    lookup whose result is not empty: no later lookup is made and that
    result is the one used.  When all twenty-seven lookups come back
    empty, the row is given up with the warning "not found" and no other
    request.  When the lookup finds several groups, the row is given up
    with a warning that lists all their names and no other request. *)
Theorem C6_group_lookup :
  forall (s : Srv) (original new : string) (tok : json),
    (forall pre name post s1 ev1 r s2 ev2,
        candidates original = (pre ++ name :: post)%list ->
        misses pre tok s = Some (s1, ev1) ->
        call_api "hostgroup.get" (lookup_params name) tok s1 = (Ok r, s2, ev2) ->
        truthy r = true ->
        exists ev,
          find_group original tok s = (Ok r, s2, ev) /\
          calls ev = map (lookup_request tok) (pre ++ [name]))
    /\
    (forall s1 ev1,
        misses (candidates original) tok s = Some (s1, ev1) ->
        rename_group original new tok s =
          (Ok JNull, s1,
           (ev1 ++ [Log WARNING (Msg "[未找到] 原分组：{}（已尝试所有前缀）" [AVal (JStr original)]);
                    Print (Msg "[未找到] 原分组：{}（已尝试所有前缀）" [AVal (JStr original)])])%list) /\
        calls ev1 = map (lookup_request tok) (candidates original))
    /\
    (forall g1 g2 gs names s1 ev1,
        find_group original tok s = (Ok (JArr (g1 :: g2 :: gs)), s1, ev1) ->
        map_res (fun g => getitem g "name") (g1 :: g2 :: gs) = Ok names ->
        rename_group original new tok s =
          (Ok JNull, s1,
           (ev1 ++ [Log WARNING (Msg "[匹配多个分组] 原分组：{} 匹配到多个：{}"
                                     [AVal (JStr original); AVal (JArr names)]);
                    Print (Msg "[匹配多个分组] 原分组：{} 匹配到多个：{}"
                               [AVal (JStr original); AVal (JArr names)])])%list)).
Proof.
  intros s original new tok. split; [|split].
  - intros. eapply find_group_hit; eassumption.
  - intros s1 ev1 Hmiss. split; [|exact (misses_calls _ _ _ _ _ Hmiss)].
    destruct (find_group_miss original tok s s1 ev1 Hmiss) as (r & Hrun & Hr).
    rewrite (rename_group_run _ new _ _ _ _ _ Hrun).
    unfold apply_rename. rewrite Hr. reflexivity.
  - intros g1 g2 gs names s1 ev1 Hrun Hnames.
    rewrite (rename_group_run _ new _ _ _ _ _ Hrun).
    assert (Hlt : (1 <? Z.of_nat (List.length (g1 :: g2 :: gs))) = true).
    { apply Z.ltb_lt. cbn [List.length]. lia. }
    unfold apply_rename. cbn [truthy negb len lift iter].
    unfold bind at 1. cbn [ret]. rewrite Hlt.
    unfold bind at 1. cbn [ret].
    unfold bind at 1. rewrite Hnames. reflexivity.
Qed.

(* ================================================================== *)
(** * The rename workflow: the preserved prefix (C7) *)
(* ================================================================== *)







(* ================================================================== *)
(** * The rename workflow: moving hosts to "下线" (C5) *)
(* ================================================================== *)



(** The lookup only sends [hostgroup.get] requests. *)
Lemma try_prefixes_methods original tok : forall ps r0 s r s1 ev,
  try_prefixes ps original tok r0 s = (r, s1, ev) ->
  Forall (fun m => m = "hostgroup.get") (methods_called ev).
Proof.
  induction ps as [|p ps IH]; intros r0 s r s1 ev H.
  - cbn in H. injection H as <- <- <-. constructor.
  - cbn [try_prefixes] in H. unfold bind at 1 in H. rewrite call_api_run in H.
    destruct (decoded _) as [r'|e'].
    + destruct (truthy r').
      * cbn in H. injection H as <- <- <-. repeat constructor.
      * destruct (try_prefixes ps original tok r' _) as [[r2 s2] ev2] eqn:E.
        injection H as <- <- <-.
        constructor; [reflexivity|]. exact (IH _ _ _ _ _ E).
    + injection H as <- <- <-. repeat constructor.
Qed.

Lemma find_group_methods original tok s r s1 ev :
  find_group original tok s = (r, s1, ev) ->
  Forall (fun m => m = "hostgroup.get") (methods_called ev).
Proof.
  unfold find_group. unfold bind. rewrite call_api_run.
  destruct (decoded _) as [r'|e'].
  - destruct (truthy r'); cbn [negb].
    + cbn. intros H. injection H as <- <- <-. repeat constructor.
    + destruct (try_prefixes prefixes original tok r' _) as [[r2 s2] ev2] eqn:E.
      intros H. injection H as <- <- <-.
      constructor; [reflexivity|].
      exact (try_prefixes_methods _ _ _ _ _ _ _ _ E).
  - intros H. injection H as <- <- <-. repeat constructor.
Qed.


(* ================================================================== *)
(** * Rollback: restoring the hosts of a group (C2) *)
(* ================================================================== *)







(** [restore_hosts_to_group] on a list of hosts that is not empty: the
    lookup of the groups named "下线", then the loop. *)
Lemma restore_hosts_run hs target name tok s offline_groups s1 ev_off found offs :
  hs <> [] ->
  call_api "hostgroup.get" offline_params tok s = (Ok offline_groups, s1, ev_off) ->
  iter offline_groups = Ok found ->
  map_res groupid_element found = Ok offs ->
  restore_hosts_to_group (JArr hs) target name tok s =
  let '(r, s2, ev) := for_each hs (restore_host offs target tok) s1 in
  (r, s2,
   (Print (Msg "[恢复主机] 开始恢复 {} 个主机到分组 '{}'"
               [AVal (JNum (Z.of_nat (List.length hs))); AVal (JStr name)])
    :: ev_off ++ ev)%list).
Proof.
  intros Hne Hget Hiter Hoffs. unfold restore_hosts_to_group.
  destruct hs as [|h0 rest]; [contradiction|].
  cbn [truthy negb len lift]. unfold bind at 1. cbn [ret].
  unfold bind at 1. cbn [print emit].
  unfold bind at 1. rewrite Hget.
  unfold bind at 1. rewrite Hiter. cbn [lift ret].
  unfold bind at 1. rewrite Hoffs. cbn [lift ret iter].
  unfold bind at 1. cbn [ret].
  destruct (for_each (h0 :: rest) (restore_host offs target tok) s1) as [[r s2] ev].
  cbn. rewrite ?app_nil_r. reflexivity.
Qed.


(* ================================================================== *)
(** * Rollback: one group of the snapshot (C3, C10) *)
(* ================================================================== *)

(** One step of a computation run from a known state. *)
Ltac run_step :=
  unfold bind at 1; cbn [ret lift raise emit print logging sleep_100ms].

Lemma only_ret {A} P (a : A) : only P (ret a).
Proof. intros s r s1 ev H. injection H as <- <- <-. constructor. Qed.

Lemma only_raise {A} P e : only P (@raise A e).
Proof. intros s r s1 ev H. injection H as <- <- <-. constructor. Qed.

Lemma only_lift {A} P (x : res A) : only P (lift x).
Proof. destruct x; [apply only_ret | apply only_raise]. Qed.

Lemma only_print P t a : only P (print t a).
Proof. intros s r s1 ev H. injection H as <- <- <-. constructor. Qed.

Lemma only_logging P l t a : only P (logging l t a).
Proof. intros s r s1 ev H. injection H as <- <- <-. constructor. Qed.

Lemma only_sleep P : only P sleep_100ms.
Proof. intros s r s1 ev H. injection H as <- <- <-. constructor. Qed.

Lemma only_call_api (P : string -> Prop) method params tok :
  P method -> only P (call_api method params tok).
Proof.
  intros HP s r s1 ev H. rewrite (call_api_events _ _ _ _ _ _ _ H).
  constructor; [exact HP | constructor].
Qed.

Lemma only_bind {A B} P (m : M A) (k : A -> M B) :
  only P m -> (forall a, only P (k a)) -> only P (bind m k).
Proof.
  intros Hm Hk s r s1 ev. unfold bind.
  destruct (m s) as [[[a|e] s'] ev'] eqn:E.
  - destruct (k a s') as [[r2 s2] ev2] eqn:E2. intros H. injection H as <- <- <-.
    rewrite methods_called_app. apply Forall_app.
    split; [exact (Hm _ _ _ _ E) | exact (Hk _ _ _ _ _ E2)].
  - intros H. injection H as <- <- <-. exact (Hm _ _ _ _ E).
Qed.

Lemma only_try {A} P (m : M A) (h : exn -> M A) :
  only P m -> (forall e, only P (h e)) -> only P (try_except m h).
Proof.
  intros Hm Hh s r s1 ev. unfold try_except.
  destruct (m s) as [[[a|e] s'] ev'] eqn:E.
  - intros H. injection H as <- <- <-. exact (Hm _ _ _ _ E).
  - destruct (h e s') as [[r2 s2] ev2] eqn:E2. intros H. injection H as <- <- <-.
    rewrite methods_called_app. apply Forall_app.
    split; [exact (Hm _ _ _ _ E) | exact (Hh _ _ _ _ _ E2)].
Qed.

Lemma only_for_each {A} P (l : list A) (body : A -> M unit) :
  (forall x, only P (body x)) -> only P (for_each l body).
Proof.
  intros Hb. induction l as [|x rest IH]; cbn [for_each].
  - apply only_ret.
  - apply only_bind; [apply Hb | intros _; exact IH].
Qed.

(** Proves [only P m] by following the structure of [m]. *)
Ltac only_step :=
  match goal with
  | |- only _ (bind _ _) => apply only_bind; [|intros ?]
  | |- only _ (try_except _ _) => apply only_try; [|intros ?]
  | |- only _ (ret _) => apply only_ret
  | |- only _ (raise _) => apply only_raise
  | |- only _ (lift _) => apply only_lift
  | |- only _ (print _ _) => apply only_print
  | |- only _ (logging _ _ _) => apply only_logging
  | |- only _ sleep_100ms => apply only_sleep
  | |- only _ (for_each _ _) => apply only_for_each; intros ?
  | |- only _ (call_api _ _ _) => apply only_call_api; discriminate
  | |- only _ (if ?b then _ else _) => destruct b
  | |- only _ (match ?x with _ => _ end) => destruct x
  | |- only _ (let _ := _ in _) => cbv zeta
  end.

(** The restoration never renames a group. *)
Lemma restore_hosts_only hosts target name tok :
  only (fun m => m <> "hostgroup.update") (restore_hosts_to_group hosts target name tok).
Proof.
  unfold restore_hosts_to_group, restore_host. repeat only_step.
Qed.

(** One group of the snapshot whose id the server still knows: the hosts
    are restored, then the group is renamed back if its name differs and
    the restoration did not raise. *)
Lemma rollback_existing_group tok old_name info counts s groupid hosts
      result s1 ev1 g current r_restore s2 ev_r :
  getitem info "groupid" = Ok groupid ->
  getitem info "hosts" = Ok hosts ->
  call_api "hostgroup.get" (group_by_id_params groupid) tok s = (Ok result, s1, ev1) ->
  truthy result = true ->
  first result = Ok g ->
  getitem g "name" = Ok current ->
  restore_hosts_to_group hosts groupid old_name tok s1 = (r_restore, s2, ev_r) ->
  calls (snd (rollback_group tok (old_name, info) counts s)) =
    (calls ev1 ++ calls ev_r ++
     (if is_ok r_restore && negb (eq current (JStr old_name))
      then [api_request "hostgroup.update" (rename_params groupid old_name) tok]
      else []))%list.
Proof.
  intros Hgid Hhosts Hget Htruthy Hfirst Hname Hrestore.
  unfold rollback_group. destruct counts as [success_count error_count].
  rewrite Hgid. run_step. run_step.
  unfold bind at 1. unfold try_except.
  unfold bind at 1. rewrite Hget, Htruthy. cbn [negb].
  rewrite Hfirst. run_step. rewrite Hname. run_step. run_step.
  rewrite Hhosts. run_step. unfold bind at 1. rewrite Hrestore.
  destruct r_restore as [[]|e]; cbn [is_ok andb].
  - destruct (eq current (JStr old_name)); cbn [negb].
    + cbn -[calls]. calls_norm. reflexivity.
    + unfold bind at 1. unfold bind at 1. rewrite call_api_run.
      destruct (decoded _) as [r|e]; cbn -[calls]; calls_norm; reflexivity.
  - cbn -[calls]. calls_norm. reflexivity.
Qed.

(** C3 (amended).  For a group of the snapshot whose id the server still
    knows, [rollback_group_names] first runs [restore_hosts_to_group],
    whatever the names, and then sends a [hostgroup.update] that renames
    the group back if and only if the current name differs from the
    snapshot's and the restoration returned without raising.  So when the
    names are equal no rename is sent, and the hosts are restored all the
    same. *)
Theorem C3_rename_after_restoration :
  forall (s : Srv) (tok : json) (old_name : string) (info : json) (counts : Z * Z)
         (groupid hosts result g current : json) (s1 s2 : Srv)
         (ev1 ev_r : list event) (r_restore : res unit),
    getitem info "groupid" = Ok groupid ->
    getitem info "hosts" = Ok hosts ->
    call_api "hostgroup.get" (group_by_id_params groupid) tok s = (Ok result, s1, ev1) ->
    truthy result = true ->
    first result = Ok g ->
    getitem g "name" = Ok current ->
    restore_hosts_to_group hosts groupid old_name tok s1 = (r_restore, s2, ev_r) ->
    calls (snd (rollback_group tok (old_name, info) counts s)) =
      (calls ev1 ++ calls ev_r ++
       (if is_ok r_restore && negb (eq current (JStr old_name))
        then [api_request "hostgroup.update" (rename_params groupid old_name) tok]
        else []))%list /\
    (In "hostgroup.update" (methods_called (snd (rollback_group tok (old_name, info) counts s)))
     <-> eq current (JStr old_name) = false /\ is_ok r_restore = true).
Proof.
  intros s tok old_name info counts groupid hosts result g current s1 s2 ev1 ev_r r_restore
         Hgid Hhosts Hget Htruthy Hfirst Hname Hrestore.
  pose proof (rollback_existing_group tok old_name info counts s groupid hosts result s1 ev1
                g current r_restore s2 ev_r Hgid Hhosts Hget Htruthy Hfirst Hname Hrestore)
    as Hcalls.
  split; [exact Hcalls|].
  unfold methods_called. rewrite Hcalls, !map_app.
  pose proof (restore_hosts_only hosts groupid old_name tok _ _ _ _ Hrestore) as Hr.
  rewrite Forall_forall in Hr. unfold methods_called in Hr.
  rewrite (call_api_events _ _ _ _ _ _ _ Hget). cbn [calls flat_map app map method api_request].
  split.
  - intros [F|Hin]; [discriminate|].
    apply in_app_or in Hin as [Hin|Hin]; [exfalso; exact (Hr _ Hin eq_refl)|].
    destruct (is_ok r_restore); [|destruct Hin].
    destruct (eq current (JStr old_name)); [destruct Hin|]. split; reflexivity.
  - intros [-> ->]. right. apply in_or_app. right. left. reflexivity.
Qed.

Lemma clean_no_error_log (evs : list event) :
  forallb clean evs = true -> existsb is_error_log evs = false.
Proof.
  induction evs as [|e rest IH]; [reflexivity|].
  cbn [forallb existsb]. intros H. apply andb_true_iff in H as [He Hrest].
  rewrite (IH Hrest). destruct e as [r|m|[]|ms|n c]; try reflexivity. discriminate.
Qed.

Lemma clean_no_host_update (evs : list event) :
  forallb clean evs = true -> ~ In "host.update" (methods_called evs).
Proof.
  induction evs as [|e rest IH]; [intros _ []|].
  cbn [forallb]. intros H. apply andb_true_iff in H as [He Hrest].
  destruct e as [r|m|l m|ms|n c]; try exact (IH Hrest).
  intros [F|Hin]; [|exact (IH Hrest Hin)].
  cbn in He. rewrite F in He. discriminate.
Qed.

(** A host of the snapshot that the server no longer knows: the request
    for its groups is all that happens. *)
Lemma restore_host_gone offs target tok host hostid s r s1 ev1 :
  getitem host "hostid" = Ok hostid ->
  call_api "host.get" (host_groups_params hostid) tok s = (Ok r, s1, ev1) ->
  truthy r = false ->
  restore_host offs target tok host s = (Ok tt, s1, ev1).
Proof.
  intros Hid Hget Hr. unfold restore_host. rewrite Hid. run_step.
  destruct host as [| | | | |fields]; try discriminate.
  cbn [get]. unfold bind at 1.
  assert (Hname : exists hostname,
             lift (match assoc "name" fields with
                   | Some x => Ok x
                   | None => Ok (JStr "未知名称")
                   end) s = (Ok hostname, s, [])).
  { destruct (assoc "name" fields); eexists; reflexivity. }
  destruct Hname as (hostname & ->).
  unfold try_except, bind. rewrite Hget, Hr. cbn. rewrite app_nil_r. reflexivity.
Qed.

(** The loop over hosts that are all gone. *)
Lemma restore_loop_gone offs target tok : forall hs s,
  (forall host, In host hs -> gone tok host) ->
  exists s2,
    for_each hs (restore_host offs target tok) s =
    (Ok tt, s2, map (fun host => Call (host_groups_request tok host)) hs).
Proof.
  induction hs as [|host rest IH]; intros s Hgone.
  - exists s. reflexivity.
  - destruct (Hgone host (or_introl eq_refl)) as [[hostid Hid] Hget].
    destruct (Hget s) as (r & Hr & Hfalse).
    unfold hostid_of in Hr. rewrite Hid in Hr.
    destruct (call_api "host.get" (host_groups_params hostid) tok s) as [[r' s1] ev1] eqn:C.
    cbn [fst] in Hr. subst r'.
    pose proof (restore_host_gone offs target tok host hostid s r s1 ev1 Hid C Hfalse) as Hrun.
    destruct (IH s1 (fun h Hin => Hgone h (or_intror Hin))) as (s2 & Hrest).
    exists s2. cbn [for_each map]. unfold bind. rewrite Hrun, Hrest.
    rewrite (call_api_events _ _ _ _ _ _ _ C).
    unfold host_groups_request, hostid_of. rewrite Hid. reflexivity.
Qed.

Lemma clean_host_groups_requests tok (hs : list json) :
  forallb clean (map (fun host => Call (host_groups_request tok host)) hs) = true.
Proof. induction hs as [|h rest IH]; [reflexivity|]. cbn [map forallb]. rewrite IH. reflexivity. Qed.

(** The restoration of a group whose hosts are all gone. *)
Lemma restore_hosts_gone hs target name tok s offline_groups s1 ev_off found offs :
  call_api "hostgroup.get" offline_params tok s = (Ok offline_groups, s1, ev_off) ->
  iter offline_groups = Ok found ->
  map_res groupid_element found = Ok offs ->
  (forall host, In host hs -> gone tok host) ->
  exists s2 ev,
    restore_hosts_to_group (JArr hs) target name tok s = (Ok tt, s2, ev) /\
    forallb clean ev = true.
Proof.
  intros Hoff Hiter Hoffs Hgone.
  destruct hs as [|h0 rest].
  - do 2 eexists. split; reflexivity.
  - rewrite (restore_hosts_run (h0 :: rest) target name tok s _ _ _ _ _
               ltac:(discriminate) Hoff Hiter Hoffs).
    destruct (restore_loop_gone offs target tok (h0 :: rest) s1 Hgone) as (s2 & ->).
    do 2 eexists. split; [reflexivity|].
    rewrite (call_api_events _ _ _ _ _ _ _ Hoff).
    cbn [forallb app]. rewrite clean_host_groups_requests. reflexivity.
Qed.

(** A host of the snapshot that has an id never makes the restoration
    raise: whatever goes wrong for it is caught and logged. *)
Lemma restore_host_returns offs target tok host hostid s :
  getitem host "hostid" = Ok hostid ->
  exists s1 ev, restore_host offs target tok host s = (Ok tt, s1, ev).
Proof.
  intros Hid. unfold restore_host. rewrite Hid. run_step.
  destruct host as [| | | | |fields]; try discriminate.
  cbn [get]. unfold bind at 1.
  assert (Hname : exists hostname,
             lift (match assoc "name" fields with
                   | Some x => Ok x
                   | None => Ok (JStr "未知名称")
                   end) s = (Ok hostname, s, [])).
  { destruct (assoc "name" fields); eexists; reflexivity. }
  destruct Hname as (hostname & ->).
  unfold try_except.
  match goal with
  | |- context [match ?m s with _ => _ end] =>
      destruct (m s) as [[[[]|e] s1] ev]
  end; cbn; do 2 eexists; reflexivity.
Qed.

Lemma restore_loop_returns offs target tok : forall hs s,
  (forall host, In host hs -> exists hostid, getitem host "hostid" = Ok hostid) ->
  exists s1 ev, for_each hs (restore_host offs target tok) s = (Ok tt, s1, ev).
Proof.
  induction hs as [|host rest IH]; intros s Hids.
  - do 2 eexists. reflexivity.
  - destruct (Hids host (or_introl eq_refl)) as [hostid Hid].
    destruct (restore_host_returns offs target tok host hostid s Hid) as (s1 & ev1 & Hhost).
    destruct (IH s1 (fun h Hin => Hids h (or_intror Hin))) as (s2 & ev2 & Hrest).
    cbn [for_each]. unfold bind. rewrite Hhost, Hrest. do 2 eexists. reflexivity.
Qed.

Lemma restore_hosts_returns hs target name tok s offline_groups s1 ev_off found offs :
  call_api "hostgroup.get" offline_params tok s = (Ok offline_groups, s1, ev_off) ->
  iter offline_groups = Ok found ->
  map_res groupid_element found = Ok offs ->
  (forall host, In host hs -> exists hostid, getitem host "hostid" = Ok hostid) ->
  exists s2 ev, restore_hosts_to_group (JArr hs) target name tok s = (Ok tt, s2, ev).
Proof.
  intros Hoff Hiter Hoffs Hids.
  destruct hs as [|h0 rest].
  - do 2 eexists. reflexivity.
  - rewrite (restore_hosts_run (h0 :: rest) target name tok s _ _ _ _ _
               ltac:(discriminate) Hoff Hiter Hoffs).
    destruct (restore_loop_returns offs target tok (h0 :: rest) s1 Hids) as (s2 & ev & ->).
    do 2 eexists. reflexivity.
Qed.

(** A group the server still knows counts as a success once the
    restoration has returned and the rename back, if needed, succeeds;
    the events are those of the lookup and of the restoration, and clean
    ones. *)
Lemma rollback_counts_success tok old_name info success_count error_count s groupid hosts
      result s1 ev1 g current s2 ev_r :
  getitem info "groupid" = Ok groupid ->
  getitem info "hosts" = Ok hosts ->
  call_api "hostgroup.get" (group_by_id_params groupid) tok s = (Ok result, s1, ev1) ->
  truthy result = true ->
  first result = Ok g ->
  getitem g "name" = Ok current ->
  restore_hosts_to_group hosts groupid old_name tok s1 = (Ok tt, s2, ev_r) ->
  (forall s', is_ok (fst (fst (call_api "hostgroup.update"
                                 (rename_params groupid old_name) tok s'))) = true) ->
  exists sfin evs,
    rollback_group tok (old_name, info) (success_count, error_count) s =
      (Ok (success_count + 1, error_count), sfin, evs) /\
    (forallb clean ev_r = true -> forallb clean evs = true).
Proof.
  intros Hgid Hhosts Hget Htruthy Hfirst Hname Hrestore Hrename.
  unfold rollback_group.
  rewrite Hgid. run_step. run_step.
  unfold bind at 1. unfold try_except.
  unfold bind at 1. rewrite Hget, Htruthy. cbn [negb].
  rewrite Hfirst. run_step. rewrite Hname. run_step. run_step.
  rewrite Hhosts. run_step. unfold bind at 1. rewrite Hrestore.
  rewrite (call_api_events _ _ _ _ _ _ _ Hget).
  destruct (eq current (JStr old_name)); cbn [negb].
  - cbn -[forallb]. do 2 eexists. split; [reflexivity|]. intros Hclean.
    cbn [forallb app clean]. rewrite !forallb_app, Hclean. reflexivity.
  - unfold bind at 1. unfold bind at 1.
    pose proof (Hrename s2) as Hok.
    destruct (call_api "hostgroup.update" (rename_params groupid old_name) tok s2)
      as [[[r|e] s4] ev4] eqn:C; [|discriminate].
    rewrite (call_api_events _ _ _ _ _ _ _ C).
    cbn -[forallb]. do 2 eexists. split; [reflexivity|]. intros Hclean.
    cbn [forallb app clean]. rewrite !forallb_app, Hclean. reflexivity.
Qed.

(** C10. When the request for the groups of a snapshot host returns an
    empty result, [restore_hosts_to_group] does nothing more for this
    host: no [host.update], no log record, no exception.  A group of the
    snapshot that the server still knows is counted as a success whatever
    happens to its hosts, missing ones included, as long as the lookup of
    the groups named "下线" and the rename back (if one is needed)
    succeed.  And when all its hosts are gone, the whole group is
    processed without any [host.update] and without any error record. *)
Theorem C10_missing_host_is_skipped :
  forall (tok : json),
    (forall (s : Srv) offs target host hostid r s1 ev1,
        getitem host "hostid" = Ok hostid ->
        call_api "host.get" (host_groups_params hostid) tok s = (Ok r, s1, ev1) ->
        truthy r = false ->
        restore_host offs target tok host s =
          (Ok tt, s1, [Call (api_request "host.get" (host_groups_params hostid) tok)]))
    /\
    (forall (s : Srv) old_name info success_count error_count groupid hs
            result s1 ev1 g current offline_groups s2 ev_off found offs,
        getitem info "groupid" = Ok groupid ->
        getitem info "hosts" = Ok (JArr hs) ->
        call_api "hostgroup.get" (group_by_id_params groupid) tok s = (Ok result, s1, ev1) ->
        truthy result = true ->
        first result = Ok g ->
        getitem g "name" = Ok current ->
        call_api "hostgroup.get" offline_params tok s1 = (Ok offline_groups, s2, ev_off) ->
        iter offline_groups = Ok found ->
        map_res groupid_element found = Ok offs ->
        (forall s', is_ok (fst (fst (call_api "hostgroup.update"
                                       (rename_params groupid old_name) tok s'))) = true) ->
        ((forall host, In host hs -> exists hostid, getitem host "hostid" = Ok hostid) ->
         fst (fst (rollback_group tok (old_name, info) (success_count, error_count) s)) =
           Ok (success_count + 1, error_count))
        /\
        ((forall host, In host hs -> gone tok host) ->
         ~ In "host.update"
              (methods_called
                 (snd (rollback_group tok (old_name, info) (success_count, error_count) s))) /\
         existsb is_error_log
           (snd (rollback_group tok (old_name, info) (success_count, error_count) s)) = false)).
Proof.
  intros tok. split.
  - intros s offs target host hostid r s1 ev1 Hid Hget Hr.
    rewrite (restore_host_gone offs target tok host hostid s r s1 ev1 Hid Hget Hr).
    rewrite (call_api_events _ _ _ _ _ _ _ Hget). reflexivity.
  - intros s old_name info success_count error_count groupid hs
           result s1 ev1 g current offline_groups s2 ev_off found offs
           Hgid Hhosts Hget Htruthy Hfirst Hname Hoff Hiter Hoffs Hrename.
    split.
    + intros Hids.
      destruct (restore_hosts_returns hs groupid old_name tok s1 _ _ _ _ _
                  Hoff Hiter Hoffs Hids) as (s3 & evr & Hrestore).
      destruct (rollback_counts_success tok old_name info success_count error_count s
                  groupid (JArr hs) result s1 ev1 g current s3 evr
                  Hgid Hhosts Hget Htruthy Hfirst Hname Hrestore Hrename)
        as (sfin & evs & -> & _).
      reflexivity.
    + intros Hgone.
      destruct (restore_hosts_gone hs groupid old_name tok s1 _ _ _ _ _
                  Hoff Hiter Hoffs Hgone) as (s3 & evr & Hrestore & Hclean).
      destruct (rollback_counts_success tok old_name info success_count error_count s
                  groupid (JArr hs) result s1 ev1 g current s3 evr
                  Hgid Hhosts Hget Htruthy Hfirst Hname Hrestore Hrename)
        as (sfin & evs & -> & Hall).
      cbn [snd]. specialize (Hall Hclean).
      split; [exact (clean_no_host_update evs Hall) | exact (clean_no_error_log evs Hall)].
Qed.

(* ================================================================== *)
(** * The main workflow: rows that need no change (C8) *)
(* ================================================================== *)

Lemma for_fold_app {A B} (body : A -> B -> M B) pre l : forall acc s,
  for_fold (pre ++ l) body acc s =
  match for_fold pre body acc s with
  | (Ok acc', s1, e1) =>
      let '(r, s2, e2) := for_fold l body acc' s1 in (r, s2, (e1 ++ e2)%list)
  | (Raise e, s1, e1) => (Raise e, s1, e1)
  end.
Proof.
  induction pre as [|x pre IH]; intros acc s.
  - cbn. destruct (for_fold l body acc s) as [[r s2] e2]. reflexivity.
  - cbn [app for_fold]. unfold bind.
    destruct (body x acc s) as [[[acc1|e] s1] e1]; [|reflexivity].
    rewrite IH.
    destruct (for_fold pre body acc1 s1) as [[[acc2|e] s2] e2]; [|reflexivity].
    destruct (for_fold l body acc2 s2) as [[r s3] e3].
    rewrite app_assoc. reflexivity.
Qed.

Lemma differ_by_same {A} x (t1 t2 : res A * Srv * list event) :
  differ_by x t1 t2 ->
  fst (fst t1) = fst (fst t2) /\ snd (fst t1) = snd (fst t2) /\
  (is_call x = false -> calls (snd t1) = calls (snd t2)).
Proof.
  intros [->|(r & s & ea & eb & -> & ->)]; [repeat split|].
  cbn [fst snd]. repeat split. intros Hx.
  rewrite !calls_app, calls_cons. destruct x; [discriminate| | | |]; reflexivity.
Qed.

(** An extra event in the first part of a sequence stays the only
    difference. *)
Lemma differ_bind_left {A B} x (m1 m2 : M A) (k : A -> M B) s :
  differ_by x (m1 s) (m2 s) -> differ_by x (bind m1 k s) (bind m2 k s).
Proof.
  unfold bind. intros [->|(r & s1 & ea & eb & -> & ->)]; [left; reflexivity|].
  destruct r as [a|e].
  - destruct (k a s1) as [[r2 s2] e2]. right. exists r2, s2, ea, (eb ++ e2)%list.
    rewrite <- !app_assoc. split; reflexivity.
  - right. exists (Raise e), s1, ea, eb. split; reflexivity.
Qed.

Lemma differ_bind_right {A B} x (m : M A) (k1 k2 : A -> M B) s :
  (forall a s1, differ_by x (k1 a s1) (k2 a s1)) ->
  differ_by x (bind m k1 s) (bind m k2 s).
Proof.
  intros H. unfold bind. destruct (m s) as [[[a|e] s1] e1]; [|left; reflexivity].
  destruct (H a s1) as [->|(r & s2 & ea & eb & -> & ->)]; [left; reflexivity|].
  right. exists r, s2, (e1 ++ ea)%list, eb. rewrite <- !app_assoc. split; reflexivity.
Qed.

(** A row whose new name is "无需修改" is echoed and dropped. *)
Lemma read_row_skip row v rows s :
  getitem row "修改后系统名称" = Ok (JStr v) ->
  strip v = "无需修改" ->
  read_row row rows s = (Ok rows, s, [row_echo row]).
Proof.
  intros Hcol Hstrip. unfold read_row, bind. cbn [print emit].
  rewrite Hcol. cbn [lift ret strip_value]. rewrite Hstrip. reflexivity.
Qed.

Lemma read_rows_skip pre row post v s :
  getitem row "修改后系统名称" = Ok (JStr v) ->
  strip v = "无需修改" ->
  differ_by (row_echo row) (read_rows (pre ++ row :: post) s) (read_rows (pre ++ post) s).
Proof.
  intros Hcol Hstrip. unfold read_rows. rewrite !for_fold_app.
  destruct (for_fold pre read_row [] s) as [[[acc|e] s1] e1]; [|left; reflexivity].
  cbn [for_fold]. unfold bind at 1. rewrite (read_row_skip row v acc s1 Hcol Hstrip).
  destruct (for_fold post read_row acc s1) as [[r s2] e2].
  right. exists r, s2, e1, e2. split; reflexivity.
Qed.

(** C8. A row of the CSV file whose new-name column is "无需修改" (white
    space around it apart) changes nothing in what [main] does but the
    echo of the row: the result, the final state of the server and every
    request are those of the run without the row. *)
Theorem C8_unchanged_row_is_skipped :
  forall (s : Srv) (fieldnames : json) (pre post : list json) (row : json)
         (v ts : string),
    getitem row "修改后系统名称" = Ok (JStr v) ->
    strip v = "无需修改" ->
    fst (fst (main fieldnames (pre ++ row :: post) ts s)) =
      fst (fst (main fieldnames (pre ++ post) ts s)) /\
    snd (fst (main fieldnames (pre ++ row :: post) ts s)) =
      snd (fst (main fieldnames (pre ++ post) ts s)) /\
    calls (snd (main fieldnames (pre ++ row :: post) ts s)) =
      calls (snd (main fieldnames (pre ++ post) ts s)) /\
    differ_by (row_echo row)
      (main fieldnames (pre ++ row :: post) ts s) (main fieldnames (pre ++ post) ts s).
Proof.
  intros s fieldnames pre post row v ts Hcol Hstrip.
  assert (D : differ_by (row_echo row)
                (main fieldnames (pre ++ row :: post) ts s)
                (main fieldnames (pre ++ post) ts s)).
  { unfold main. apply differ_bind_right. intros tok s1.
    apply differ_bind_right. intros _ s2.
    apply differ_bind_left. exact (read_rows_skip pre row post v s2 Hcol Hstrip). }
  destruct (differ_by_same _ _ _ D) as (A & B & C).
  repeat split; [exact A | exact B | exact (C eq_refl) | exact D].
Qed.


(* ================================================================== *)
(** * Computations that cannot raise *)
(* ================================================================== *)

Lemma never_raises_ret {A} (a : A) : never_raises (ret a).
Proof. intros s. do 3 eexists. reflexivity. Qed.

Lemma never_raises_emit (e : event) : never_raises (emit e).
Proof. intros s. do 3 eexists. reflexivity. Qed.

Lemma never_raises_bind {A B} (m : M A) (k : A -> M B) :
  never_raises m -> (forall a, never_raises (k a)) -> never_raises (bind m k).
Proof.
  intros Hm Hk s. destruct (Hm s) as (a & s1 & ev1 & E1).
  destruct (Hk a s1) as (b & s2 & ev2 & E2).
  exists b, s2, (ev1 ++ ev2)%list. unfold bind. rewrite E1, E2. reflexivity.
Qed.

(** A handler that cannot raise makes the whole [try] safe. *)
Lemma never_raises_try {A} (m : M A) (h : exn -> M A) :
  (forall e, never_raises (h e)) -> never_raises (try_except m h).
Proof.
  intros Hh s. unfold try_except.
  destruct (m s) as [[[a|e] s1] ev1].
  - do 3 eexists. reflexivity.
  - destruct (Hh e s1) as (b & s2 & ev2 & E2). rewrite E2. do 3 eexists. reflexivity.
Qed.

Lemma never_raises_for_fold {A B} (body : A -> B -> M B) (l : list A) :
  (forall x acc, never_raises (body x acc)) ->
  forall acc, never_raises (for_fold l body acc).
Proof.
  intros Hb. induction l as [|x rest IH]; intros acc; cbn [for_fold].
  - apply never_raises_ret.
  - apply never_raises_bind; [apply Hb | intros acc'; apply IH].
Qed.

(** Proves [never_raises m] by following the structure of [m]. *)
Ltac safe_step :=
  match goal with
  | |- never_raises (bind _ _) => apply never_raises_bind; [|intros ?]
  | |- never_raises (try_except _ _) => apply never_raises_try; intros ?
  | |- never_raises (ret _) => apply never_raises_ret
  | |- never_raises (print _ _) => apply never_raises_emit
  | |- never_raises (logging _ _ _) => apply never_raises_emit
  | |- never_raises sleep_100ms => apply never_raises_emit
  | |- never_raises (if ?b then _ else _) => destruct b
  end.

(** X1.  [rename_group] never raises: whatever the server answers, and
    whatever the names are, every exception of the lookup, of the move
    and of the rename is caught, and the function returns. *)
Theorem rename_group_never_raises :
  forall (original_name new_name : string) (tok : json) (s : Srv),
    exists v s1 ev, rename_group original_name new_name tok s = (Ok v, s1, ev).
Proof.
  intros original_name new_name tok.
  change (never_raises (rename_group original_name new_name tok)).
  unfold rename_group. repeat safe_step.
Qed.


(* ================================================================== *)
(** * The requests of one row *)
(* ================================================================== *)

(** Proves [only P m] where the methods [P] allows are listed by
    equations: [side] settles each request met. *)
Ltac only_walk side :=
  match goal with
  | |- only _ (bind _ _) => apply only_bind; [|intros ?]
  | |- only _ (try_except _ _) => apply only_try; [|intros ?]
  | |- only _ (ret _) => apply only_ret
  | |- only _ (raise _) => apply only_raise
  | |- only _ (lift _) => apply only_lift
  | |- only _ (print _ _) => apply only_print
  | |- only _ (logging _ _ _) => apply only_logging
  | |- only _ sleep_100ms => apply only_sleep
  | |- only _ (for_each _ _) => apply only_for_each; intros ?
  | |- only _ (call_api _ _ _) => apply only_call_api; side
  | |- only _ (if ?b then _ else _) => destruct b
  | |- only _ (match ?x with _ => _ end) => destruct x
  | |- only _ (let _ := _ in _) => cbv zeta
  end.

Lemma only_weaken {A} (P Q : string -> Prop) (m : M A) :
  (forall x, P x -> Q x) -> only P m -> only Q m.
Proof.
  intros HPQ Hm s r s1 ev H. eapply Forall_impl; [exact HPQ | exact (Hm _ _ _ _ H)].
Qed.

Lemma find_group_only original tok :
  only (fun m => m = "hostgroup.get") (find_group original tok).
Proof. intros s r s1 ev H. exact (find_group_methods _ _ _ _ _ _ H). Qed.

Lemma apply_rename_only result original new tok :
  only (fun m => if String.eqb new "下线"
                 then m = "hostgroup.get" \/ m = "hostgroup.create" \/ m = "host.update"
                 else m = "hostgroup.update")
       (apply_rename result original new tok).
Proof.
  unfold apply_rename, move_hosts_to_group, final_new_name.
  destruct (String.eqb new "下线");
    repeat only_walk ltac:(first [ reflexivity | left; reflexivity
                                 | right; left; reflexivity | right; right; reflexivity ]).
Qed.

Lemma rename_group_only original new tok :
  only (fun m => m = "hostgroup.get" \/
                 if String.eqb new "下线"
                 then m = "hostgroup.create" \/ m = "host.update"
                 else m = "hostgroup.update")
       (rename_group original new tok).
Proof.
  unfold rename_group. apply only_try; [apply only_bind|].
  - eapply only_weaken; [|apply find_group_only]. intros x Hx. left. exact Hx.
  - intros result. eapply only_weaken; [|apply apply_rename_only].
    intros x. cbv beta.
    destruct (String.eqb new "下线"); intros Hx; [exact Hx | right; exact Hx].
  - intros e. repeat only_walk ltac:(idtac).
Qed.

(** X2.  The requests of one row, on every server: [rename_group] only
    looks groups up and, for the new name "下线", creates a group and
    updates hosts, for any other name renames a group.  A rename row
    never touches a host, an offline row never renames, and no row
    deletes anything. *)
Theorem rename_group_requests :
  forall (original new : string) (tok : json) (s s1 : Srv) (r : res json)
         (ev : list event),
    rename_group original new tok s = (r, s1, ev) ->
    Forall (fun m => m = "hostgroup.get" \/
                     if String.eqb new "下线"
                     then m = "hostgroup.create" \/ m = "host.update"
                     else m = "hostgroup.update")
           (methods_called ev).
Proof.
  intros original new tok s s1 r ev H.
  exact (rename_group_only original new tok _ _ _ _ H).
Qed.

(** A computation that sends nothing. *)
Lemma only_nothing {A} (m : M A) s r s1 ev :
  only (fun _ => False) m -> m s = (r, s1, ev) -> methods_called ev = [].
Proof.
  intros O H. specialize (O _ _ _ _ H).
  destruct (methods_called ev) as [|x l]; [reflexivity|].
  inversion O as [|? ? F]. destruct F.
Qed.

Lemma final_new_name_silent old new :
  only (fun _ => False) (final_new_name old new).
Proof. unfold final_new_name. repeat only_walk ltac:(idtac). Qed.

Lemma bind_lift_ok {A B} (a : A) (k : A -> M B) s : bind (lift (Ok a)) k s = k a s.
Proof. unfold bind. cbn. destruct (k a s) as [[r s2] ev2]. reflexivity. Qed.

Lemma bind_lift_raise {A B} (e : exn) (k : A -> M B) s :
  bind (lift (Raise e)) k s = (Raise e, s, []).
Proof. reflexivity. Qed.

(** One step through an operation that may raise; [v] names its value. *)
Ltac step_lift v :=
  match goal with
  | |- bind (lift ?x) _ _ = _ -> _ =>
      destruct x as [v|?]; [rewrite bind_lift_ok; cbv beta | rewrite bind_lift_raise]
  end.

(** What [rename_group] does with the lookup's result when the new name
    is not "下线": at most one request, the rename. *)
Lemma apply_rename_renames result original new tok s r s1 ev :
  String.eqb new "下线" = false ->
  apply_rename result original new tok s = (r, s1, ev) ->
  (r = Ok JNull \/ exists e, r = Raise e) /\
  (methods_called ev = [] \/ methods_called ev = ["hostgroup.update"]).
Proof.
  intros Hn. unfold apply_rename. rewrite Hn.
  assert (Hraise : forall (e : exn) (s' : Srv),
             (@Raise json e, s', @nil event) = (r, s1, ev) ->
             (r = Ok JNull \/ exists e, r = Raise e) /\
             (methods_called ev = [] \/ methods_called ev = ["hostgroup.update"])).
  { intros e s' H. injection H as <- <- <-. split; [right; eauto | left; reflexivity]. }
  destruct (truthy result); cbn [negb].
  - step_lift n; [|apply Hraise].
    destruct (1 <? n).
    + step_lift found; [|apply Hraise].
      step_lift match_names; [|apply Hraise].
      cbn. intros H. injection H as <- <- <-. split; left; reflexivity.
    + step_lift group; [|apply Hraise].
      step_lift groupid; [|apply Hraise].
      step_lift old_name; [|apply Hraise].
      step_lift hosts; [|apply Hraise].
      step_lift hs; [|apply Hraise].
      step_lift hostids; [|apply Hraise].
      unfold bind at 1.
      destruct (final_new_name old_name new s) as [[[final|e] s'] ev'] eqn:E;
        pose proof (only_nothing _ _ _ _ _ (final_new_name_silent old_name new) E) as Hsilent.
      * unfold bind at 1. rewrite call_api_run.
        destruct (decoded _) as [x|e].
        -- cbn. intros H. injection H as <- <- <-.
           split; [left; reflexivity | right].
           rewrite methods_called_app, Hsilent. reflexivity.
        -- intros H. injection H as <- <- <-.
           split; [right; eauto | right].
           rewrite methods_called_app, Hsilent. reflexivity.
      * intros H. injection H as <- <- <-. split; [right; eauto | left; exact Hsilent].
  - cbn. intros H. injection H as <- <- <-. split; left; reflexivity.
Qed.

Lemma try_prefixes_count original tok : forall ps r0 s r s1 ev,
  try_prefixes ps original tok r0 s = (r, s1, ev) ->
  (List.length (methods_called ev) <= List.length ps)%nat.
Proof.
  induction ps as [|p ps IH]; intros r0 s r s1 ev H.
  - cbn in H. injection H as <- <- <-. cbn. lia.
  - cbn [try_prefixes] in H. unfold bind at 1 in H. rewrite call_api_run in H.
    destruct (decoded _) as [r'|e'].
    + destruct (truthy r').
      * cbn in H. injection H as <- <- <-. cbn. lia.
      * destruct (try_prefixes ps original tok r' _) as [[r2 s2] ev2] eqn:E.
        injection H as <- <- <-. specialize (IH _ _ _ _ _ E).
        unfold methods_called in *. rewrite calls_cons.
        cbn [app map List.length]. lia.
    + injection H as <- <- <-. cbn. lia.
Qed.

Lemma find_group_count original tok s r s1 ev :
  find_group original tok s = (r, s1, ev) ->
  (1 <= List.length (methods_called ev) <= 27)%nat.
Proof.
  unfold find_group. unfold bind. rewrite call_api_run.
  destruct (decoded _) as [r'|e'].
  - destruct (truthy r'); cbn [negb].
    + cbn. intros H. injection H as <- <- <-. cbn. lia.
    + destruct (try_prefixes prefixes original tok r' _) as [[r2 s2] ev2] eqn:E.
      intros H. injection H as <- <- <-.
      pose proof (try_prefixes_count _ _ _ _ _ _ _ _ E) as Hc.
      change (List.length prefixes) with 26%nat in Hc.
      unfold methods_called in *. rewrite calls_cons.
      cbn [app map List.length]. lia.
  - intros H. injection H as <- <- <-. cbn. lia.
Qed.

Lemma all_equal_repeat (x : string) (l : list string) :
  Forall (fun m => m = x) l -> l = repeat x (List.length l).
Proof.
  induction 1 as [|y l Hy _ IH]; [reflexivity|]. cbn. rewrite <- IH, Hy. reflexivity.
Qed.

Lemma rename_row_run :
  forall (original new : string) (tok : json) (s s1 : Srv) (r : res json)
         (ev : list event),
    String.eqb new "下线" = false ->
    rename_group original new tok s = (r, s1, ev) ->
    r = Ok JNull /\
    exists k, (1 <= k <= 27)%nat /\
      (methods_called ev = repeat "hostgroup.get" k \/
       methods_called ev = (repeat "hostgroup.get" k ++ ["hostgroup.update"])%list).
Proof.
  intros original new tok s s1 r ev Hn. unfold rename_group, try_except.
  unfold bind at 1.
  destruct (find_group original tok s) as [[[result|e] s'] ev'] eqn:E;
    pose proof (find_group_count _ _ _ _ _ _ E) as Hc;
    pose proof (all_equal_repeat _ _ (find_group_methods _ _ _ _ _ _ E)) as Hr.
  - destruct (apply_rename result original new tok s') as [[r2 s2] ev2] eqn:E2.
    destruct (apply_rename_renames _ _ _ _ _ _ _ _ Hn E2) as [Hres Hm].
    destruct Hres as [-> | [e ->]].
    + intros H. injection H as <- <- <-. split; [reflexivity|].
      exists (List.length (methods_called ev')). split; [exact Hc|].
      rewrite methods_called_app, <- Hr.
      destruct Hm as [-> | ->]; [left; apply app_nil_r | right; reflexivity].
    + cbn. intros H. injection H as <- <- <-. split; [reflexivity|].
      exists (List.length (methods_called ev')). split; [exact Hc|].
      rewrite !methods_called_app, <- Hr.
      change (methods_called [Log ERROR _; Print _]) with (@nil string).
      rewrite app_nil_r.
      destruct Hm as [-> | ->]; [left; apply app_nil_r | right; reflexivity].
  - cbn. intros H. injection H as <- <- <-. split; [reflexivity|].
    exists (List.length (methods_called ev')). split; [exact Hc|].
    left. rewrite methods_called_app, <- Hr.
    change (methods_called [Log ERROR _; Print _]) with (@nil string).
    apply app_nil_r.
Qed.

(** X3.  A row whose new name is not "下线": [rename_group] returns
    [None], and what it sends is between one and twenty-seven lookups
    followed by at most one rename, which is then its last request. *)
Theorem rename_row_requests :
  forall (original new : string) (tok : json) (s s1 : Srv) (r : res json)
         (ev : list event),
    String.eqb new "下线" = false ->
    rename_group original new tok s = (r, s1, ev) ->
    r = Ok JNull /\
    exists k, (1 <= k <= 27)%nat /\
      (methods_called ev = repeat "hostgroup.get" k \/
       methods_called ev = (repeat "hostgroup.get" k ++ ["hostgroup.update"])%list).
Proof. exact rename_row_run. Qed.


(* ================================================================== *)
(** * What the cleanup reports *)
(* ================================================================== *)

Lemma count_method_app name (a b : list event) :
  count_method name (a ++ b) = (count_method name a + count_method name b)%nat.
Proof.
  unfold count_method. rewrite methods_called_app, filter_app, length_app. reflexivity.
Qed.

Lemma count_method_silent name (ev : list event) :
  calls ev = [] -> count_method name ev = 0%nat.
Proof. intros H. unfold count_method, methods_called. rewrite H. reflexivity. Qed.

(** X4.  [delete_empty_group] answers [True] only for a deletion the
    server accepted: the identifier is one [int] accepts, the requests
    are the emptiness check and the [hostgroup.delete] of that same
    number, and the answer to the deletion is a JSON object with a
    [result] and without an [error]. *)
Theorem delete_empty_group_true :
  forall (s s1 : Srv) (groupid name tok : json) (ev : list event),
    delete_empty_group groupid name tok s = (Ok true, s1, ev) ->
    exists n,
      int groupid = Ok n /\
      calls ev = [api_request "host.get" (empty_check_params n) tok;
                  api_request "hostgroup.delete" (delete_params n) tok] /\
      call_api_failure
        (fst (serve (snd (serve s (api_request "host.get" (empty_check_params n) tok)))
                    (api_request "hostgroup.delete" (delete_params n) tok))) = false.
Proof.
  intros s s1 groupid name tok ev.
  destruct (int groupid) as [n|e] eqn:Hi.
  - rewrite (delete_empty_group_run _ _ _ _ _ Hi), (is_group_empty_run _ _ _ _ Hi).
    rewrite call_api_run.
    destruct (decoded _) as [result|e]; [destruct (len result) as [l|e]|];
      try (intros H; discriminate H).
    destruct (l =? 0); [|intros H; discriminate H].
    rewrite call_api_run.
    destruct (decoded _) as [x|e] eqn:Hd; [|intros H; discriminate H].
    intros H. injection H as <- <-. exists n. split; [reflexivity|]. split; [reflexivity|].
    apply negb_true_iff. rewrite <- call_api_ok_iff, Hd. reflexivity.
  - destruct (delete_empty_group_rejected _ _ name tok s Hi) as (ev' & -> & _).
    intros H. discriminate H.
Qed.

(** The deletion returns a truth value and sends at most one
    [hostgroup.delete], exactly one when it answers [True]. *)
Lemma delete_empty_group_count groupid name tok s :
  exists b s1 ev,
    delete_empty_group groupid name tok s = (Ok b, s1, ev) /\
    (if b : bool then count_method "hostgroup.delete" ev = 1
     else count_method "hostgroup.delete" ev <= 1)%nat.
Proof.
  destruct (int groupid) as [n|e] eqn:Hi.
  - rewrite (delete_empty_group_run _ _ _ _ _ Hi), (is_group_empty_run _ _ _ _ Hi).
    rewrite call_api_run.
    destruct (decoded _) as [result|e]; [destruct (len result) as [l|e]|];
      try (do 3 eexists; split; [reflexivity | cbn; lia]).
    destruct (l =? 0).
    + rewrite call_api_run.
      destruct (decoded _) as [x|e]; do 3 eexists; (split; [reflexivity | cbn; lia]).
    + do 3 eexists; split; [reflexivity | cbn; lia].
  - destruct (delete_empty_group_rejected _ _ name tok s Hi) as (ev' & -> & Hc).
    do 3 eexists. split; [reflexivity|]. rewrite (count_method_silent _ _ Hc). lia.
Qed.


Lemma bind_ret {A B} (a : A) (k : A -> M B) s : bind (ret a) k s = k a s.
Proof. unfold bind. cbn. destruct (k a s) as [[r s2] ev2]. reflexivity. Qed.

Lemma int_rejects groupid e :
  int groupid = Raise e -> is_value_or_type_error e = true.
Proof.
  destruct groupid as [| b | z | str | l | m]; cbn;
    try discriminate; try (intros H; injection H as <-; reflexivity).
  destruct (int_of_str str); [discriminate | intros H; injection H as <-; reflexivity].
Qed.

Lemma try_int_ok groupid n : int groupid = Ok n -> try_int groupid = ret (inl n).
Proof. intros H. unfold try_int. rewrite H. reflexivity. Qed.

Lemma try_int_rejected groupid e : int groupid = Raise e -> try_int groupid = ret (inr e).
Proof.
  intros H. unfold try_int. rewrite H, (int_rejects _ _ H). reflexivity.
Qed.

(** A loop whose body returns, adds at most the number of requests for
    [name] it sends to the counter, and sends at most one. *)
Lemma for_fold_counted {A} name (body : A -> Z -> M Z) :
  (forall x acc s, exists acc' s1 ev,
      body x acc s = (Ok acc', s1, ev) /\
      acc <= acc' <= acc + Z.of_nat (count_method name ev) /\
      (count_method name ev <= 1)%nat) ->
  forall l acc s, exists acc' s1 ev,
      for_fold l body acc s = (Ok acc', s1, ev) /\
      acc <= acc' <= acc + Z.of_nat (count_method name ev) /\
      (count_method name ev <= List.length l)%nat.
Proof.
  intros Hb. induction l as [|x rest IH]; intros acc s; cbn [for_fold].
  - exists acc, s, []. split; [reflexivity|]. cbn. lia.
  - destruct (Hb x acc s) as (acc1 & s1 & ev1 & E1 & B1 & C1).
    destruct (IH acc1 s1) as (acc2 & s2 & ev2 & E2 & B2 & C2).
    exists acc2, s2, (ev1 ++ ev2)%list. unfold bind. rewrite E1, E2.
    split; [reflexivity|]. rewrite count_method_app. cbn [List.length]. lia.
Qed.

(** X5.  [cleanup_empty_groups] never raises; the number it reports is
    at most the number of [hostgroup.delete] requests it sent, and it
    sends at most one such request for each identifier it is given. *)
Theorem cleanup_empty_groups_count :
  forall (ids : list json) (tok : json) (s : Srv),
    exists n s1 ev,
      cleanup_empty_groups ids tok s = (Ok n, s1, ev) /\
      0 <= n <= Z.of_nat (count_method "hostgroup.delete" ev) /\
      (count_method "hostgroup.delete" ev <= List.length ids)%nat.
Proof.
  intros ids tok s. unfold cleanup_empty_groups.
  destruct ids as [|i0 rest].
  { exists 0, s, []. split; [reflexivity|]. cbn. lia. }
  set (ids := i0 :: rest).
  unfold bind at 1. cbn [print emit].
  unfold bind at 1.
  match goal with |- context [for_fold ids ?body 0 s] =>
    destruct (for_fold_counted "hostgroup.delete" body) with (l := ids) (acc := 0) (s := s)
      as (n & s1 & ev & E & B & C)
  end.
  - intros groupid acc s0. unfold try_except.
    destruct (int groupid) as [k|e] eqn:Hi.
    + assert (Hrun :
        forall rest_of : Z + exn -> M Z,
          (converted <- try_int groupid ;; rest_of converted) s0 = rest_of (inl k) s0).
      { intros rest_of. rewrite (try_int_ok _ _ Hi). apply bind_ret. }
      destruct groupid as [| b | z | str | l | m]; try discriminate Hi;
        rewrite Hrun; unfold bind at 1; rewrite call_api_run;
        (destruct (decoded _) as [group_info|e];
         [| do 3 eexists; split; [reflexivity | cbn; lia]]);
        (destruct (truthy group_info); cbn [negb];
         [| do 3 eexists; split; [reflexivity | cbn; lia]]);
        unfold bind at 1;
        (destruct (first group_info) as [g|e]; cbn [lift ret raise];
         [| do 3 eexists; split; [reflexivity | cbn; lia]]);
        unfold bind at 1;
        (destruct (getitem g "name") as [group_name|e]; cbn [lift ret raise];
         [| do 3 eexists; split; [reflexivity | cbn; lia]]);
        unfold bind at 1;
        match goal with |- context [delete_empty_group ?g ?nm tok ?st] =>
          destruct (delete_empty_group_count g nm tok st) as (b' & s' & ev' & E' & C');
          rewrite E'
        end;
        cbn [ret app]; do 3 eexists; (split; [reflexivity|]);
        rewrite ?app_nil_r;
        change (count_method "hostgroup.delete" (Call ?r :: ev'))
          with (count_method "hostgroup.delete" ev');
        destruct b'; lia.
    + assert (Hrun :
        forall rest_of : Z + exn -> M Z,
          (converted <- try_int groupid ;; rest_of converted) s0 = rest_of (inr e) s0).
      { intros rest_of. rewrite (try_int_rejected _ _ Hi). apply bind_ret. }
      destruct groupid as [| b | z | str | l | m];
        try (rewrite Hrun; do 3 eexists; split; [reflexivity | cbn; lia]).
      do 3 eexists; split; [reflexivity | cbn; lia].
  - rewrite E. unfold bind.
    destruct (0 <? n); cbn [print logging emit ret app];
      do 3 eexists; (split; [reflexivity|]);
      change (count_method "hostgroup.delete" (Print ?m :: ?l))
        with (count_method "hostgroup.delete" l);
      match goal with |- context [count_method ?name (ev ++ ?t)%list] =>
        rewrite (count_method_app name ev t); change (count_method name t) with 0%nat
      end; lia.
Qed.





(* ================================================================== *)
(** * The backup *)
(* ================================================================== *)

Lemma local_ret {A} (a : A) : local (ret a).
Proof. intros s r s1 ev H. injection H as <- <- <-. split; reflexivity. Qed.

Lemma local_raise {A} e : local (@raise A e).
Proof. intros s r s1 ev H. injection H as <- <- <-. split; reflexivity. Qed.

Lemma local_lift {A} (x : res A) : local (lift x).
Proof. destruct x; [apply local_ret | apply local_raise]. Qed.

Lemma local_print t a : local (print t a).
Proof. intros s r s1 ev H. injection H as <- <- <-. split; reflexivity. Qed.

Lemma local_logging l t a : local (logging l t a).
Proof. intros s r s1 ev H. injection H as <- <- <-. split; reflexivity. Qed.

Lemma local_bind {A B} (m : M A) (k : A -> M B) :
  local m -> (forall a, local (k a)) -> local (bind m k).
Proof.
  intros Hm Hk s r s1 ev. unfold bind.
  destruct (m s) as [[[a|e] s'] ev'] eqn:E; destruct (Hm _ _ _ _ E) as [-> Hev].
  - destruct (k a s) as [[r2 s2] ev2] eqn:E2. destruct (Hk _ _ _ _ _ E2) as [-> Hev2].
    intros H. injection H as <- <- <-. split; [reflexivity|].
    rewrite forallb_app, Hev, Hev2. reflexivity.
  - intros H. injection H as <- <- <-. split; [reflexivity | exact Hev].
Qed.

Lemma local_for_fold {A B} (body : A -> B -> M B) (l : list A) :
  (forall x acc, local (body x acc)) -> forall acc, local (for_fold l body acc).
Proof.
  intros Hb. induction l as [|x rest IH]; intros acc; cbn [for_fold].
  - apply local_ret.
  - apply local_bind; [apply Hb | intros acc'; apply IH].
Qed.

(** Proves [local m] by following the structure of [m]. *)
Ltac local_step :=
  match goal with
  | |- local (bind _ _) => apply local_bind; [|intros ?]
  | |- local (ret _) => apply local_ret
  | |- local (raise _) => apply local_raise
  | |- local (lift _) => apply local_lift
  | |- local (print _ _) => apply local_print
  | |- local (logging _ _ _) => apply local_logging
  | |- local (for_fold _ _ _) => apply local_for_fold; intros ? ?
  | |- local (if ?b then _ else _) => destruct b
  | |- local (match ?x with _ => _ end) => destruct x
  end.

Lemma output_calls (ev : list event) : forallb is_output ev = true -> calls ev = [].
Proof.
  induction ev as [|e ev IH]; [reflexivity|]. cbn [forallb].
  intros H. apply andb_prop in H. destruct H as [He Hev].
  destruct e; try discriminate He; rewrite calls_cons; exact (IH Hev).
Qed.

Lemma output_files (ev : list event) :
  forallb is_output ev = true -> files_written ev = [].
Proof.
  induction ev as [|e ev IH]; [reflexivity|]. cbn [forallb].
  intros H. apply andb_prop in H. destruct H as [He Hev].
  destruct e; try discriminate He; exact (IH Hev).
Qed.

Lemma files_written_app (a b : list event) :
  files_written (a ++ b) = (files_written a ++ files_written b)%list.
Proof. unfold files_written. apply flat_map_app. Qed.







(* ================================================================== *)
(** * [main]: the order of the steps *)
(* ================================================================== *)

Lemma harmless_prefix (a b : list event) :
  forallb harmless a = true -> backed_up_first (a ++ b) = backed_up_first b.
Proof.
  induction a as [|e a IH]; [reflexivity|]. cbn [forallb app].
  intros H. apply andb_prop in H. destruct H as [He Ha].
  destruct e; cbn [backed_up_first harmless] in *; try exact (IH Ha).
  - rewrite He. exact (IH Ha).
  - discriminate He.
Qed.

Lemma harmless_backed_up (a : list event) :
  forallb harmless a = true -> backed_up_first a = true.
Proof.
  intros H. rewrite <- (app_nil_r a). rewrite (harmless_prefix _ _ H). reflexivity.
Qed.

Lemma output_harmless (ev : list event) :
  forallb is_output ev = true -> forallb harmless ev = true.
Proof.
  induction ev as [|e ev IH]; [reflexivity|]. cbn [forallb].
  intros H. apply andb_prop in H. destruct H as [He Hev].
  rewrite (IH Hev). destruct e; try discriminate He; reflexivity.
Qed.

Lemma get_auth_token_harmless s r s1 ev :
  get_auth_token s = (r, s1, ev) -> forallb harmless ev = true.
Proof.
  unfold get_auth_token, bind, post.
  destruct (serve s login_request) as [t s'].
  destruct (received t) as [response|e]; cbn [print emit].
  - destruct (response_json response) as [result|e]; cbn [lift ret raise].
    + destruct (getitem result "result"); cbn [lift ret raise];
        intros H; injection H as <- <- <-; reflexivity.
    + intros H; injection H as <- <- <-; reflexivity.
  - intros H; injection H as <- <- <-; reflexivity.
Qed.

Lemma read_row_local row rows : local (read_row row rows).
Proof. unfold read_row. repeat local_step. Qed.

Lemma read_rows_local csv_rows : local (read_rows csv_rows).
Proof. unfold read_rows. apply local_for_fold. intros x acc. apply read_row_local. Qed.

(** The events of the backup: harmless ones, then, if it returns, the
    file. *)
Lemma backup_events ts tok s r s1 ev :
  backup_all_groups_and_hosts ts tok s = (r, s1, ev) ->
  exists pre,
    forallb harmless pre = true /\
    match r with
    | Ok _ => exists name content post, ev = (pre ++ WriteFile name content :: post)%list
    | Raise _ => ev = pre
    end.
Proof.
  unfold backup_all_groups_and_hosts.
  unfold bind at 1. cbn [print emit]. unfold bind at 1. rewrite call_api_run.
  destruct (decoded _) as [all_groups|e];
    [|intros H; injection H as <- <- <-; eexists; split; [|reflexivity]; reflexivity].
  unfold bind at 1. destruct (iter all_groups) as [groups|e]; cbn [lift ret raise];
    [|intros H; injection H as <- <- <-; eexists; split; [|reflexivity]; reflexivity].
  unfold bind at 1.
  match goal with |- context [for_fold groups ?body [] ?st] =>
    assert (L : local (for_fold groups body [])) by (repeat local_step);
    destruct (for_fold groups body [] st) as [[[backup|e] s'] ev'] eqn:E;
    destruct (L _ _ _ _ E) as [-> Hout]
  end.
  - cbn. intros H. injection H as <- <- <-.
    exists (Print (Msg "开始备份所有分组和主机信息..." []) :: Call (backup_request tok) :: ev').
    split; [cbn; exact (output_harmless _ Hout)|].
    do 3 eexists. reflexivity.
  - intros H. injection H as <- <- <-.
    eexists. split; [|reflexivity]. cbn. exact (output_harmless _ Hout).
Qed.

Lemma backed_up_without_file (ev : list event) :
  backed_up_first ev = true -> files_written ev = [] ->
  forallb reads_only (calls ev) = true.
Proof.
  induction ev as [|e ev IH]; [reflexivity|].
  destruct e; cbn [backed_up_first]; intros B F;
    try (rewrite calls_cons; cbn [app]; exact (IH B F)).
  - apply andb_prop in B. destruct B as [Hr B].
    rewrite calls_cons. cbn [app forallb]. rewrite Hr. exact (IH B F).
  - discriminate F.
Qed.

(** X9.  [main] changes nothing before the snapshot is on disk: every
    request sent before the backup file is written is the login or a
    [hostgroup.get], and a run in which no file is written (the login,
    the CSV file or the backup failed) sends no other request at all. *)
Theorem main_backs_up_first :
  forall (fieldnames : json) (csv_rows : list json) (ts : string) (s s1 : Srv)
         (r : res unit) (ev : list event),
    main fieldnames csv_rows ts s = (r, s1, ev) ->
    backed_up_first ev = true /\
    (files_written ev = [] -> forallb reads_only (calls ev) = true).
Proof.
  intros fieldnames csv_rows ts s s1 r ev H.
  assert (B : backed_up_first ev = true).
  { revert H. unfold main. unfold bind at 1.
    destruct (get_auth_token s) as [[[tok|e] s2] ev2] eqn:E2;
      pose proof (get_auth_token_harmless _ _ _ _ E2) as H2;
      [|intros H; injection H as <- <- <-; exact (harmless_backed_up _ H2)].
    unfold bind at 1. cbn [print emit]. unfold bind at 1.
    destruct (read_rows csv_rows s2) as [[[rows|e] s3] ev3] eqn:E3;
      destruct (read_rows_local _ _ _ _ _ E3) as [-> H3];
      apply output_harmless in H3;
      [|intros H; injection H as <- <- <-;
        rewrite harmless_prefix by exact H2; cbn [app backed_up_first];
        exact (harmless_backed_up _ H3)].
    unfold bind at 1.
    destruct (backup_all_groups_and_hosts ts tok s2) as [[[file|e] s4] ev4] eqn:E4;
      destruct (backup_events _ _ _ _ _ _ E4) as (pre & Hpre & Hev4).
    - match goal with |- context [bind ?m ?k s4] => destruct (bind m k s4) as [[r5 s5] ev5] end.
      intros H. injection H as <- <- <-.
      rewrite harmless_prefix by exact H2. cbn [app backed_up_first].
      rewrite harmless_prefix by exact H3.
      destruct Hev4 as (name & content & post & ->).
      rewrite <- !app_assoc. rewrite harmless_prefix by exact Hpre. reflexivity.
    - intros H. injection H as <- <- <-.
      rewrite harmless_prefix by exact H2. cbn [app backed_up_first].
      rewrite harmless_prefix by exact H3. subst ev4.
      exact (harmless_backed_up _ Hpre). }
  split; [exact B | exact (backed_up_without_file _ B)].
Qed.


(* ================================================================== *)
(** * Runs without an offline row *)
(* ================================================================== *)

Lemma within_ret {A} P (Q : A -> Prop) (a : A) : Q a -> within P Q (ret a).
Proof.
  intros HQ s r s1 ev H. injection H as <- <- <-.
  split; [constructor | intros v Hv; injection Hv as <-; exact HQ].
Qed.



Lemma within_weaken {A} (P P' : string -> Prop) (Q Q' : A -> Prop) (m : M A) :
  (forall x, P x -> P' x) -> (forall v, Q v -> Q' v) -> within P Q m -> within P' Q' m.
Proof.
  intros HP HQ W s r s1 ev H. destruct (W _ _ _ _ H) as [Hm Hv].
  split; [eapply Forall_impl; [exact HP | exact Hm] | intros v E; exact (HQ _ (Hv _ E))].
Qed.

Lemma within_bind {A B} P (Q : A -> Prop) (R : B -> Prop) (m : M A) (k : A -> M B) :
  within P Q m -> (forall a, Q a -> within P R (k a)) -> within P R (bind m k).
Proof.
  intros Hm Hk s r s1 ev. unfold bind.
  destruct (m s) as [[[a|e] s'] ev'] eqn:E; destruct (Hm _ _ _ _ E) as [Pm Qm].
  - destruct (k a s') as [[r2 s2] ev2] eqn:E2.
    destruct (Hk a (Qm a eq_refl) _ _ _ _ E2) as [Pk Qk].
    intros H. injection H as <- <- <-. split; [|exact Qk].
    rewrite methods_called_app. apply Forall_app. split; assumption.
  - intros H. injection H as <- <- <-. split; [exact Pm | intros v Hv; discriminate Hv].
Qed.



Lemma within_and {A} P (Q R : A -> Prop) (m : M A) :
  within P Q m -> within P R m -> within P (fun v => Q v /\ R v) m.
Proof.
  intros WQ WR s r s1 ev H. destruct (WQ _ _ _ _ H) as [Pm Qm].
  destruct (WR _ _ _ _ H) as [_ Rm].
  split; [exact Pm | intros v E; split; [exact (Qm v E) | exact (Rm v E)]].
Qed.











(* ================================================================== *)
(** * A CSV file without the column of new names *)
(* ================================================================== *)

Lemma get_auth_token_calls s r s1 ev :
  get_auth_token s = (r, s1, ev) -> calls ev = [login_request] /\ files_written ev = [].
Proof.
  unfold get_auth_token, bind, post.
  destruct (serve s login_request) as [t s'].
  destruct (received t) as [response|e]; cbn [print emit].
  - destruct (response_json response) as [result|e]; cbn [lift ret raise].
    + destruct (getitem result "result"); cbn [lift ret raise];
        intros H; injection H as <- <- <-; split; reflexivity.
    + intros H; injection H as <- <- <-; split; reflexivity.
  - intros H; injection H as <- <- <-; split; reflexivity.
Qed.

Lemma read_row_raises row rows s :
  is_ok (getitem row "修改后系统名称") = false ->
  exists e ev, read_row row rows s = (Raise e, s, ev).
Proof.
  intros H. unfold read_row, bind. cbn [print emit].
  destruct (getitem row "修改后系统名称") as [v|e]; [discriminate H|].
  cbn. do 2 eexists. reflexivity.
Qed.

Lemma read_rows_raise row csv_rows :
  In row csv_rows ->
  is_ok (getitem row "修改后系统名称") = false ->
  forall acc s, exists e ev,
    for_fold csv_rows read_row acc s = (Raise e, s, ev) /\ forallb is_output ev = true.
Proof.
  intros Hin Hrow. induction csv_rows as [|x rest IH]; [destruct Hin|].
  intros acc s. cbn [for_fold]. unfold bind.
  destruct (read_row x acc s) as [[[acc'|e] s'] ev'] eqn:E;
    destruct (read_row_local _ _ _ _ _ _ E) as [-> Hout].
  - destruct Hin as [-> | Hin].
    + destruct (read_row_raises row acc s Hrow) as (e & ev & E'). congruence.
    + destruct (IH Hin acc' s) as (e & ev & -> & Hout2).
      do 2 eexists. split; [reflexivity|]. rewrite forallb_app, Hout, Hout2. reflexivity.
  - do 2 eexists. split; [reflexivity | exact Hout].
Qed.

(** X11.  A CSV file in which some row has no column "修改后系统名称" is
    rejected before anything happens: [main] raises, the only request it
    has sent is the login, and no backup file has been written. *)
Theorem main_rejects_csv_without_column :
  forall (fieldnames row : json) (csv_rows : list json) (ts : string) (s : Srv),
    In row csv_rows ->
    is_ok (getitem row "修改后系统名称") = false ->
    exists e s1 ev,
      main fieldnames csv_rows ts s = (Raise e, s1, ev) /\
      calls ev = [login_request] /\
      files_written ev = [].
Proof.
  intros fieldnames row csv_rows ts s Hin Hrow. unfold main. unfold bind at 1.
  destruct (get_auth_token s) as [[[tok|e] s2] ev2] eqn:E2;
    destruct (get_auth_token_calls _ _ _ _ E2) as [C2 F2];
    [|do 3 eexists; split; [reflexivity | split; assumption]].
  unfold bind at 1. cbn [print emit]. unfold bind at 1. unfold read_rows.
  destruct (read_rows_raise row csv_rows Hin Hrow [] s2) as (e & ev3 & -> & Hout).
  do 3 eexists. split; [reflexivity|].
  rewrite !calls_app, !files_written_app, C2, F2.
  rewrite (output_calls _ Hout), (output_files _ Hout). split; reflexivity.
Qed.


(* ================================================================== *)
(** * The rollback as a whole *)
(* ================================================================== *)

Lemma within_trivial {A} (m : M A) : within (fun _ => True) (fun _ => True) m.
Proof.
  intros s r s1 ev _. split; [|intros; exact I].
  induction (methods_called ev); constructor; [exact I | assumption].
Qed.

Lemma within_try {A} P (Q : A -> Prop) (m : M A) (h : exn -> M A) :
  within P Q m -> (forall e, within P Q (h e)) -> within P Q (try_except m h).
Proof.
  intros Hm Hh s r s1 ev. unfold try_except.
  destruct (m s) as [[[a|e] s'] ev'] eqn:E; destruct (Hm _ _ _ _ E) as [Pm Qm].
  - intros H. injection H as <- <- <-. split; assumption.
  - destruct (h e s') as [[r2 s2] ev2] eqn:E2. destruct (Hh _ _ _ _ _ E2) as [Ph Qh].
    intros H. injection H as <- <- <-. split; [|exact Qh].
    rewrite methods_called_app. apply Forall_app. split; assumption.
Qed.

(** Steps over a part of a computation whose value does not matter. *)
Ltac skip_step :=
  match goal with
  | |- within _ _ (bind _ _) =>
      apply within_bind with (Q := fun _ => True); [apply within_trivial | intros ? _]
  end.

(** One group of the snapshot moves exactly one of the two counters, by
    one. *)
Lemma rollback_group_counts tok old_name info success_count error_count :
  within (fun _ => True)
         (fun counts => counts = (success_count + 1, error_count) \/
                        counts = (success_count, error_count + 1))
         (rollback_group tok (old_name, info) (success_count, error_count)).
Proof.
  unfold rollback_group. do 2 skip_step.
  apply within_bind
    with (Q := fun outcome : Z * Z * bool =>
                 fst outcome = (success_count + 1, error_count) \/
                 fst outcome = (success_count, error_count + 1)).
  - apply within_try.
    + skip_step.
      match goal with |- within _ _ (if ?b then _ else _) => destruct b end.
      * skip_step.
        apply within_bind
          with (Q := fun counts : Z * Z =>
                       counts = (success_count + 1, error_count) \/
                       counts = (success_count, error_count + 1)).
        -- apply within_try.
           ++ repeat skip_step. apply within_ret. left. reflexivity.
           ++ intros e2. repeat skip_step. apply within_ret. right. reflexivity.
        -- intros counts' Hc. apply within_ret. exact Hc.
      * repeat skip_step. apply within_ret. left. reflexivity.
    + intros e. repeat skip_step. apply within_ret. right. reflexivity.
  - intros outcome Ho. skip_step. apply within_ret. exact Ho.
Qed.

Lemma never_raises_lift {A} (x : res A) : is_ok x = true -> never_raises (lift x).
Proof. destruct x; [intros _; apply never_raises_ret | discriminate]. Qed.

Lemma rollback_group_returns tok old_name info counts :
  is_ok (getitem info "groupid") = true ->
  never_raises (rollback_group tok (old_name, info) counts).
Proof.
  intros Hid. unfold rollback_group. destruct counts as [success_count error_count].
  apply never_raises_bind; [apply never_raises_lift; exact Hid | intros groupid].
  repeat safe_step.
Qed.

Lemma rollback_loop_counts tok : forall groups success_count error_count s,
  Forall (fun item : string * json => is_ok (getitem (snd item) "groupid") = true) groups ->
  exists succeeded failed s1 ev,
    for_fold groups (rollback_group tok) (success_count, error_count) s =
      (Ok (succeeded, failed), s1, ev) /\
    success_count <= succeeded /\ error_count <= failed /\
    succeeded + failed = success_count + error_count + Z.of_nat (List.length groups).
Proof.
  induction groups as [|[old_name info] rest IH]; intros sc ec s Hids.
  - exists sc, ec, s, []. split; [reflexivity|]. cbn. lia.
  - inversion Hids as [|? ? Hid Hrest]. subst. cbn [snd] in Hid.
    destruct (rollback_group_returns tok old_name info (sc, ec) Hid s)
      as ([sc1 ec1] & s1 & ev1 & E1).
    destruct (rollback_group_counts tok old_name info sc ec _ _ _ _ E1) as [_ Hc].
    specialize (Hc _ eq_refl).
    destruct (IH sc1 ec1 s1 Hrest) as (sc2 & ec2 & s2 & ev2 & E2 & B1 & B2 & B3).
    exists sc2, ec2, s2, (ev1 ++ ev2)%list.
    cbn [for_fold]. unfold bind. rewrite E1, E2. split; [reflexivity|].
    cbn [List.length]. destruct Hc as [Hc | Hc]; injection Hc as -> ->; lia.
Qed.

(** X12.  The rollback counts every group of the snapshot exactly once:
    when every entry has a [groupid], [rollback_group_names] never
    raises, whatever the server answers, and the numbers of successes
    and failures it reports add up to the number of groups in the
    snapshot. *)
Theorem rollback_counts_every_group :
  forall (backup_file : string) (groups : list (string * json)) (tok : json) (s : Srv),
    Forall (fun item : string * json => is_ok (getitem (snd item) "groupid") = true)
           groups ->
    exists succeeded failed s1 ev,
      rollback_group_names backup_file (JObj groups) tok s =
        (Ok (succeeded, failed), s1, ev) /\
      0 <= succeeded /\ 0 <= failed /\
      succeeded + failed = Z.of_nat (List.length groups).
Proof.
  intros backup_file groups tok s Hids. unfold rollback_group_names.
  destruct (rollback_loop_counts tok groups 0 0 s Hids)
    as (sc & ec & s1 & ev & E & B1 & B2 & B3).
  unfold bind at 1. cbn [print emit]. cbn [len lift]. rewrite bind_ret.
  unfold bind at 1. cbn [print emit]. cbn [items lift]. rewrite bind_ret.
  unfold bind at 1. rewrite E. cbn [fst snd].
  exists sc, ec. unfold bind.
  destruct (0 <? ec); cbn [print emit ret]; do 2 eexists;
    (split; [reflexivity | lia]).
Qed.


(** X13.  A group of the snapshot whose id the server no longer knows is
    created again under its snapshot name, and its hosts are restored
    into the group just created (the id the server returned, not the id
    of the snapshot).  The group counts as a success when that
    restoration returns and as a failure when it raises; no rename is
    sent in either case. *)
Theorem rollback_recreates_missing_group :
  forall (s s1 s2 s3 : Srv) (tok : json) (old_name : string)
         (info groupid hosts result created ids new_groupid : json)
         (success_count error_count : Z) (ev1 ev2 ev3 : list event) (r3 : res unit),
    getitem info "groupid" = Ok groupid ->
    call_api "hostgroup.get" (group_by_id_params groupid) tok s = (Ok result, s1, ev1) ->
    truthy result = false ->
    call_api "hostgroup.create" (create_params old_name) tok s1 = (Ok created, s2, ev2) ->
    getitem created "groupids" = Ok ids ->
    first ids = Ok new_groupid ->
    getitem info "hosts" = Ok hosts ->
    restore_hosts_to_group hosts new_groupid old_name tok s2 = (r3, s3, ev3) ->
    exists ev,
      rollback_group tok (old_name, info) (success_count, error_count) s =
        (Ok (if is_ok r3 then (success_count + 1, error_count)
             else (success_count, error_count + 1)), s3, ev) /\
      calls ev =
        (api_request "hostgroup.get" (group_by_id_params groupid) tok
         :: api_request "hostgroup.create" (create_params old_name) tok
         :: calls ev3)%list /\
      ~ In "hostgroup.update" (methods_called ev).
Proof.
  intros s s1 s2 s3 tok old_name info groupid hosts result created ids new_groupid
         success_count error_count ev1 ev2 ev3 r3
         Hgid Hget Hfalse Hcreate Hids Hfirst Hhosts Hrestore.
  assert (Hrun : exists ev,
    rollback_group tok (old_name, info) (success_count, error_count) s =
      (Ok (if is_ok r3 then (success_count + 1, error_count)
           else (success_count, error_count + 1)), s3, ev) /\
    calls ev =
      (api_request "hostgroup.get" (group_by_id_params groupid) tok
       :: api_request "hostgroup.create" (create_params old_name) tok
       :: calls ev3)%list).
  { unfold rollback_group. rewrite Hgid. run_step. run_step.
    unfold bind at 1. unfold try_except at 1.
    unfold bind at 1. rewrite Hget, Hfalse. cbn [negb].
    run_step. unfold bind at 1. unfold try_except at 1.
    unfold bind at 1. rewrite Hcreate, Hids. run_step. rewrite Hfirst. run_step.
    run_step. run_step. rewrite Hhosts. run_step. unfold bind at 1. rewrite Hrestore.
    rewrite (call_api_events _ _ _ _ _ _ _ Hget), (call_api_events _ _ _ _ _ _ _ Hcreate).
    destruct r3 as [[]|e]; cbn -[calls]; eexists; (split; [reflexivity|]);
      calls_norm; reflexivity. }
  destruct Hrun as (ev & Hrun & Hcalls). exists ev. split; [exact Hrun|]. split; [exact Hcalls|].
  unfold methods_called. rewrite Hcalls. cbn [map method api_request].
  pose proof (restore_hosts_only hosts new_groupid old_name tok _ _ _ _ Hrestore) as Hr.
  rewrite Forall_forall in Hr. unfold methods_called in Hr.
  intros [F | [F | Hin]]; [discriminate F | discriminate F | exact (Hr _ Hin eq_refl)].
Qed.


Lemma only_for_fold {A B} P (body : A -> B -> M B) (l : list A) :
  (forall x acc, only P (body x acc)) -> forall acc, only P (for_fold l body acc).
Proof.
  intros Hb. induction l as [|x rest IH]; intros acc; cbn [for_fold].
  - apply only_ret.
  - apply only_bind; [apply Hb | intros acc'; apply IH].
Qed.

Lemma rollback_only backup_file backup tok :
  only (fun m => In m ["hostgroup.get"; "hostgroup.create"; "hostgroup.update";
                       "host.get"; "host.update"])
       (rollback_group_names backup_file backup tok).
Proof.
  unfold rollback_group_names.
  apply only_bind; [apply only_print | intros _].
  apply only_bind; [apply only_lift | intros n].
  apply only_bind; [apply only_print | intros _].
  apply only_bind; [apply only_lift | intros groups].
  apply only_bind.
  - apply only_for_fold. intros [old_name info] [success_count error_count].
    unfold rollback_group, restore_hosts_to_group, restore_host.
    repeat only_walk ltac:(cbn [In]; repeat (first [left; reflexivity | right])).
  - intros counts. repeat only_walk ltac:(idtac).
Qed.

(** X14.  The rollback never deletes anything and never logs in: on
    every server and for every content of the backup file, the requests
    of [rollback_group_names] are lookups of groups and hosts, creations
    and renames of groups, and updates of hosts. *)
Theorem rollback_never_deletes :
  forall (backup_file : string) (backup tok : json) (s s1 : Srv) (r : res (Z * Z))
         (ev : list event),
    rollback_group_names backup_file backup tok s = (r, s1, ev) ->
    Forall (fun m => In m ["hostgroup.get"; "hostgroup.create"; "hostgroup.update";
                           "host.get"; "host.update"])
           (methods_called ev).
Proof.
  intros backup_file backup tok s s1 r ev H.
  exact (rollback_only backup_file backup tok _ _ _ _ H).
Qed.


Lemma rollback_group_malformed tok old_name info counts s e :
  getitem info "groupid" = Raise e ->
  rollback_group tok (old_name, info) counts s = (Raise e, s, []).
Proof.
  intros H. unfold rollback_group. destruct counts as [success_count error_count].
  rewrite H. apply bind_lift_raise.
Qed.

(** The rollback is its loop, between lines printed before and after. *)
Lemma rollback_names_run backup_file groups tok s :
  exists pre post,
    rollback_group_names backup_file (JObj groups) tok s =
      match for_fold groups (rollback_group tok) (0, 0) s with
      | (Ok counts, s1, ev1) => (Ok counts, s1, (pre ++ ev1 ++ post counts)%list)
      | (Raise e, s1, ev1) => (Raise e, s1, (pre ++ ev1)%list)
      end /\
    calls pre = [] /\ forall counts, calls (post counts) = [].
Proof.
  unfold rollback_group_names.
  unfold bind at 1. cbn [print emit]. cbn [len lift]. rewrite bind_ret.
  unfold bind at 1. cbn [print emit]. cbn [items lift]. rewrite bind_ret.
  unfold bind at 1.
  exists [Print (Msg "开始回滚操作，备份文件：{}" [AVal (JStr backup_file)]);
          Print (Msg "共有 {} 个分组需要处理" [AVal (JNum (Z.of_nat (List.length groups)))])].
  exists (fun counts : Z * Z =>
            [Print (Msg "✅ 回滚操作完成！" []);
             Print (Msg "成功: {} 个分组" [AVal (JNum (fst counts))]);
             Print (Msg "失败: {} 个分组" [AVal (JNum (snd counts))])] ++
            (if 0 <? snd counts
             then [Print (Msg "详细错误信息请查看 rollback.log 文件" [])] else []))%list.
  split; [|split; [reflexivity | intros counts; destruct (0 <? snd counts); reflexivity]].
  destruct (for_fold groups (rollback_group tok) (0, 0) s) as [[[counts|e] s1] ev1];
    [|reflexivity].
  unfold bind. destruct (0 <? snd counts); cbn [print emit ret app];
    rewrite ?app_nil_r; reflexivity.
Qed.

(** X15.  An entry of the snapshot without [groupid] stops the rollback
    where it stands: [rollback_group_names] raises, and the requests it
    has sent and the state it leaves the server in are those of the
    rollback of the entries before it.  The groups after the entry are
    never looked at. *)
Theorem rollback_stops_at_malformed_entry :
  forall (backup_file old_name : string) (info tok : json)
         (before after : list (string * json)) (s : Srv),
    is_ok (getitem info "groupid") = false ->
    exists e s1 ev,
      rollback_group_names backup_file (JObj (before ++ (old_name, info) :: after)) tok s =
        (Raise e, s1, ev) /\
      s1 = snd (fst (rollback_group_names backup_file (JObj before) tok s)) /\
      calls ev = calls (snd (rollback_group_names backup_file (JObj before) tok s)).
Proof.
  intros backup_file old_name info tok before after s Hbad.
  destruct (getitem info "groupid") as [v|e0] eqn:Hid; [discriminate Hbad|].
  destruct (rollback_names_run backup_file (before ++ (old_name, info) :: after) tok s)
    as (pre & post & -> & Hpre & _).
  destruct (rollback_names_run backup_file before tok s)
    as (pre' & post' & -> & Hpre' & Hpost').
  rewrite for_fold_app.
  destruct (for_fold before (rollback_group tok) (0, 0) s) as [[[counts|e] s1] ev1].
  - cbn [for_fold]. unfold bind at 1.
    rewrite (rollback_group_malformed _ _ _ _ _ _ Hid).
    do 3 eexists. split; [reflexivity|]. split; [reflexivity|]. cbn [fst snd].
    rewrite !calls_app, Hpre, Hpre', Hpost', !app_nil_r. reflexivity.
  - do 3 eexists. split; [reflexivity|]. split; [reflexivity|]. cbn [fst snd].
    rewrite !calls_app, Hpre, Hpre'. reflexivity.
Qed.


(* ================================================================== *)
(** * The restoration of the hosts of a group *)
(* ================================================================== *)

Lemma filter_other_method name other (ev : list event) :
  String.eqb other name = false ->
  Forall (fun m => m = other) (methods_called ev) ->
  filter (is_method name) (calls ev) = [].
Proof.
  intros Hne. unfold methods_called.
  induction (calls ev) as [|r l IH]; [reflexivity|].
  cbn [map filter]. intros H. apply Forall_cons_iff in H. destruct H as [Hr Hl].
  unfold is_method at 1. rewrite Hr, Hne. exact (IH Hl).
Qed.

(** One host of the snapshot: whatever happens, the function returns,
    and it has asked once for the host's groups. *)
Lemma restore_host_attempt offs target tok host hostid s :
  getitem host "hostid" = Ok hostid ->
  exists s1 ev,
    restore_host offs target tok host s = (Ok tt, s1, ev) /\
    filter (is_method "host.get") (calls ev) = [host_groups_request tok host].
Proof.
  intros Hid. unfold restore_host, host_groups_request, hostid_of.
  rewrite Hid, bind_lift_ok. cbv beta.
  destruct host as [| | | | |fields]; try discriminate.
  cbn [get].
  assert (Hname : exists hostname,
             match assoc "name" fields with
             | Some x => Ok x
             | None => Ok (JStr "未知名称")
             end = Ok hostname).
  { destruct (assoc "name" fields); eexists; reflexivity. }
  destruct Hname as (hostname & ->). rewrite bind_lift_ok. cbv beta.
  match goal with |- context [bind (call_api _ _ _) ?k] => set (K := k) end.
  assert (HK : forall host_info, only (fun m => m = "host.update") (K host_info)).
  { intros host_info. unfold K. repeat only_walk ltac:(reflexivity). }
  unfold try_except, bind. rewrite call_api_run.
  destruct (decoded _) as [host_info|e].
  - destruct (K host_info _) as [[[[]|e] s2] ev2] eqn:EK;
      pose proof (filter_other_method "host.get" "host.update" _ eq_refl
                    (HK _ _ _ _ _ EK)) as Hf;
      cbn [print logging emit]; do 2 eexists; (split; [reflexivity|]);
      rewrite !calls_app, !filter_app, Hf; reflexivity.
  - cbn [print logging emit]. do 2 eexists. split; reflexivity.
Qed.

Lemma restore_loop_attempts offs target tok : forall hs s,
  (forall host, In host hs -> exists hostid, getitem host "hostid" = Ok hostid) ->
  exists s1 ev,
    for_each hs (restore_host offs target tok) s = (Ok tt, s1, ev) /\
    filter (is_method "host.get") (calls ev) = map (host_groups_request tok) hs.
Proof.
  induction hs as [|host rest IH]; intros s Hids.
  - do 2 eexists. split; reflexivity.
  - destruct (Hids host (or_introl eq_refl)) as [hostid Hid].
    destruct (restore_host_attempt offs target tok host hostid s Hid)
      as (s1 & ev1 & Hhost & F1).
    destruct (IH s1 (fun h Hin => Hids h (or_intror Hin))) as (s2 & ev2 & Hrest & F2).
    cbn [for_each]. unfold bind. rewrite Hhost, Hrest. do 2 eexists.
    split; [reflexivity|]. rewrite calls_app, filter_app, F1, F2. reflexivity.
Qed.

(** X16.  No host of the snapshot is left out because another one
    failed: once the groups named "下线" have been looked up, the
    restoration returns without raising and has asked for the groups of
    every host of the snapshot, once each and in the snapshot's order,
    whatever the server answered for the hosts before it. *)
Theorem restore_attempts_every_host :
  forall (hs : list json) (target : json) (name : string) (tok : json) (s s1 : Srv)
         (offline_groups : json) (ev_off : list event) (found offs : list json),
    call_api "hostgroup.get" offline_params tok s = (Ok offline_groups, s1, ev_off) ->
    iter offline_groups = Ok found ->
    map_res groupid_element found = Ok offs ->
    (forall host, In host hs -> exists hostid, getitem host "hostid" = Ok hostid) ->
    exists s2 ev,
      restore_hosts_to_group (JArr hs) target name tok s = (Ok tt, s2, ev) /\
      filter (is_method "host.get") (calls ev) = map (host_groups_request tok) hs.
Proof.
  intros hs target name tok s s1 offline_groups ev_off found offs Hoff Hiter Hoffs Hids.
  destruct hs as [|h0 rest].
  - do 2 eexists. split; reflexivity.
  - rewrite (restore_hosts_run (h0 :: rest) target name tok s _ _ _ _ _
               ltac:(discriminate) Hoff Hiter Hoffs).
    destruct (restore_loop_attempts offs target tok (h0 :: rest) s1 Hids)
      as (s2 & ev & -> & F).
    do 2 eexists. split; [reflexivity|].
    rewrite (call_api_events _ _ _ _ _ _ _ Hoff).
    rewrite calls_cons, !calls_app, !filter_app, F. reflexivity.
Qed.


(* ================================================================== *)
(** * The identifier that is deleted *)
(* ================================================================== *)

Lemma parse_uint_acc : forall (d : Decimal.uint) (p : positive),
  parse_digits (NilEmpty.string_of_uint d) (Z.pos p) true =
  Some (Z.pos (Pos.of_uint_acc d p)).
Proof.
  induction d as [|d IH|d IH|d IH|d IH|d IH|d IH|d IH|d IH|d IH|d IH]; intros p;
    [reflexivity| | | | | | | | | |];
    cbn [NilEmpty.string_of_uint parse_digits Pos.of_uint_acc];
    match goal with |- context [is_digit ?c] => change (is_digit c) with true end;
    cbv iota;
    match goal with |- context [digit_value ?c] =>
      let v := eval vm_compute in (digit_value c) in change (digit_value c) with v
    end;
    rewrite <- IH; f_equal; lia.
Qed.

Lemma parse_uint : forall (d : Decimal.uint) (after_digit : bool),
  d <> Decimal.Nil \/ after_digit = true ->
  parse_digits (NilEmpty.string_of_uint d) 0 after_digit = Some (Z.of_N (Pos.of_uint d)).
Proof.
  induction d as [|d IH|d IH|d IH|d IH|d IH|d IH|d IH|d IH|d IH|d IH];
    intros after_digit H.
  - destruct H as [H | ->]; [contradiction | reflexivity].
  - cbn [NilEmpty.string_of_uint parse_digits Pos.of_uint].
    change (is_digit "0") with true. cbv iota.
    change (10 * 0 + digit_value "0") with 0. apply IH. right. reflexivity.
  - exact (parse_uint_acc d 1).
  - exact (parse_uint_acc d 2).
  - exact (parse_uint_acc d 3).
  - exact (parse_uint_acc d 4).
  - exact (parse_uint_acc d 5).
  - exact (parse_uint_acc d 6).
  - exact (parse_uint_acc d 7).
  - exact (parse_uint_acc d 8).
  - exact (parse_uint_acc d 9).
Qed.

Lemma rstrip_digits (d : Decimal.uint) :
  rstrip (NilEmpty.string_of_uint d) = NilEmpty.string_of_uint d.
Proof.
  induction d as [|d IH|d IH|d IH|d IH|d IH|d IH|d IH|d IH|d IH|d IH];
    [reflexivity| | | | | | | | | |];
    cbn [NilEmpty.string_of_uint rstrip]; rewrite IH; reflexivity.
Qed.

Lemma strip_digits (d : Decimal.uint) :
  strip (NilEmpty.string_of_uint d) = NilEmpty.string_of_uint d.
Proof.
  unfold strip.
  replace (lstrip (NilEmpty.string_of_uint d)) with (NilEmpty.string_of_uint d)
    by (destruct d; reflexivity).
  apply rstrip_digits.
Qed.

Lemma int_of_digits (d : Decimal.uint) :
  d <> Decimal.Nil ->
  int_of_str (NilEmpty.string_of_uint d) = Some (Z.of_N (Pos.of_uint d)).
Proof.
  intros Hd. unfold int_of_str. rewrite strip_digits.
  rewrite <- (parse_uint d false (or_introl Hd)).
  destruct d; [contradiction| | | | | | | | | |]; reflexivity.
Qed.

Lemma int_of_minus_digits (d : Decimal.uint) :
  d <> Decimal.Nil ->
  int_of_str (String "-" (NilEmpty.string_of_uint d)) = Some (- Z.of_N (Pos.of_uint d)).
Proof.
  intros Hd. unfold int_of_str, strip. cbn [lstrip].
  change (is_space "-") with false. cbv iota.
  cbn [rstrip]. change (is_space "-") with false. cbn [andb]. cbv iota.
  rewrite rstrip_digits.
  change (option_map Z.opp (parse_digits (NilEmpty.string_of_uint d) 0 false) =
          Some (- Z.of_N (Pos.of_uint d))).
  rewrite (parse_uint d false (or_introl Hd)). reflexivity.
Qed.

(** [int(str(n))] is [n]. *)
Lemma int_str (n : Z) : int (JStr (str_of_int n)) = Ok n.
Proof.
  unfold int, str_of_int. destruct n as [|p|p]; [reflexivity| |];
    cbn [Z.to_int NilZero.string_of_int];
    pose proof (DecimalPos.Unsigned.to_uint_nonnil p) as Hd;
    pose proof (DecimalPos.Unsigned.of_to p) as Hp;
    (replace (NilZero.string_of_uint (Pos.to_uint p))
       with (NilEmpty.string_of_uint (Pos.to_uint p))
       by (destruct (Pos.to_uint p); [contradiction| | | | | | | | | |]; reflexivity)).
  - rewrite (int_of_digits _ Hd), Hp. reflexivity.
  - rewrite (int_of_minus_digits _ Hd), Hp. reflexivity.
Qed.

(** The requests of the deletion: the check, and then perhaps the
    [hostgroup.delete]. *)
Lemma delete_empty_group_calls groupid n name tok s :
  int groupid = Ok n ->
  calls (snd (delete_empty_group groupid name tok s)) =
    [api_request "host.get" (empty_check_params n) tok] \/
  calls (snd (delete_empty_group groupid name tok s)) =
    [api_request "host.get" (empty_check_params n) tok;
     api_request "hostgroup.delete" (delete_params n) tok].
Proof.
  intros Hi.
  rewrite (delete_empty_group_run _ _ _ _ _ Hi), (is_group_empty_run _ _ _ _ Hi).
  rewrite call_api_run.
  destruct (decoded _) as [result|e]; [destruct (len result) as [l|e]|];
    try (left; reflexivity).
  destruct (l =? 0); [|left; reflexivity].
  rewrite call_api_run. destruct (decoded _) as [x|e]; right; reflexivity.
Qed.

(** X17.  The group [delete_empty_group] asks to delete is the group
    it checked: every [hostgroup.delete] it sends names one identifier,
    the decimal text of a number, and that number, read back with
    [int], is the [int(groupid)] whose emptiness check was sent in the
    same call. *)
Theorem deleted_group_is_checked_group :
  forall (s : Srv) (groupid name tok : json) (req : request),
    In req (calls (snd (delete_empty_group groupid name tok s))) ->
    method req = "hostgroup.delete" ->
    exists n text,
      int groupid = Ok n /\
      params req = JArr [JStr text] /\
      int (JStr text) = Ok n /\
      In (api_request "host.get" (empty_check_params n) tok)
         (calls (snd (delete_empty_group groupid name tok s))).
Proof.
  intros s groupid name tok req Hin Hm.
  destruct (int groupid) as [n|e] eqn:Hi.
  - destruct (delete_empty_group_calls groupid n name tok s Hi) as [Hc | Hc];
      rewrite Hc in Hin |- *.
    + destruct Hin as [<- | []]. discriminate Hm.
    + destruct Hin as [<- | [<- | []]]; [discriminate Hm|].
      exists n, (str_of_int n). split; [reflexivity|]. split; [reflexivity|].
      split; [apply int_str | left; reflexivity].
  - destruct (delete_empty_group_rejected _ _ name tok s Hi) as (ev' & E & Hc).
    rewrite E in Hin. cbn [snd] in Hin. rewrite Hc in Hin. destruct Hin.
Qed.


(* ================================================================== *)
(** * The client's methods *)
(* ================================================================== *)

(** [_call_api] posts exactly one request, whatever comes of it. *)
Lemma client_call_run self method params auth_required s :
  exists r,
    snd (_call_api self method params auth_required) s =
    (r, snd (serve s (client_request self method params auth_required)),
     [Call (client_request self method params auth_required)]).
Proof.
  unfold _call_api. cbn [snd]. unfold try_except, bind, post.
  destruct (serve s (client_request self method params auth_required)) as [t s1].
  cbn [fst snd].
  destruct t as [| |st [v|]]; cbn [received]; try (eexists; reflexivity);
    cbn [lift]; unfold raise_for_status; cbn [status_code];
    (destruct ((400 <=? st) && (st <? 600)); cbn [raise ret]; [eexists; reflexivity|]);
    cbn [response_json body lift ret raise]; [|eexists; reflexivity].
  destruct (contains_key "error" v) as [[|]|e]; cbn [lift ret raise].
  - destruct (getitem v "error") as [err|e]; cbn [lift ret raise];
      [|destruct e; eexists; reflexivity].
    destruct (get err "message" (JStr "未知错误")) as [fallback|e]; cbn [lift ret raise];
      [|destruct e; eexists; reflexivity].
    destruct (get err "data" fallback) as [msg|e]; cbn [lift ret raise];
      [|destruct e]; eexists; reflexivity.
  - destruct (get v "result" JNull) as [x|e]; cbn [lift ret raise];
      [|destruct e]; eexists; reflexivity.
  - destruct e; eexists; reflexivity.
Qed.

Lemma api_run method params auth_required self s :
  exists r,
    api method params auth_required self s =
    (Ok (r, next_request self),
     snd (serve s (client_request self method params auth_required)),
     [Call (client_request self method params auth_required)]).
Proof.
  unfold api, krun. change (fst (_call_api self method params auth_required))
    with (next_request self).
  destruct (client_call_run self method params auth_required s) as (r & E).
  unfold try_except, bind. rewrite E.
  destruct r as [v|e]; eexists; reflexivity.
Qed.

Lemma only_api P method params auth_required self :
  P method -> only P (api method params auth_required self).
Proof.
  intros HP s r s1 ev H.
  destruct (api_run method params auth_required self s) as (r' & E).
  rewrite E in H. injection H as <- <- <-. constructor; [exact HP | constructor].
Qed.


Lemma silent_ret {A} (a : A) : silent (ret a).
Proof. intros s r s1 ev H. injection H as <- <- <-. reflexivity. Qed.

Lemma silent_raise {A} e : silent (@raise A e).
Proof. intros s r s1 ev H. injection H as <- <- <-. reflexivity. Qed.

Lemma silent_lift {A} (x : res A) : silent (lift x).
Proof. destruct x; [apply silent_ret | apply silent_raise]. Qed.

Lemma silent_print t a : silent (print t a).
Proof. intros s r s1 ev H. injection H as <- <- <-. reflexivity. Qed.

Lemma silent_logging l t a : silent (logging l t a).
Proof. intros s r s1 ev H. injection H as <- <- <-. reflexivity. Qed.

Lemma silent_write name content : silent (emit (WriteFile name content)).
Proof. intros s r s1 ev H. injection H as <- <- <-. reflexivity. Qed.

Lemma silent_bind {A B} (m : M A) (k : A -> M B) :
  silent m -> (forall a, silent (k a)) -> silent (bind m k).
Proof.
  intros Hm Hk s r s1 ev. unfold bind.
  destruct (m s) as [[[a|e] s'] ev'] eqn:E.
  - destruct (k a s') as [[r2 s2] ev2] eqn:E2. intros H. injection H as <- <- <-.
    rewrite calls_app, (Hm _ _ _ _ E), (Hk _ _ _ _ _ E2). reflexivity.
  - intros H. injection H as <- <- <-. exact (Hm _ _ _ _ E).
Qed.

Lemma silent_for_fold {A B} (body : A -> B -> M B) (l : list A) :
  (forall x acc, silent (body x acc)) -> forall acc, silent (for_fold l body acc).
Proof.
  intros Hb. induction l as [|x rest IH]; intros acc; cbn [for_fold].
  - apply silent_ret.
  - apply silent_bind; [apply Hb | intros acc'; apply IH].
Qed.

Lemma silent_for_each {A} (body : A -> M unit) (l : list A) :
  (forall x, silent (body x)) -> silent (for_each l body).
Proof.
  intros Hb. induction l as [|x rest IH]; cbn [for_each].
  - apply silent_ret.
  - apply silent_bind; [apply Hb | intros _; exact IH].
Qed.

(** Proves [silent m] by following the structure of [m]. *)
Ltac silent_step :=
  match goal with
  | |- silent (bind _ _) => apply silent_bind; [|intros ?]
  | |- silent (ret _) => apply silent_ret
  | |- silent (raise _) => apply silent_raise
  | |- silent (lift _) => apply silent_lift
  | |- silent (print _ _) => apply silent_print
  | |- silent (logging _ _ _) => apply silent_logging
  | |- silent (emit (WriteFile _ _)) => apply silent_write
  | |- silent (for_fold _ _ _) => apply silent_for_fold; intros ? ?
  | |- silent (for_each _ _) => apply silent_for_each; intros ?
  | |- silent (if ?b then _ else _) => destruct b
  | |- silent (match ?x with _ => _ end) => destruct x
  | |- silent (let _ := _ in _) => cbv zeta
  end.

Lemma kinv_ret {A} Inv (a : A) : invariant Inv -> kinv Inv (kret a).
Proof.
  intros [Hnil _] self s r s1 ev H. injection H as <- <- <-.
  eexists. split; [reflexivity | apply Hnil].
Qed.

Lemma kinv_raise {A} Inv e : invariant Inv -> kinv Inv (@kraise A e).
Proof.
  intros [Hnil _] self s r s1 ev H. injection H as <- <- <-.
  eexists. split; [reflexivity | apply Hnil].
Qed.

Lemma kinv_lift {A} Inv (x : res A) : invariant Inv -> kinv Inv (klift x).
Proof.
  intros [Hnil _] self s r s1 ev H. injection H as <- <- <-.
  eexists. split; [reflexivity | apply Hnil].
Qed.

Lemma kinv_run {A} Inv (m : M A) : invariant Inv -> silent m -> kinv Inv (krun m).
Proof.
  intros [Hnil _] Hm self s r s1 ev. unfold krun, try_except, bind.
  destruct (m s) as [[[a|e] s'] ev'] eqn:E; pose proof (Hm _ _ _ _ E) as Hc;
    cbn [ret]; intros H; injection H as <- <- <-;
    (eexists; split; [reflexivity|]); rewrite calls_app, Hc; apply Hnil.
Qed.

Lemma kinv_bind {A B} Inv (m : K A) (k : A -> K B) :
  invariant Inv -> kinv Inv m -> (forall a, kinv Inv (k a)) -> kinv Inv (kbind m k).
Proof.
  intros [Hnil Happ] Hm Hk self s r s1 ev. unfold kbind, bind.
  destruct (m self s) as [[r1 s'] ev'] eqn:E.
  destruct (Hm _ _ _ _ _ E) as (out & -> & I1).
  destruct out as [[a|e] self1]; cbn [fst snd] in *.
  - destruct (k a self1 s') as [[r2 s2] ev2] eqn:E2.
    destruct (Hk a _ _ _ _ _ E2) as (out2 & -> & I2).
    intros H. injection H as <- <- <-. eexists. split; [reflexivity|].
    rewrite calls_app. exact (Happ _ _ _ _ _ I1 I2).
  - cbn [ret]. intros H. injection H as <- <- <-. eexists. split; [reflexivity|].
    rewrite calls_app. cbn [snd]. rewrite app_nil_r. exact I1.
Qed.

Lemma kinv_try {A} Inv (m : K A) (h : exn -> K A) :
  invariant Inv -> kinv Inv m -> (forall e, kinv Inv (h e)) -> kinv Inv (ktry m h).
Proof.
  intros [Hnil Happ] Hm Hh self s r s1 ev. unfold ktry, bind.
  destruct (m self s) as [[r1 s'] ev'] eqn:E.
  destruct (Hm _ _ _ _ _ E) as (out & -> & I1).
  destruct out as [[a|e] self1]; cbn [fst snd] in *.
  - cbn [ret]. intros H. injection H as <- <- <-. eexists. split; [reflexivity|].
    rewrite calls_app. cbn [snd]. rewrite app_nil_r. exact I1.
  - destruct (h e self1 s') as [[r2 s2] ev2] eqn:E2.
    destruct (Hh e _ _ _ _ _ E2) as (out2 & -> & I2).
    intros H. injection H as <- <- <-. eexists. split; [reflexivity|].
    rewrite calls_app. exact (Happ _ _ _ _ _ I1 I2).
Qed.

Lemma kinv_finally {A} Inv (m : K A) (final : K unit) :
  invariant Inv -> kinv Inv m -> kinv Inv final -> kinv Inv (kfinally m final).
Proof.
  intros [Hnil Happ] Hm Hf self s r s1 ev. unfold kfinally, bind.
  destruct (m self s) as [[r1 s'] ev'] eqn:E.
  destruct (Hm _ _ _ _ _ E) as (out & -> & I1).
  destruct (final (snd out) s') as [[r2 s2] ev2] eqn:E2.
  destruct (Hf _ _ _ _ _ E2) as (out2 & -> & I2).
  destruct (fst out2); cbn [ret]; intros H; injection H as <- <- <-;
    (eexists; split; [reflexivity|]); cbn [snd];
    rewrite !calls_app, app_nil_r; exact (Happ _ _ _ _ _ I1 I2).
Qed.

Lemma kinv_for_fold {A B} Inv (body : A -> B -> K B) (l : list A) :
  invariant Inv -> (forall x acc, kinv Inv (body x acc)) ->
  forall acc, kinv Inv (kfor_fold l body acc).
Proof.
  intros HI Hb. induction l as [|x rest IH]; intros acc; cbn [kfor_fold].
  - apply kinv_ret. exact HI.
  - apply kinv_bind; [exact HI | apply Hb | intros acc'; apply IH].
Qed.

Lemma kinv_api Inv method params auth_required :
  (forall self, Inv self [client_request self method params auth_required]
                    (next_request self)) ->
  kinv Inv (api method params auth_required).
Proof.
  intros Hreq self s r s1 ev H.
  destruct (api_run method params auth_required self s) as (r' & E).
  rewrite E in H. injection H as <- <- <-. eexists. split; [reflexivity|]. apply Hreq.
Qed.


(** Proves [kinv Inv m] by following the structure of [m]; [HI] is the
    proof that [Inv] is an invariant, [side] settles each request. *)
Ltac kinv_step HI side :=
  match goal with
  | |- kinv _ (kbind _ _) => apply kinv_bind; [exact HI | | intros ?]
  | |- kinv _ (ktry _ _) => apply kinv_try; [exact HI | | intros ?]
  | |- kinv _ (kfinally _ _) => apply kinv_finally; [exact HI | | ]
  | |- kinv _ (kret _) => apply kinv_ret; exact HI
  | |- kinv _ (kraise _) => apply kinv_raise; exact HI
  | |- kinv _ (klift _) => apply kinv_lift; exact HI
  | |- kinv _ (klog _ _ _) => apply kinv_run; [exact HI | apply silent_logging]
  | |- kinv _ (kprint _ _) => apply kinv_run; [exact HI | apply silent_print]
  | |- kinv _ (krun _) => apply kinv_run; [exact HI | repeat silent_step]
  | |- kinv _ (api _ _ _) => apply kinv_api; side
  | |- kinv _ (kfor_fold _ _ _) => apply kinv_for_fold; [exact HI | intros ? ?]
  | |- kinv _ (if ?b then _ else _) => destruct b
  | |- kinv _ (match ?x with _ => _ end) => destruct x
  | |- kinv _ (let _ := _ in _) => cbv zeta
  end.

(** The methods the two operations are made of. *)
Ltac unfold_methods :=
  unfold replace_in_group, replace_in_one_host, replace_in_host, replace_host_template,
    replace_found_host, replace_in_template, get_hostgroup_by_name, get_template_by_name,
    get_hosts_in_group_with_template, get_host_by_id, get_host_by_name, first_or_none,
    _check_non_template_triggers, analyze_host_triggers, get_host_non_template_triggers,
    trigger_entry, item_info, generate_trigger_report, _prompt_trigger_deletion,
    _delete_all_triggers, _selective_delete_triggers, delete_and_count, delete_trigger,
    print_trigger_line.

(** The blocks of the two operations keep every invariant that the
    authorized requests keep. *)
Lemma replace_in_group_kinv Inv group_name old_name new_name check ts choice indices :
  invariant Inv ->
  (forall method params self,
      Inv self [client_request self method params true] (next_request self)) ->
  kinv Inv (replace_in_group group_name old_name new_name check ts choice indices).
Proof.
  intros HI Hreq. unfold_methods. repeat kinv_step HI ltac:(apply Hreq).
Qed.

Lemma replace_in_one_host_kinv Inv host old_name new_name by_id check ts choice indices :
  invariant Inv ->
  (forall method params self,
      Inv self [client_request self method params true] (next_request self)) ->
  kinv Inv (replace_in_one_host host old_name new_name by_id check ts choice indices).
Proof.
  intros HI Hreq. unfold_methods. repeat kinv_step HI ltac:(apply Hreq).
Qed.


(* ================================================================== *)
(** * A session: login, block, logout *)
(* ================================================================== *)

Lemma seq_from (n len : nat) : seq n len = map (fun i => (n + i)%nat) (seq 0 len).
Proof.
  induction n as [|n IH].
  - symmetry. apply map_id.
  - rewrite <- seq_shift, IH, map_map. reflexivity.
Qed.

Lemma numbered_invariant : invariant numbered.
Proof.
  split.
  - intros self. split; [cbn; lia | reflexivity].
  - intros a r1 b r2 c [Hb Hr1] [Hc Hr2]. split.
    + rewrite length_app, Nat2Z.inj_add. lia.
    + rewrite map_app, length_app, seq_app, map_app, Hr1, Hr2. f_equal.
      cbn [Nat.add]. rewrite Hb, (seq_from (List.length r1)), map_map.
      apply map_ext. intros i. lia.
Qed.

Lemma numbered_api method params auth_required self :
  numbered self [client_request self method params auth_required] (next_request self).
Proof. split; [reflexivity|]. cbn. f_equal. lia. Qed.

Lemma read_auth_token_kinv Inv : invariant Inv -> kinv Inv read_auth_token.
Proof.
  intros [Hnil _] self s r s1 ev H. injection H as <- <- <-.
  eexists. split; [reflexivity | apply Hnil].
Qed.

Lemma set_auth_token_numbered v : kinv numbered (set_auth_token v).
Proof.
  intros self s r s1 ev H. injection H as <- <- <-.
  eexists. split; [reflexivity|]. split; [cbn; lia | reflexivity].
Qed.

Lemma with_api_numbered {A} (block : K A) :
  kinv numbered block -> kinv numbered (with_api block).
Proof.
  intros Hb. unfold with_api, login, logout.
  pose proof numbered_invariant as HI.
  repeat first [ apply set_auth_token_numbered | apply read_auth_token_kinv; exact HI
               | exact Hb | kinv_step HI ltac:(intros; apply numbered_api) ].
Qed.


Lemma bind_logging {B} l t a (k : unit -> M B) s :
  bind (logging l t a) k s =
  let '(r, s2, ev2) := k tt s in (r, s2, Log l (Msg t a) :: ev2).
Proof. reflexivity. Qed.

(** A session whose block keeps the numbering. *)
Lemma session_numbered {A} (block : K A) s r s1 ev :
  kinv numbered block ->
  session block s = (r, s1, ev) ->
  r = Ok tt /\ map id (calls ev) = map Z.of_nat (seq 1 (List.length (calls ev))).
Proof.
  intros Hb. unfold session, bind.
  destruct (with_api block new_client s) as [[r1 s'] ev'] eqn:E.
  destruct (with_api_numbered block Hb _ _ _ _ _ E) as (out & -> & _ & Hids).
  assert (Hseq : map id (calls ev') = map Z.of_nat (seq 1 (List.length (calls ev')))).
  { rewrite Hids, (seq_from 1), map_map. apply map_ext. intros i.
    change (request_id new_client) with 1. lia. }
  destruct (fst out); cbn [ret logging emit]; intros H; injection H as <- <- <-;
    (split; [reflexivity|]); rewrite calls_app;
    [change (calls []) with (@nil request)
    |change (calls [Log _ _]) with (@nil request)];
    rewrite app_nil_r; exact Hseq.
Qed.

Lemma replace_templates_in_group_run group_name old_name new_name check ts choice indices s :
  exists pre,
    calls pre = [] /\
    replace_templates_in_group group_name old_name new_name check ts choice indices s =
    let '(r, s1, ev) :=
      session (replace_in_group group_name old_name new_name check ts choice indices) s in
    (r, s1, (pre ++ ev)%list).
Proof.
  unfold replace_templates_in_group. rewrite !bind_logging.
  destruct (session _ s) as [[r s1] ev].
  exists [Log INFO (Msg "开始在主机组 '{}' 中替换模板" [AVal (JStr group_name)]);
          Log INFO (Msg "旧模板: {}" [AVal (JStr old_name)]);
          Log INFO (Msg "新模板: {}" [AVal (JStr new_name)])].
  split; reflexivity.
Qed.

Lemma replace_template_for_host_run host old_name new_name by_id check ts choice indices s :
  exists pre,
    calls pre = [] /\
    replace_template_for_host host old_name new_name by_id check ts choice indices s =
    let '(r, s1, ev) :=
      session (replace_in_one_host host old_name new_name by_id check ts choice indices) s in
    (r, s1, (pre ++ ev)%list).
Proof.
  unfold replace_template_for_host. rewrite !bind_logging.
  destruct (session _ s) as [[r s1] ev].
  exists [Log INFO (Msg "开始为主机 {} '{}' 替换模板"
                        [AVal (JStr (if by_id then "ID" else "名称")); AVal (JStr host)]);
          Log INFO (Msg "旧模板: {}" [AVal (JStr old_name)]);
          Log INFO (Msg "新模板: {}" [AVal (JStr new_name)])].
  split; reflexivity.
Qed.

(** X18.  The two operations of the template replacer never raise:
    whatever the server answers and whatever the user types, the
    exception of any step (the login included) is caught and logged,
    and the operation returns. *)
Theorem template_operations_never_raise :
  forall (name old_name new_name ts choice indices : string) (by_id check : bool) (s : Srv),
    (exists s1 ev,
        replace_templates_in_group name old_name new_name check ts choice indices s =
        (Ok tt, s1, ev)) /\
    (exists s1 ev,
        replace_template_for_host name old_name new_name by_id check ts choice indices s =
        (Ok tt, s1, ev)).
Proof.
  intros name old_name new_name ts choice indices by_id check s. split.
  - destruct (replace_templates_in_group_run name old_name new_name check ts choice indices s)
      as (pre & _ & ->).
    destruct (session _ s) as [[r s1] ev] eqn:E.
    destruct (session_numbered _ _ _ _ _
                (replace_in_group_kinv numbered _ _ _ _ _ _ _ numbered_invariant
                   (fun m p self => numbered_api m p true self)) E) as [-> _].
    do 2 eexists. reflexivity.
  - destruct (replace_template_for_host_run name old_name new_name by_id check ts choice
                indices s) as (pre & _ & ->).
    destruct (session _ s) as [[r s1] ev] eqn:E.
    destruct (session_numbered _ _ _ _ _
                (replace_in_one_host_kinv numbered _ _ _ _ _ _ _ _ numbered_invariant
                   (fun m p self => numbered_api m p true self)) E) as [-> _].
    do 2 eexists. reflexivity.
Qed.

(** X19.  Within one operation the JSON-RPC requests are numbered 1, 2,
    3, ... in the order they are sent, login and logout included and
    failed requests counted: no two requests of a session share an
    [id]. *)
Theorem template_requests_are_numbered :
  forall (name old_name new_name ts choice indices : string) (by_id check : bool) (s : Srv),
    let in_group :=
      calls (snd (replace_templates_in_group name old_name new_name check ts choice
                    indices s)) in
    let for_host :=
      calls (snd (replace_template_for_host name old_name new_name by_id check ts choice
                    indices s)) in
    map id in_group = map Z.of_nat (seq 1 (List.length in_group)) /\
    map id for_host = map Z.of_nat (seq 1 (List.length for_host)).
Proof.
  intros name old_name new_name ts choice indices by_id check s. cbv zeta. split.
  - destruct (replace_templates_in_group_run name old_name new_name check ts choice indices s)
      as (pre & Hpre & ->).
    destruct (session _ s) as [[r s1] ev] eqn:E.
    destruct (session_numbered _ _ _ _ _
                (replace_in_group_kinv numbered _ _ _ _ _ _ _ numbered_invariant
                   (fun m p self => numbered_api m p true self)) E) as [_ Hids].
    cbn [snd]. rewrite calls_app, Hpre. exact Hids.
  - destruct (replace_template_for_host_run name old_name new_name by_id check ts choice
                indices s) as (pre & Hpre & ->).
    destruct (session _ s) as [[r s1] ev] eqn:E.
    destruct (session_numbered _ _ _ _ _
                (replace_in_one_host_kinv numbered _ _ _ _ _ _ _ _ numbered_invariant
                   (fun m p self => numbered_api m p true self)) E) as [_ Hids].
    cbn [snd]. rewrite calls_app, Hpre. exact Hids.
Qed.


(** [logout] on an object that holds a token: one request, and the
    token is dropped whatever the server answers. *)
Lemma logout_run self s :
  truthy (auth_token self) = true ->
  exists ev,
    logout self s =
    (Ok (Ok tt, with_token JNull (next_request self)),
     snd (serve s (client_logout_request self)), ev) /\
    calls ev = [client_logout_request self].
Proof.
  intros T. unfold logout, kbind at 1, read_auth_token. rewrite bind_ret. cbn [fst snd].
  rewrite T. unfold kfinally, ktry, kbind.
  destruct (api_run "user.logout" (JObj []) true self s) as (r & E).
  fold (client_logout_request self) in E.
  unfold bind at 1. unfold bind at 1. unfold bind at 1. rewrite E. cbn [fst snd].
  destruct r as [v|e]; cbn; eexists; split; reflexivity.
Qed.

Lemma logout_idle self s :
  truthy (auth_token self) = false -> logout self s = (Ok (Ok tt, self), s, []).
Proof.
  intros T. unfold logout, kbind at 1, read_auth_token. rewrite bind_ret. cbn [fst snd].
  rewrite T. reflexivity.
Qed.

(** X20.  [logout] never raises and always leaves the client without a
    token.  It sends one request, [user.logout] with the token in the
    [Authorization] header, when the client holds a token, and none
    when it holds none; a failure of that request is logged and the
    token is dropped all the same. *)
Theorem logout_drops_the_token :
  forall (self : ZabbixAPI) (s : Srv),
    exists self' s1 ev,
      logout self s = (Ok (Ok tt, self'), s1, ev) /\
      truthy (auth_token self') = false /\
      calls ev = (if truthy (auth_token self) then [client_logout_request self] else []) /\
      Forall (fun q => method q = "user.logout" /\ bearer q = Some (auth_token self))
             (calls ev).
Proof.
  intros self s. destruct (truthy (auth_token self)) eqn:T.
  - destruct (logout_run self s T) as (ev & E & Hc).
    do 3 eexists. split; [exact E|]. split; [reflexivity|]. split; [exact Hc|].
    rewrite Hc. constructor; [|constructor]. split; [reflexivity|].
    cbn. rewrite T. reflexivity.
  - rewrite (logout_idle self s T). do 3 eexists. split; [reflexivity|].
    split; [exact T|]. split; [reflexivity | constructor].
Qed.


Lemma authorized_invariant allowed : invariant (authorized_for allowed).
Proof.
  split.
  - intros self. split; [reflexivity | constructor].
  - intros a r1 b r2 c [Hb Hr1] [Hc Hr2]. split; [congruence|].
    apply Forall_app. split; [exact Hr1|].
    unfold bearer_of in *. rewrite Hb in Hr2. exact Hr2.
Qed.

Lemma authorized_api allowed method params self :
  In method allowed ->
  authorized_for allowed self [client_request self method params true] (next_request self).
Proof.
  intros Hm. split; [reflexivity|]. constructor; [|constructor].
  split; [reflexivity | exact Hm].
Qed.

(** The blocks of the two operations keep the token and call only
    their methods. *)
Lemma replace_in_group_authorized group_name old_name new_name check ts choice indices :
  kinv (authorized_for block_methods)
       (replace_in_group group_name old_name new_name check ts choice indices).
Proof.
  pose proof (authorized_invariant block_methods) as HI. unfold_methods.
  repeat kinv_step HI
    ltac:(intros; apply authorized_api; cbn [In block_methods];
          repeat (first [left; reflexivity | right])).
Qed.

Lemma replace_in_one_host_authorized host old_name new_name by_id check ts choice indices :
  kinv (authorized_for block_methods)
       (replace_in_one_host host old_name new_name by_id check ts choice indices).
Proof.
  pose proof (authorized_invariant block_methods) as HI. unfold_methods.
  repeat kinv_step HI
    ltac:(intros; apply authorized_api; cbn [In block_methods];
          repeat (first [left; reflexivity | right])).
Qed.

(** [login]: one request, and the token it returned is stored. *)
Lemma login_run self s r :
  fst (fst (api "user.login"
              (JObj [("username", JStr config_user); ("password", JStr config_password)])
              false self s)) = Ok (r, next_request self) ->
  exists ev,
    login self s =
    (Ok (match r with
         | Ok token => (Ok tt, with_token token (next_request self))
         | Raise e => (Raise e, next_request self)
         end),
     snd (serve s (client_login_request self)), ev) /\
    calls ev = [client_login_request self].
Proof.
  intros Hr.
  destruct (api_run "user.login"
              (JObj [("username", JStr config_user); ("password", JStr config_password)])
              false self s) as (r' & E).
  rewrite E in Hr. cbn [fst] in Hr. injection Hr as ->.
  fold (client_login_request self) in E.
  unfold login, kbind at 1, klog, krun at 1, try_except.
  unfold bind at 2. cbn [logging emit ret]. unfold bind at 1. cbn [fst snd].
  unfold ktry, kbind at 1. unfold bind at 1. unfold bind at 1. rewrite E. cbn [fst snd].
  destruct r as [token|e]; cbn; eexists; split; reflexivity.
Qed.


(** The requests of a session are bracketed by the login and the
    logout. *)
Lemma session_bracketed {A} allowed (block : K A) s :
  kinv (authorized_for allowed) block ->
  bracketed allowed s (calls (snd (session block s))).
Proof.
  intros Hb. unfold bracketed.
  destruct (api_run "user.login"
              (JObj [("username", JStr config_user); ("password", JStr config_password)])
              false new_client s) as (r & E).
  destruct (login_run new_client s r) as (evl & El & Hcl); [rewrite E; reflexivity|].
  rewrite E. cbn [fst].
  destruct r as [token|e];
    unfold session, with_api, kbind at 1;
    unfold bind at 1; unfold bind at 1; rewrite El; cbn [fst snd].
  - unfold kfinally. unfold bind at 1.
    set (self1 := with_token token (next_request new_client)).
    set (s1 := snd (serve s (client_login_request new_client))).
    destruct (block self1 s1) as [[rb s2] evb] eqn:Eb.
    destruct (Hb _ _ _ _ _ Eb) as (outb & -> & Htok & Hreqs).
    change (auth_token self1) with token in Htok.
    change (bearer_of self1) with (if truthy token then Some token else None) in Hreqs.
    unfold bind at 1.
    destruct (truthy token) eqn:T.
    + destruct (logout_run (snd outb) s2) as (evo & Eo & Hco); [rewrite Htok; exact T|].
      rewrite Eo. cbn [fst snd ret].
      exists (calls evb), [client_logout_request (snd outb)].
      split; [|split; [exact Hreqs|]].
      * destruct (fst outb); cbn [ret logging emit snd];
          rewrite !calls_app, Hcl, Hco; cbn [app];
          rewrite ?calls_cons; change (calls []) with (@nil request);
          rewrite ?app_nil_r; reflexivity.
      * eexists. split; [reflexivity|]. split; [reflexivity|].
        unfold client_logout_request, client_request. cbn [bearer andb].
        rewrite Htok, T. reflexivity.
    + rewrite (logout_idle (snd outb) s2) by (rewrite Htok; exact T).
      cbn [fst snd ret].
      exists (calls evb), []. split; [|split; [exact Hreqs | reflexivity]].
      destruct (fst outb); cbn [ret logging emit snd];
        rewrite !calls_app, Hcl; cbn [app];
        rewrite ?calls_cons; change (calls []) with (@nil request);
        rewrite ?app_nil_r; reflexivity.
  - cbn [fst snd ret logging emit]. rewrite !calls_app, Hcl. reflexivity.
Qed.

(** X21.  The requests of each operation are bracketed by the login and
    the logout.  The login is sent first and without a token.  If it
    fails, nothing else is sent.  If it succeeds, every request of the
    operation carries the token the login returned, and the last
    request is the logout with that token, whether the operation went
    through, stopped early or failed. *)
Theorem template_session_is_bracketed :
  forall (name old_name new_name ts choice indices : string) (by_id check : bool) (s : Srv),
    bracketed block_methods s
      (calls (snd (replace_templates_in_group name old_name new_name check ts choice
                     indices s))) /\
    bracketed block_methods s
      (calls (snd (replace_template_for_host name old_name new_name by_id check ts choice
                     indices s))).
Proof.
  intros name old_name new_name ts choice indices by_id check s. split.
  - destruct (replace_templates_in_group_run name old_name new_name check ts choice indices s)
      as (pre & Hpre & ->).
    pose proof (session_bracketed block_methods _ s
                  (replace_in_group_authorized name old_name new_name check ts choice
                     indices)) as B.
    destruct (session _ s) as [[r s1] ev]. cbn [snd] in *.
    rewrite calls_app, Hpre. exact B.
  - destruct (replace_template_for_host_run name old_name new_name by_id check ts choice
                indices s) as (pre & Hpre & ->).
    pose proof (session_bracketed block_methods _ s
                  (replace_in_one_host_authorized name old_name new_name by_id check ts
                     choice indices)) as B.
    destruct (session _ s) as [[r s1] ev]. cbn [snd] in *.
    rewrite calls_app, Hpre. exact B.
Qed.


(* ================================================================== *)
(** * Nothing to replace *)
(* ================================================================== *)

Lemma kinv_bind_nothing {B} Inv (m : K json) (k : json -> K B) :
  invariant Inv -> kinv Inv m -> finds_nothing m ->
  (forall a, truthy a = false -> kinv Inv (k a)) -> kinv Inv (kbind m k).
Proof.
  intros [Hnil Happ] Hm Hnone Hk self s r s1 ev. unfold kbind, bind.
  specialize (Hnone self s).
  destruct (m self s) as [[r1 s'] ev'] eqn:E.
  destruct (Hm _ _ _ _ _ E) as (out & -> & I1).
  destruct out as [[a|e] self1]; cbn [fst snd] in *.
  - destruct (k a self1 s') as [[r2 s2] ev2] eqn:E2.
    destruct (Hk a Hnone _ _ _ _ _ E2) as (out2 & -> & I2).
    intros H. injection H as <- <- <-. eexists. split; [reflexivity|].
    rewrite calls_app. exact (Happ _ _ _ _ _ I1 I2).
  - cbn [ret]. intros H. injection H as <- <- <-. eexists. split; [reflexivity|].
    rewrite calls_app. cbn [snd]. rewrite app_nil_r. exact I1.
Qed.

(** Settles a request for one of the lookups. *)
Ltac lookup_request :=
  intros; apply authorized_api; cbn [In lookup_methods];
  repeat (first [left; reflexivity | right]).

Lemma replace_in_group_nothing group_name old_name new_name check ts choice indices :
  finds_nothing (get_hostgroup_by_name group_name) \/
  finds_nothing (get_template_by_name old_name) \/
  finds_nothing (get_template_by_name new_name) ->
  kinv (authorized_for lookup_methods)
       (replace_in_group group_name old_name new_name check ts choice indices).
Proof.
  pose proof (authorized_invariant lookup_methods) as HI.
  assert (Hgroup : kinv (authorized_for lookup_methods) (get_hostgroup_by_name group_name)).
  { unfold_methods. repeat kinv_step HI ltac:(lookup_request). }
  assert (Htemplate : forall name,
             kinv (authorized_for lookup_methods) (get_template_by_name name)).
  { intros name. unfold_methods. repeat kinv_step HI ltac:(lookup_request). }
  intros [Hnone | [Hnone | Hnone]]; unfold replace_in_group.
  - apply kinv_bind_nothing; [exact HI | exact Hgroup | exact Hnone|].
    intros group ->. cbn [negb]. kinv_step HI ltac:(idtac).
  - apply kinv_bind; [exact HI | exact Hgroup|].
    intros group. destruct (negb (truthy group)); [kinv_step HI ltac:(idtac)|].
    apply kinv_bind_nothing; [exact HI | apply Htemplate | exact Hnone|].
    intros old_template ->. cbn [negb]. kinv_step HI ltac:(idtac).
  - apply kinv_bind; [exact HI | exact Hgroup|].
    intros group. destruct (negb (truthy group)); [kinv_step HI ltac:(idtac)|].
    apply kinv_bind; [exact HI | apply Htemplate|].
    intros old_template. destruct (negb (truthy old_template)); [kinv_step HI ltac:(idtac)|].
    apply kinv_bind_nothing; [exact HI | apply Htemplate | exact Hnone|].
    intros new_template ->. cbn [negb]. kinv_step HI ltac:(idtac).
Qed.

(** X22.  When the host group, the old template or the new template
    cannot be found, [replace_templates_in_group] changes nothing: apart
    from the login and the logout it sends only the lookups
    ([hostgroup.get], [template.get]); no host is read or updated and no
    trigger is touched. *)
Theorem nothing_is_replaced_without_group_and_templates :
  forall (group_name old_name new_name ts choice indices : string) (check : bool) (s : Srv),
    finds_nothing (get_hostgroup_by_name group_name) \/
    finds_nothing (get_template_by_name old_name) \/
    finds_nothing (get_template_by_name new_name) ->
    bracketed lookup_methods s
      (calls (snd (replace_templates_in_group group_name old_name new_name check ts choice
                     indices s))).
Proof.
  intros group_name old_name new_name ts choice indices check s Hnone.
  destruct (replace_templates_in_group_run group_name old_name new_name check ts choice
              indices s) as (pre & Hpre & ->).
  pose proof (session_bracketed lookup_methods _ s
                (replace_in_group_nothing group_name old_name new_name check ts choice
                   indices Hnone)) as B.
  destruct (session _ s) as [[r s1] ev]. cbn [snd] in *.
  rewrite calls_app, Hpre. exact B.
Qed.


(* ================================================================== *)
(** * The replacement of a template on one host *)
(* ================================================================== *)

Lemma after_nil {A} (t : res A * Srv * list event) : after [] t = t.
Proof. destruct t as [[r s] ev]. reflexivity. Qed.

Lemma after_after {A} e1 e2 (t : res A * Srv * list event) :
  after e1 (after e2 t) = after (e1 ++ e2) t.
Proof. destruct t as [[r s] ev]. cbn. rewrite app_assoc. reflexivity. Qed.

Lemma after_calls {A} e1 (t : res A * Srv * list event) :
  calls (snd (after e1 t)) = (calls e1 ++ calls (snd t))%list.
Proof. destruct t as [[r s] ev]. cbn. apply calls_app. Qed.

Lemma bind_after {A B} (m : M A) (k : A -> M B) s a s1 ev1 :
  m s = (Ok a, s1, ev1) -> bind m k s = after ev1 (k a s1).
Proof. intros H. unfold bind, after. rewrite H. reflexivity. Qed.

Lemma kbind_ok {A B} (m : K A) (k : A -> K B) self s a self1 s1 ev1 :
  m self s = (Ok (Ok a, self1), s1, ev1) ->
  kbind m k self s = after ev1 (k a self1 s1).
Proof. intros H. unfold kbind. exact (bind_after _ _ _ _ _ _ H). Qed.

Lemma kbind_raise {A B} (m : K A) (k : A -> K B) self s e self1 s1 ev1 :
  m self s = (Ok (Raise e, self1), s1, ev1) ->
  kbind m k self s = (Ok (Raise e, self1), s1, ev1).
Proof.
  intros H. unfold kbind. rewrite (bind_after _ _ _ _ _ _ H).
  cbn. rewrite app_nil_r. reflexivity.
Qed.

Lemma ktry_ok {A} (m : K A) (h : exn -> K A) self s a self1 s1 ev1 :
  m self s = (Ok (Ok a, self1), s1, ev1) ->
  ktry m h self s = (Ok (Ok a, self1), s1, ev1).
Proof.
  intros H. unfold ktry. rewrite (bind_after _ _ _ _ _ _ H).
  cbn. rewrite app_nil_r. reflexivity.
Qed.

Lemma ktry_raise {A} (m : K A) (h : exn -> K A) self s e self1 s1 ev1 :
  m self s = (Ok (Raise e, self1), s1, ev1) ->
  ktry m h self s = after ev1 (h e self1 s1).
Proof. intros H. unfold ktry. exact (bind_after _ _ _ _ _ _ H). Qed.

Lemma kbind_lift_ok {A B} (a : A) (k : A -> K B) self s :
  kbind (klift (Ok a)) k self s = k a self s.
Proof. rewrite (kbind_ok _ _ _ _ a self s [] eq_refl). apply after_nil. Qed.

Lemma kbind_lift_raise {A B} e (k : A -> K B) self s :
  kbind (klift (Raise e)) k self s = (Ok (Raise e, self), s, []).
Proof. exact (kbind_raise _ _ _ _ e self s [] eq_refl). Qed.

Lemma kbind_log {B} l t a (k : unit -> K B) self s :
  kbind (klog l t a) k self s = after [Log l (Msg t a)] (k tt self s).
Proof. exact (kbind_ok _ _ _ _ tt self s _ eq_refl). Qed.

Lemma krun_ok {A} (m : M A) self s a s1 ev1 :
  m s = (Ok a, s1, ev1) -> krun m self s = (Ok (Ok a, self), s1, ev1).
Proof.
  intros H. unfold krun, try_except. rewrite (bind_after _ _ _ _ _ _ H).
  cbn. rewrite app_nil_r. reflexivity.
Qed.

Lemma krun_raise {A} (m : M A) self s e s1 ev1 :
  m s = (Raise e, s1, ev1) -> krun m self s = (Ok (Raise e, self), s1, ev1).
Proof.
  intros H. unfold krun, try_except, bind. rewrite H.
  cbn. rewrite app_nil_r. reflexivity.
Qed.

(** The loop of [replace_host_template] when the old template is not
    among the templates: nothing is marked as replaced. *)
Lemma replace_loop_unused host old_id new_id : forall templates acc s r s1 ev,
  uses_template old_id templates = false ->
  snd acc = false ->
  for_fold templates (replace_in_template host old_id new_id) acc s = (r, s1, ev) ->
  s1 = s /\ calls ev = [] /\ forall acc', r = Ok acc' -> snd acc' = false.
Proof.
  induction templates as [|t rest IH]; intros acc s r s1 ev Hu Hacc.
  - cbn. intros H. injection H as <- <- <-. repeat split.
    intros acc' E. injection E as <-. exact Hacc.
  - cbn [uses_template existsb] in Hu. apply orb_false_iff in Hu. destruct Hu as [Ht Hrest].
    cbn [for_fold]. unfold bind at 1. unfold replace_in_template at 1.
    destruct (getitem t "templateid") as [tid|e]; rewrite ?bind_lift_ok, ?bind_lift_raise;
      [|intros H; injection H as <- <- <-; repeat split; intros acc' E; discriminate E].
    cbv beta. rewrite Ht, bind_lift_ok. cbv beta. cbn [ret].
    match goal with |- context [for_fold rest _ ?a s] =>
      destruct (for_fold rest (replace_in_template host old_id new_id) a s)
        as [[r2 s2] ev2] eqn:E2;
      destruct (IH a s r2 s2 ev2 Hrest Hacc E2) as (-> & Hc & Hv)
    end.
    intros H. injection H as <- <- <-. repeat split; assumption.
Qed.


Lemma first_or_none_run xs self s :
  first_or_none xs self s =
  (Ok ((if truthy xs then first xs else Ok JNull), self), s, []).
Proof. unfold first_or_none. destruct (truthy xs); reflexivity. Qed.

(** The lookup of a host: one request. *)
Lemma get_host_by_id_run host_id self s :
  exists o ev,
    get_host_by_id host_id self s =
      (Ok (o, next_request self),
       snd (serve s (client_request self "host.get" (host_by_id_params host_id) true)), ev) /\
    calls ev = [client_request self "host.get" (host_by_id_params host_id) true].
Proof.
  unfold get_host_by_id.
  destruct (api_run "host.get" (host_by_id_params host_id) true self s) as ([hosts|e] & E).
  - rewrite (kbind_ok _ _ _ _ _ _ _ _ E), first_or_none_run.
    do 2 eexists. split; reflexivity.
  - rewrite (kbind_raise _ _ _ _ _ _ _ _ E). do 2 eexists. split; reflexivity.
Qed.

(** A host that is not found, or to which the old template is not
    attached: nothing is sent. *)
Lemma replace_found_unused host host_id old_id new_id self s :
  truthy host &&
  match attached_templates host with
  | Ok templates => uses_template old_id templates
  | Raise _ => false
  end = false ->
  exists o ev,
    replace_found_host host host_id old_id new_id self s = (Ok (o, self), s, ev) /\
    calls ev = [] /\
    (o = Ok false \/ exists e, o = Raise e).
Proof.
  intros Hu. unfold replace_found_host, attached_templates in *.
  destruct (truthy host); cbn [negb andb] in *.
  - destruct (get host "parentTemplates" (JArr [])) as [current|e];
      [rewrite kbind_lift_ok | rewrite kbind_lift_raise; do 2 eexists; eauto].
    destruct (iter current) as [templates|e];
      [rewrite kbind_lift_ok | rewrite kbind_lift_raise; do 2 eexists; eauto].
    destruct (for_fold templates (replace_in_template host old_id new_id) ([], false) s)
      as [[[acc|e] s'] ev'] eqn:E;
      destruct (replace_loop_unused host old_id new_id templates ([], false) _ _ _ _
                  Hu eq_refl E) as (-> & Hc & Hv).
    + rewrite (kbind_ok _ _ _ _ _ _ _ _ (krun_ok _ self _ _ _ _ E)).
      rewrite (Hv acc eq_refl). cbn [negb].
      destruct (getitem host "name") as [host_name|e].
      * rewrite kbind_lift_ok, kbind_log. cbn.
        do 2 eexists. split; [reflexivity|]. split; [|left; reflexivity].
        rewrite calls_app, Hc. reflexivity.
      * rewrite kbind_lift_raise. cbn.
        do 2 eexists. split; [reflexivity|]. split; [|right; eauto].
        rewrite calls_app, Hc. reflexivity.
    + rewrite (kbind_raise _ _ _ _ _ _ _ _ (krun_raise _ self _ _ _ _ E)).
      do 2 eexists. split; [reflexivity|]. split; [exact Hc | right; eauto].
  - rewrite kbind_log. cbn. do 2 eexists. split; [reflexivity|]. split; [reflexivity|].
    left. reflexivity.
Qed.

(** X23.  Unless the host is found and the old template is attached to
    it, [replace_host_template] answers [False] and the lookup of the
    host is the only request it sends: no [host.update] leaves the
    client, also when the lookup fails or the answer is malformed. *)
Theorem template_not_attached_is_not_replaced :
  forall (host_id old_id new_id : json) (self : ZabbixAPI) (s : Srv),
    uses_old_template host_id old_id self s = false ->
    exists self' s1 ev,
      replace_host_template host_id old_id new_id self s = (Ok (Ok false, self'), s1, ev) /\
      calls ev = [client_request self "host.get" (host_by_id_params host_id) true].
Proof.
  intros host_id old_id new_id self s Hu. unfold uses_old_template in Hu.
  destruct (get_host_by_id_run host_id self s) as (o & ev1 & E & Hc).
  rewrite E in Hu. cbn [fst] in Hu. unfold replace_host_template.
  destruct o as [host|e].
  - destruct (replace_found_unused host host_id old_id new_id (next_request self)
                (snd (serve s (client_request self "host.get"
                                 (host_by_id_params host_id) true))) Hu)
      as (o & ev2 & E2 & Hc2 & Ho).
    pose proof (kbind_ok _ (fun host => replace_found_host host host_id old_id new_id)
                  _ _ _ _ _ _ E) as Hb.
    cbv beta in Hb. rewrite E2 in Hb. cbn [after] in Hb.
    destruct Ho as [-> | [e ->]].
    + rewrite (ktry_ok _ _ _ _ _ _ _ _ Hb). do 3 eexists. split; [reflexivity|].
      rewrite calls_app, Hc, Hc2. reflexivity.
    + rewrite (ktry_raise _ _ _ _ _ _ _ _ Hb), kbind_log. cbn.
      do 3 eexists. split; [reflexivity|].
      rewrite !calls_app, Hc, Hc2. reflexivity.
  - pose proof (kbind_raise _ (fun host => replace_found_host host host_id old_id new_id)
                  _ _ _ _ _ _ E) as Hb.
    rewrite (ktry_raise _ _ _ _ _ _ _ _ Hb), kbind_log. cbn.
    do 3 eexists. split; [reflexivity|]. rewrite calls_app, Hc. reflexivity.
Qed.







(* ================================================================== *)
(** * Triggers that do not come from a template *)
(* ================================================================== *)




(* ================================================================== *)
(** * The deletion of triggers *)
(* ================================================================== *)

Lemma delete_trigger_run trigger_id self s :
  exists deleted ev,
    delete_trigger trigger_id self s =
      (Ok (Ok deleted, next_request self),
       snd (serve s (client_request self "trigger.delete" (JArr [trigger_id]) true)), ev) /\
    map sent (calls ev) = [("trigger.delete", JArr [trigger_id])].
Proof.
  unfold delete_trigger.
  destruct (api_run "trigger.delete" (JArr [trigger_id]) true self s) as ([v|e] & E).
  - pose proof (kbind_ok _ (fun _ => kret true) _ _ _ _ _ _ E) as Hb.
    cbn [kret ret after app] in Hb.
    rewrite (ktry_ok _ _ _ _ _ _ _ _ Hb). do 2 eexists. split; reflexivity.
  - pose proof (kbind_raise _ (fun _ : json => kret true) _ _ _ _ _ _ E) as Hb.
    rewrite (ktry_raise _ _ _ _ _ _ _ _ Hb), kbind_log. cbn.
    do 2 eexists. split; reflexivity.
Qed.

Lemma complete_entry_fields entry :
  complete_entry entry = true ->
  exists trigger_id description host_name priority,
    getitem entry "trigger_id" = Ok trigger_id /\
    getitem entry "description" = Ok description /\
    getitem entry "host_name" = Ok host_name /\
    getitem entry "priority" = Ok priority.
Proof.
  unfold complete_entry. intros H.
  apply andb_prop in H. destruct H as [H H4].
  apply andb_prop in H. destruct H as [H H3].
  apply andb_prop in H. destruct H as [H1 H2].
  destruct (getitem entry "trigger_id"); [|discriminate].
  destruct (getitem entry "description"); [|discriminate].
  destruct (getitem entry "host_name"); [|discriminate].
  destruct (getitem entry "priority"); [|discriminate].
  do 4 eexists. repeat split.
Qed.

(** One entry: one [trigger.delete], whether it is accepted or not. *)
Lemma delete_and_count_run entry count self s :
  complete_entry entry = true ->
  exists count' s1 ev,
    delete_and_count entry count self s = (Ok (Ok count', next_request self), s1, ev) /\
    map sent (calls ev) = [deletion_of entry].
Proof.
  intros Hc.
  destruct (complete_entry_fields entry Hc) as (tid & d & h & p & H1 & H2 & H3 & _).
  unfold delete_and_count, deletion_of, trigger_id_of. rewrite H1, kbind_lift_ok.
  destruct (delete_trigger_run tid self s) as (deleted & ev & E & Hs).
  rewrite (kbind_ok _ _ _ _ _ _ _ _ E).
  destruct deleted.
  - rewrite H2, kbind_lift_ok, H3, kbind_lift_ok, kbind_log. cbn.
    do 3 eexists. split; [reflexivity|].
    rewrite !calls_app, map_app, Hs. reflexivity.
  - cbn. do 3 eexists. split; [reflexivity|].
    rewrite !calls_app, map_app, Hs. reflexivity.
Qed.

Lemma delete_loop_run : forall entries count self s,
  forallb complete_entry entries = true ->
  exists count' self' s1 ev,
    kfor_fold entries delete_and_count count self s = (Ok (Ok count', self'), s1, ev) /\
    map sent (calls ev) = map deletion_of entries.
Proof.
  induction entries as [|entry rest IH]; intros count self s Hc.
  - do 4 eexists. split; reflexivity.
  - cbn [forallb] in Hc. apply andb_prop in Hc. destruct Hc as [He Hrest].
    destruct (delete_and_count_run entry count self s He) as (c1 & s1 & ev1 & E1 & S1).
    destruct (IH c1 (next_request self) s1 Hrest) as (c2 & self2 & s2 & ev2 & E2 & S2).
    cbn [kfor_fold]. rewrite (kbind_ok _ _ _ _ _ _ _ _ E1), E2. cbn [after].
    do 4 eexists. split; [reflexivity|].
    rewrite calls_app, map_app, S1, S2. reflexivity.
Qed.

(** X26.  [_delete_all_triggers] asks for the deletion of every entry
    of the trigger data, once each and in order, with the entry's
    [trigger_id]: a deletion the server refuses is logged and does not
    stop the ones after it. *)
Theorem every_trigger_is_asked_to_be_deleted :
  forall (trigger_data : list json) (self : ZabbixAPI) (s : Srv),
    forallb complete_entry trigger_data = true ->
    exists self' s1 ev,
      _delete_all_triggers trigger_data self s = (Ok (Ok tt, self'), s1, ev) /\
      map sent (calls ev) = map deletion_of trigger_data.
Proof.
  intros trigger_data self s Hc. unfold _delete_all_triggers. rewrite kbind_log.
  destruct (delete_loop_run trigger_data 0 self s Hc) as (c & self' & s1 & ev & E & Hs).
  rewrite (kbind_ok _ _ _ _ _ _ _ _ E). cbn.
  do 3 eexists. split; [reflexivity|].
  rewrite calls_cons, calls_app. cbn [app].
  change (calls [Log _ _]) with (@nil request). rewrite app_nil_r. exact Hs.
Qed.




Lemma kbind_print {B} t a (k : unit -> K B) self s :
  kbind (kprint t a) k self s = after [Print (Msg t a)] (k tt self s).
Proof. exact (kbind_ok _ _ _ _ tt self s _ eq_refl). Qed.




Lemma preview_run (trigger_data : list json) (s : Srv) :
  forallb complete_entry trigger_data = true ->
  forall entries, (forall entry, In entry entries -> In (snd entry) trigger_data) ->
  exists ev, for_each entries print_trigger_line s = (Ok tt, s, ev) /\ calls ev = [].
Proof.
  intros Hc. rewrite forallb_forall in Hc.
  induction entries as [|entry rest IH]; intros Hin.
  - exists []. split; reflexivity.
  - destruct (complete_entry_fields _ (Hc _ (Hin entry (or_introl eq_refl))))
      as (tid & d & h & p & _ & H2 & H3 & H4).
    destruct (IH (fun e He => Hin e (or_intror He))) as (ev & E & Hcalls).
    cbn [for_each]. unfold bind at 1. unfold print_trigger_line at 1.
    rewrite H3, bind_lift_ok. cbv beta. rewrite H2, bind_lift_ok. cbv beta.
    rewrite H4, bind_lift_ok. cbv beta. cbn [print emit]. rewrite E.
    eexists. split; [reflexivity|]. cbn [app]. rewrite calls_cons. exact Hcalls.
Qed.

Lemma enumerate_snd {A} (l : list A) (entry : Z * A) :
  In entry (enumerate l) -> In (snd entry) l.
Proof.
  unfold enumerate. destruct entry as [i x]. intros H. exact (in_combine_r _ _ _ _ H).
Qed.

(** The loop of [_selective_delete_triggers] over the numbers typed. *)
Lemma selection_loop_run (trigger_data : list json) :
  forallb complete_entry trigger_data = true ->
  forall indices count self s,
  exists count' self' s1 ev,
    kfor_fold indices
      (fun index success_count =>
         if (0 <=? index) && (index <? Z.of_nat (List.length trigger_data)) then
           delete_and_count (nth (Z.to_nat index) trigger_data JNull) success_count
         else
           kbind (klog WARNING "无效编号: {}" [AVal (JNum (index + 1))])
                 (fun _ => kret success_count))
      count self s = (Ok (Ok count', self'), s1, ev) /\
    map sent (calls ev) =
      map (fun index => deletion_of (nth (Z.to_nat index) trigger_data JNull))
          (filter (in_range trigger_data) indices).
Proof.
  intros Hc. induction indices as [|index rest IH]; intros count self s.
  - do 4 eexists. split; reflexivity.
  - cbn [kfor_fold filter]. unfold in_range at 1.
    destruct ((0 <=? index) && (index <? Z.of_nat (List.length trigger_data))) eqn:Hr.
    + assert (He : complete_entry (nth (Z.to_nat index) trigger_data JNull) = true).
      { rewrite forallb_forall in Hc. apply Hc. apply nth_In.
        apply andb_prop in Hr. destruct Hr as [H0 H1].
        apply Z.leb_le in H0. apply Z.ltb_lt in H1. lia. }
      destruct (delete_and_count_run _ count self s He) as (c1 & s1 & ev1 & E1 & S1).
      destruct (IH c1 (next_request self) s1) as (c2 & self2 & s2 & ev2 & E2 & S2).
      rewrite (kbind_ok _ _ _ _ _ _ _ _ E1), E2. cbn [after].
      do 4 eexists. split; [reflexivity|].
      rewrite calls_app, map_app, S1, S2. reflexivity.
    + destruct (IH count self s) as (c2 & self2 & s2 & ev2 & E2 & S2).
      match goal with |- context [kbind ?m ?k self s] =>
        assert (Hm : m self s =
                     (Ok (Ok count, self), s,
                      [Log WARNING (Msg "无效编号: {}" [AVal (JNum (index + 1))])]))
          by reflexivity;
        rewrite (kbind_ok m k _ _ _ _ _ _ Hm)
      end.
      rewrite E2. cbn [after]. do 4 eexists. split; [reflexivity|].
      cbn [app]. rewrite calls_cons. exact S2.
Qed.

(** X28.  A selection that is a list of numbers deletes what was
    selected and nothing else: for each number typed that is a position
    of the list shown (from 1 to its length), in the order typed,
    [_selective_delete_triggers] asks for the deletion of the trigger at
    that position; a number outside the list is logged and sends
    nothing, and a refused deletion does not stop the ones after it. *)
Theorem selected_triggers_are_asked_to_be_deleted :
  forall (trigger_data : list json) (indices_input : string) (indices : list Z)
         (self : ZabbixAPI) (s : Srv),
    forallb complete_entry trigger_data = true ->
    parse_indices (strip indices_input) = Ok indices ->
    exists self' s1 ev,
      _selective_delete_triggers trigger_data indices_input self s =
        (Ok (Ok tt, self'), s1, ev) /\
      map sent (calls ev) =
        map (fun index => deletion_of (nth (Z.to_nat index) trigger_data JNull))
            (filter (in_range trigger_data) indices).
Proof.
  intros trigger_data indices_input indices self s Hc Hparse.
  unfold _selective_delete_triggers. rewrite kbind_print.
  destruct (preview_run trigger_data s Hc (enumerate trigger_data)
              (enumerate_snd trigger_data)) as (ev1 & E1 & Hc1).
  rewrite (kbind_ok _ _ _ _ _ _ _ _ (krun_ok _ self _ _ _ _ E1)). cbv zeta.
  destruct (String.eqb (strip indices_input) EmptyString) eqn:Hempty.
  { apply String.eqb_eq in Hempty. rewrite Hempty in Hparse. discriminate Hparse. }
  rewrite Hparse.
  destruct (selection_loop_run trigger_data Hc indices 0 self s)
    as (c & self' & s1 & ev2 & E2 & S2).
  match goal with |- context [ktry ?m ?h self s] =>
    assert (Hm : exists ev3, m self s = (Ok (Ok tt, self'), s1, ev3) /\
                             map sent (calls ev3) = map sent (calls ev2))
  end.
  { rewrite kbind_lift_ok. rewrite (kbind_ok _ _ _ _ _ _ _ _ E2). cbn.
    eexists. split; [reflexivity|]. rewrite calls_app. cbn. rewrite app_nil_r. reflexivity. }
  destruct Hm as (ev3 & Hm & S3).
  rewrite (ktry_ok _ _ _ _ _ _ _ _ Hm). cbn [after].
  do 3 eexists. split; [reflexivity|].
  cbn [app]. rewrite calls_cons, calls_app, Hc1. cbn [app]. rewrite S3. exact S2.
Qed.


(* ================================================================== *)
(** * When triggers are read and deleted *)
(* ================================================================== *)

(** Settles a request for one of the [allowed] methods. *)
Ltac allowed_request :=
  intros; apply authorized_api; cbn [In replace_methods non_deleting_methods];
  repeat (first [left; reflexivity | right]).

Lemma replace_in_group_unchecked group_name old_name new_name check ts choice indices :
  check = false ->
  kinv (authorized_for replace_methods)
       (replace_in_group group_name old_name new_name check ts choice indices).
Proof.
  intros Hcheck. pose proof (authorized_invariant replace_methods) as HI.
  unfold replace_in_group.
  unfold replace_in_host, replace_host_template, replace_found_host, replace_in_template,
    get_hostgroup_by_name, get_template_by_name, get_hosts_in_group_with_template,
    get_host_by_id, first_or_none.
  repeat (kinv_step HI ltac:(allowed_request); try discriminate Hcheck).
Qed.

Lemma replace_in_one_host_unchecked host old_name new_name by_id check ts choice indices :
  check = false ->
  kinv (authorized_for replace_methods)
       (replace_in_one_host host old_name new_name by_id check ts choice indices).
Proof.
  intros Hcheck. pose proof (authorized_invariant replace_methods) as HI.
  unfold replace_in_one_host.
  unfold replace_host_template, replace_found_host, replace_in_template,
    get_template_by_name, get_host_by_id, get_host_by_name, first_or_none.
  repeat (kinv_step HI ltac:(allowed_request); try discriminate Hcheck).
Qed.

(** X29.  Without the check of the triggers, the two operations read
    and delete no trigger: between the login and the logout they send
    only lookups of groups, templates and hosts, and updates of hosts. *)
Theorem no_trigger_request_without_check :
  forall (name old_name new_name ts choice indices : string) (by_id : bool) (s : Srv),
    bracketed replace_methods s
      (calls (snd (replace_templates_in_group name old_name new_name false ts choice
                     indices s))) /\
    bracketed replace_methods s
      (calls (snd (replace_template_for_host name old_name new_name by_id false ts choice
                     indices s))).
Proof.
  intros name old_name new_name ts choice indices by_id s. split.
  - destruct (replace_templates_in_group_run name old_name new_name false ts choice indices s)
      as (pre & Hpre & ->).
    pose proof (session_bracketed replace_methods _ s
                  (replace_in_group_unchecked name old_name new_name false ts choice
                     indices eq_refl)) as B.
    destruct (session _ s) as [[r s1] ev]. cbn [snd] in *.
    rewrite calls_app, Hpre. exact B.
  - destruct (replace_template_for_host_run name old_name new_name by_id false ts choice
                indices s) as (pre & Hpre & ->).
    pose proof (session_bracketed replace_methods _ s
                  (replace_in_one_host_unchecked name old_name new_name by_id false ts
                     choice indices eq_refl)) as B.
    destruct (session _ s) as [[r s1] ev]. cbn [snd] in *.
    rewrite calls_app, Hpre. exact B.
Qed.





End Scripts.

(** C1 as stated fails for [call_api]: the server answers with HTTP
    status 500 and a body holding a [result]; the status indicates
    failure, and [call_api] returns the result. *)
Lemma C1_call_api_returns_on_http_500 :
  let serve := constant_server (Reply 500 (Some (ok_body (JArr [])))) in
  let r := api_request "hostgroup.get" (JObj []) (JStr "token") in
  listed_failure (fst (serve tt r)) = true /\
  call_api serve "hostgroup.get" (JObj []) (JStr "token") tt = (Ok (JArr []), tt, [Call r]).
Proof. split; reflexivity. Qed.

(** C4 at work: group 12 holds a host. *)
Lemma C4_witness :
  let serve := occupied_group_server in
  let name := JStr "测试组" in
  let tok := JStr "token" in
  fst (fst (is_group_empty serve (JStr "12") tok tt)) = Ok false /\
  fst (fst (delete_empty_group serve (JStr "12") name tok tt)) = Ok false /\
  ~ In "hostgroup.delete"
       (methods_called (snd (delete_empty_group serve (JStr "12") name tok tt))).
Proof.
  cbv zeta. split; [reflexivity|].
  destruct (C4_nonempty_group_is_not_deleted occupied_group_server tt (JStr "12")
              (JStr "测试组") (JStr "token")) as (A & B & _).
  - reflexivity.
  - split; assumption.
Defined.

(** C9 at work: the check of group 12 is refused, and nothing is deleted;
    on a server where the group is empty the deletion is sent, after a
    [host.get] that returned the empty list. *)
Lemma C9_witness :
  let name := JStr "测试组" in
  let tok := JStr "token" in
  (fst (fst (is_group_empty failing_check_server (JStr "12") tok tt)) = Ok false /\
   fst (fst (delete_empty_group failing_check_server (JStr "12") name tok tt)) = Ok false /\
   ~ In "hostgroup.delete"
        (methods_called (snd (delete_empty_group failing_check_server (JStr "12") name tok tt))))
  /\
  (exists n result,
      int (JStr "12") = Ok n /\
      fst (fst (call_api empty_group_server "host.get" (empty_check_params n) tok tt)) = Ok result /\
      len result = Ok 0).
Proof.
  cbv zeta. split.
  - eapply (proj1 (C9_unverified_group_is_not_deleted failing_check_server tt (JStr "12")
                     (JStr "测试组") (JStr "token")) 12); reflexivity.
  - apply (proj2 (C9_unverified_group_is_not_deleted empty_group_server tt (JStr "12")
                    (JStr "测试组") (JStr "token"))).
    vm_compute. right. left. reflexivity.
Defined.

(** C6 at work: the name "X" on a server that only knows "x_X" resolves
    to that group after the lookups of "X", "a_X", ..., "x_X"; on a server
    without groups the row is given up as not found after all the
    lookups; on a server that finds two groups the row is given up with
    both names in the warning. *)
Lemma C6_witness :
  let tok := JStr "token" in
  let x_group :=
    JObj [("groupid", JStr "7"); ("name", JStr "x_X");
          ("hosts", JArr [JObj [("hostid", JStr "10084")]])] in
  (exists ev,
      find_group prefixed_group_server "X" tok tt = (Ok (JArr [x_group]), tt, ev) /\
      calls ev = map (lookup_request tok) (firstn 24 (candidates "X") ++ ["x_X"]))
  /\
  (exists ev1,
      misses no_group_server (candidates "X") tok tt = Some (tt, ev1) /\
      rename_group no_group_server "X" "Y" tok tt =
        (Ok JNull, tt,
         (ev1 ++ [Log WARNING (Msg "[未找到] 原分组：{}（已尝试所有前缀）" [AVal (JStr "X")]);
                  Print (Msg "[未找到] 原分组：{}（已尝试所有前缀）" [AVal (JStr "X")])])%list))
  /\
  (exists ev1,
      rename_group ambiguous_server "X" "Y" tok tt =
        (Ok JNull, tt,
         (ev1 ++ [Log WARNING (Msg "[匹配多个分组] 原分组：{} 匹配到多个：{}"
                                   [AVal (JStr "X"); AVal (JArr [JStr "X"; JStr "X"])]);
                  Print (Msg "[匹配多个分组] 原分组：{} 匹配到多个：{}"
                             [AVal (JStr "X"); AVal (JArr [JStr "X"; JStr "X"])])])%list)).
Proof.
  cbv zeta. split; [|split].
  - eapply (proj1 (C6_group_lookup prefixed_group_server tt "X" "Y" (JStr "token")))
      with (post := ["y_X"; "z_X"]); vm_compute; reflexivity.
  - eexists. split; [vm_compute; reflexivity|].
    apply (proj1 (proj2 (C6_group_lookup no_group_server tt "X" "Y" (JStr "token")))).
    vm_compute; reflexivity.
  - eexists.
    eapply (proj2 (proj2 (C6_group_lookup ambiguous_server tt "X" "Y" (JStr "token"))));
      vm_compute; reflexivity.
Defined.




(** C3 as stated fails: group 7 still exists under the name "renamed",
    which differs from the snapshot's "original", but the lookup of the
    groups named "下线" is refused, the restoration raises, and no rename
    is sent; the group is counted as failed. *)
Lemma C3_no_rename_when_restoration_fails :
  let tok := JStr "token" in
  let entry := snapshot_entry [snapshot_host "10084" "web"] in
  fst (fst (call_api failing_offline_server "hostgroup.get"
              (group_by_id_params (JStr "7")) tok tt)) =
    Ok (JArr [JObj [("groupid", JStr "7"); ("name", JStr "renamed")]]) /\
  eq (JStr "renamed") (JStr (fst entry)) = false /\
  methods_called (snd (rollback_group failing_offline_server tok entry (0, 0) tt)) =
    ["hostgroup.get"; "hostgroup.get"] /\
  fst (fst (rollback_group failing_offline_server tok entry (0, 0) tt)) = Ok (0, 1).
Proof. repeat split. Qed.

(** C3 at work: with the hosts restored, the group called "renamed" is
    renamed back to "original", and the group already called "original"
    is not renamed while its hosts are restored all the same. *)
Lemma C3_witness :
  let tok := JStr "token" in
  let entry := snapshot_entry [snapshot_host "10084" "web"; snapshot_host "10085" "db"] in
  let restoration :=
    [api_request "hostgroup.get" offline_params tok;
     api_request "host.get" (host_groups_params (JStr "10084")) tok;
     api_request "host.update" (host_update_params (JStr "10084") [JStr "5"; JStr "7"]) tok;
     api_request "host.get" (host_groups_params (JStr "10085")) tok;
     api_request "host.update" (host_update_params (JStr "10085") [JStr "7"]) tok] in
  calls (snd (rollback_group (rollback_server "renamed") tok entry (0, 0) tt)) =
    (api_request "hostgroup.get" (group_by_id_params (JStr "7")) tok :: restoration ++
     [api_request "hostgroup.update" (rename_params (JStr "7") "original") tok])%list /\
  calls (snd (rollback_group (rollback_server "original") tok entry (0, 0) tt)) =
    (api_request "hostgroup.get" (group_by_id_params (JStr "7")) tok :: restoration)%list.
Proof.
  cbv zeta. split.
  - edestruct (C3_rename_after_restoration (rollback_server "renamed") tt (JStr "token")
                 "original"
                 (snd (snapshot_entry [snapshot_host "10084" "web"; snapshot_host "10085" "db"]))
                 (0, 0)) as [H _];
      [reflexivity | reflexivity | reflexivity | reflexivity | reflexivity | reflexivity
      | vm_compute; reflexivity |].
    exact H.
  - edestruct (C3_rename_after_restoration (rollback_server "original") tt (JStr "token")
                 "original"
                 (snd (snapshot_entry [snapshot_host "10084" "web"; snapshot_host "10085" "db"]))
                 (0, 0)) as [H _];
      [reflexivity | reflexivity | reflexivity | reflexivity | reflexivity | reflexivity
      | vm_compute; reflexivity |].
    exact H.
Defined.

(** C10 at work: no host of the snapshot exists any more; each one costs
    a single request, and the group, renamed back, counts as a
    success. *)
Lemma C10_witness :
  let tok := JStr "token" in
  let serve := hostless_server "renamed" in
  let entry := snapshot_entry [snapshot_host "10084" "web"; snapshot_host "10085" "db"] in
  restore_host serve [JStr "99"] (JStr "7") tok (snapshot_host "10084" "web") tt =
    (Ok tt, tt, [Call (api_request "host.get" (host_groups_params (JStr "10084")) tok)]) /\
  fst (fst (rollback_group serve tok entry (0, 0) tt)) = Ok (0 + 1, 0) /\
  ~ In "host.update" (methods_called (snd (rollback_group serve tok entry (0, 0) tt))) /\
  existsb is_error_log (snd (rollback_group serve tok entry (0, 0) tt)) = false.
Proof.
  cbv zeta.
  destruct (C10_missing_host_is_skipped (hostless_server "renamed") (JStr "token"))
    as [Hhost Hgroup].
  split.
  - eapply Hhost; reflexivity.
  - edestruct (Hgroup tt "original"
                 (snd (snapshot_entry [snapshot_host "10084" "web"; snapshot_host "10085" "db"]))
                 0 0) as [Hcount Hquiet]; try reflexivity.
    split.
    + apply Hcount. intros host [<-|[<-|[]]]; eexists; reflexivity.
    + apply Hquiet. intros host [<-|[<-|[]]];
        (split; [eexists; reflexivity | intros []; eexists; split; reflexivity]).
Defined.

(** C8 at work: the CSV file holds the single row ("测试组",
    "无需修改"); [main] logs in and takes the backup, as it does for an
    empty file, and sends nothing else. *)
Lemma C8_witness :
  let fieldnames := JArr [JStr "原系统名称"; JStr "修改后系统名称"] in
  let run := fun rows =>
    main no_group_server (fun l => l) fieldnames rows "20250701_160856" tt in
  getitem (csv_row "测试组" "无需修改") "修改后系统名称" = Ok (JStr "无需修改") /\
  strip "无需修改" = "无需修改" /\
  calls (snd (run [csv_row "测试组" "无需修改"])) = calls (snd (run [])) /\
  methods_called (snd (run [csv_row "测试组" "无需修改"])) = ["user.login"; "hostgroup.get"].
Proof.
  cbv zeta. split; [reflexivity|]. split; [reflexivity|]. split; [|reflexivity].
  destruct (C8_unchanged_row_is_skipped no_group_server (fun l => l) tt
              (JArr [JStr "原系统名称"; JStr "修改后系统名称"]) [] []
              (csv_row "测试组" "无需修改") "无需修改" "20250701_160856")
    as (_ & _ & C & _); [reflexivity | reflexivity |].
  exact C.
Defined.

(* ================================================================== *)
(** * Runs from end to end *)
(* ================================================================== *)

(** The row ("测试组", "下线"): the group is found behind the prefix
    [x_], both hosts end in the new group "下线" alone, and the group,
    now empty, is deleted by the cleanup. *)
Example offline_run :
  final_state
    (main zabbix_serve (fun l => l) (JArr [JStr "原系统名称"; JStr "修改后系统名称"])
          [csv_row "测试组" "下线"] "20250701_160856" two_groups) =
  {| zgroups := [("5", "other"); ("100", "下线")];
     zhosts := [("10084", ["100"]); ("10085", ["100"])];
     znext := 101 |}.
Proof. vm_compute. reflexivity. Qed.

(** The rollback of that run: the deleted group is created again, the
    hosts leave "下线" and return to their groups of the snapshot; both
    groups count as successes. *)
Example rollback_run :
  let after_offline :=
    {| zgroups := [("5", "other"); ("100", "下线")];
       zhosts := [("10084", ["100"]); ("10085", ["100"])];
       znext := 101 |} in
  let run :=
    rollback_group_names zabbix_serve "group_backup_20250701_160856.json"
                         two_groups_backup (JStr "token") after_offline in
  fst (fst run) = Ok (2, 0) /\
  final_state run =
  {| zgroups := [("5", "other"); ("100", "下线"); ("101", "x_测试组")];
     zhosts := [("10084", ["101"; "5"]); ("10085", ["101"])];
     znext := 102 |}.
Proof. vm_compute. split; reflexivity. Qed.

(** The row ("测试组", "新名称") renames the group and keeps its prefix;
    the rollback restores the name. *)
Example rename_run :
  let renamed :=
    final_state
      (main zabbix_serve (fun l => l) (JArr [JStr "原系统名称"; JStr "修改后系统名称"])
            [csv_row "测试组" "新名称"] "20250701_160856" two_groups) in
  zgroups renamed = [("7", "x_新名称"); ("5", "other")] /\
  final_state
    (rollback_group_names zabbix_serve "group_backup_20250701_160856.json"
                          two_groups_backup (JStr "token") renamed) = two_groups.
Proof. vm_compute. split; reflexivity. Qed.

(** The two clients on the same answer, HTTP status 500 with a result in
    the body: the method raises, the free function returns. *)
Example clients_on_http_500 :
  let serve := constant_server (Reply 500 (Some (ok_body (JArr [])))) in
  fst (fst (snd (_call_api serve new_client "hostgroup.get" (JObj []) true) tt)) =
    Raise (ExceptionF "HTTP 错误: {}" [JNum 500]) /\
  fst (fst (call_api serve "hostgroup.get" (JObj []) (JStr "token") tt)) = Ok (JArr []).
Proof. split; reflexivity. Qed.

(** A JSON-RPC error: the method raises the server's [data], the free
    function the whole error object. *)
Example clients_on_rpc_error :
  let serve := constant_server error_reply in
  fst (fst (snd (_call_api serve new_client "hostgroup.get" (JObj []) true) tt)) =
    Raise (ExceptionF "Zabbix API 错误: {}" [JStr "No permissions to referred object."]) /\
  fst (fst (call_api serve "hostgroup.get" (JObj []) (JStr "token") tt)) =
    Raise (Exception (JObj [("code", JNum (-32602));
                            ("message", JStr "Invalid params.");
                            ("data", JStr "No permissions to referred object.")])).
Proof. split; reflexivity. Qed.

(** The lookups made for the name "X", in order. *)
Example candidates_of_X :
  candidates "X" =
  ["X"; "a_X"; "b_X"; "c_X"; "d_X"; "e_X"; "f_X"; "g_X"; "h_X"; "i_X"; "j_X";
   "k_X"; "l_X"; "m_X"; "n_X"; "o_X"; "p_X"; "q_X"; "r_X"; "s_X"; "t_X"; "u_X";
   "v_X"; "w_X"; "x_X"; "y_X"; "z_X"].
Proof. reflexivity. Qed.

(* ================================================================== *)
(** * Instances of the further properties *)
(* ================================================================== *)

Lemma rename_group_requests_witness :
  Forall (fun m => m = "hostgroup.get" \/ m = "hostgroup.create" \/ m = "host.update")
         (methods_called (snd (rename_group no_offline_server "测试组" "下线" (JStr "tok") tt))).
Proof.
  apply (rename_group_requests no_offline_server "测试组" "下线" (JStr "tok") tt
           (snd (fst (rename_group no_offline_server "测试组" "下线" (JStr "tok") tt)))
           (fst (fst (rename_group no_offline_server "测试组" "下线" (JStr "tok") tt)))).
  vm_compute. reflexivity.
Defined.


Lemma rename_row_requests_witness :
  fst (fst (rename_group prefixed_group_server "X" "Y" (JStr "tok") tt)) = Ok JNull /\
  exists k, (1 <= k <= 27)%nat /\
    (methods_called (snd (rename_group prefixed_group_server "X" "Y" (JStr "tok") tt))
       = repeat "hostgroup.get" k \/
     methods_called (snd (rename_group prefixed_group_server "X" "Y" (JStr "tok") tt))
       = (repeat "hostgroup.get" k ++ ["hostgroup.update"])%list).
Proof.
  apply (rename_row_requests prefixed_group_server "X" "Y" (JStr "tok") tt
           (snd (fst (rename_group prefixed_group_server "X" "Y" (JStr "tok") tt)))).
  - vm_compute. reflexivity.
  - vm_compute. reflexivity.
Defined.


Lemma delete_empty_group_true_witness :
  exists n,
    int (JStr "12") = Ok n /\
    calls (snd (delete_empty_group empty_group_server (JStr "12") (JStr "old") (JStr "tok") tt))
      = [api_request "host.get" (empty_check_params n) (JStr "tok");
         api_request "hostgroup.delete" (delete_params n) (JStr "tok")] /\
    call_api_failure
      (fst (empty_group_server
              (snd (empty_group_server tt
                      (api_request "host.get" (empty_check_params n) (JStr "tok"))))
              (api_request "hostgroup.delete" (delete_params n) (JStr "tok")))) = false.
Proof.
  apply (delete_empty_group_true empty_group_server tt tt (JStr "12") (JStr "old") (JStr "tok")).
  vm_compute. reflexivity.
Defined.








Lemma main_backs_up_first_witness :
  backed_up_first
    (snd (main zabbix_serve (fun l => l) (JArr []) [csv_row "测试组" "下线"]
               "20240101_000000" two_groups)) = true /\
  (files_written
     (snd (main zabbix_serve (fun l => l) (JArr []) [csv_row "测试组" "下线"]
                "20240101_000000" two_groups)) = [] ->
   forallb reads_only
     (calls (snd (main zabbix_serve (fun l => l) (JArr []) [csv_row "测试组" "下线"]
                       "20240101_000000" two_groups))) = true).
Proof.
  apply (main_backs_up_first zabbix_serve (fun l => l) (JArr []) [csv_row "测试组" "下线"]
           "20240101_000000" two_groups
           (snd (fst (main zabbix_serve (fun l => l) (JArr []) [csv_row "测试组" "下线"]
                           "20240101_000000" two_groups)))
           (fst (fst (main zabbix_serve (fun l => l) (JArr []) [csv_row "测试组" "下线"]
                           "20240101_000000" two_groups)))).
  vm_compute. reflexivity.
Defined.


Lemma main_rejects_csv_without_column_witness :
  exists e s1 ev,
    main zabbix_serve (fun l => l) (JArr [JStr "原系统名称"])
         [csv_row "测试组" "新名称"; JObj [("原系统名称", JStr "other")]]
         "20240101_000000" two_groups = (Raise e, s1, ev) /\
    calls ev = [login_request] /\
    files_written ev = [].
Proof.
  apply (main_rejects_csv_without_column zabbix_serve (fun l => l)
           (JArr [JStr "原系统名称"]) (JObj [("原系统名称", JStr "other")])).
  - right. left. reflexivity.
  - vm_compute. reflexivity.
Defined.


Lemma rollback_counts_every_group_witness :
  exists succeeded failed s1 ev,
    rollback_group_names zabbix_serve "group_backup_20240101_000000.json"
      (JObj [("x_测试组", JObj [("groupid", JStr "7"); ("hosts", JArr [])]);
             ("other", JObj [("groupid", JStr "5")])]) (JStr "token") two_groups =
      (Ok (succeeded, failed), s1, ev) /\
    0 <= succeeded /\ 0 <= failed /\ succeeded + failed = 2.
Proof.
  apply (rollback_counts_every_group zabbix_serve "group_backup_20240101_000000.json"
           [("x_测试组", JObj [("groupid", JStr "7"); ("hosts", JArr [])]);
            ("other", JObj [("groupid", JStr "5")])] (JStr "token") two_groups).
  repeat constructor.
Defined.


Lemma rollback_recreates_missing_group_witness :
  let tok := JStr "token" in
  let info := JObj [("groupid", JStr "7"); ("hosts", JArr [snapshot_host "10084" "web"])] in
  exists ev s3,
    rollback_group zabbix_serve tok ("x_测试组", info) (0, 0) after_deletion =
      (Ok (1, 0), s3, ev) /\
    calls ev =
      [api_request "hostgroup.get" (group_by_id_params (JStr "7")) tok;
       api_request "hostgroup.create" (create_params "x_测试组") tok;
       api_request "hostgroup.get" offline_params tok;
       api_request "host.get" (host_groups_params (JStr "10084")) tok;
       api_request "host.update" (host_update_params (JStr "10084") [JStr "100"]) tok].
Proof.
  cbv zeta.
  edestruct (rollback_recreates_missing_group zabbix_serve after_deletion)
    with (tok := JStr "token") (old_name := "x_测试组")
         (info := JObj [("groupid", JStr "7");
                        ("hosts", JArr [snapshot_host "10084" "web"])])
         (success_count := 0) (error_count := 0)
    as (ev & Hrun & Hcalls & _);
    [reflexivity | reflexivity | reflexivity | reflexivity | reflexivity | reflexivity
    | reflexivity | vm_compute; reflexivity |].
  exists ev. eexists. split; [exact Hrun | exact Hcalls].
Defined.

Lemma rollback_never_deletes_witness :
  Forall (fun m => In m ["hostgroup.get"; "hostgroup.create"; "hostgroup.update";
                         "host.get"; "host.update"])
    (methods_called
       (snd (rollback_group_names zabbix_serve "group_backup_20240101_000000.json"
               two_groups_backup (JStr "token") after_deletion))).
Proof.
  apply (rollback_never_deletes zabbix_serve "group_backup_20240101_000000.json"
           two_groups_backup (JStr "token") after_deletion
           (snd (fst (rollback_group_names zabbix_serve "group_backup_20240101_000000.json"
                        two_groups_backup (JStr "token") after_deletion)))
           (fst (fst (rollback_group_names zabbix_serve "group_backup_20240101_000000.json"
                        two_groups_backup (JStr "token") after_deletion)))).
  vm_compute. reflexivity.
Defined.


Lemma rollback_stops_at_malformed_entry_witness :
  let before :=
    [("x_测试组", JObj [("groupid", JStr "7"); ("hosts", JArr [snapshot_host "10084" "web"])])] in
  exists e s1 ev,
    rollback_group_names zabbix_serve "group_backup_20240101_000000.json"
      (JObj (before ++ ("other", JObj [("hosts", JArr [])])
                    :: [("last", JObj [("groupid", JStr "5"); ("hosts", JArr [])])]))
      (JStr "token") after_deletion = (Raise e, s1, ev) /\
    s1 = snd (fst (rollback_group_names zabbix_serve "group_backup_20240101_000000.json"
                     (JObj before) (JStr "token") after_deletion)) /\
    calls ev = calls (snd (rollback_group_names zabbix_serve
                             "group_backup_20240101_000000.json"
                             (JObj before) (JStr "token") after_deletion)).
Proof.
  cbv zeta.
  apply (rollback_stops_at_malformed_entry zabbix_serve "group_backup_20240101_000000.json"
           "other" (JObj [("hosts", JArr [])]) (JStr "token")).
  reflexivity.
Defined.


Lemma restore_attempts_every_host_witness :
  let hs := [snapshot_host "10084" "web"; snapshot_host "404" "gone";
             snapshot_host "10085" "db"] in
  exists s2 ev,
    restore_hosts_to_group restore_server (JArr hs) (JStr "7") "original" (JStr "token") tt =
      (Ok tt, s2, ev) /\
    filter (is_method "host.get") (calls ev) = map (host_groups_request (JStr "token")) hs.
Proof.
  cbv zeta.
  eapply (restore_attempts_every_host restore_server
            [snapshot_host "10084" "web"; snapshot_host "404" "gone";
             snapshot_host "10085" "db"] (JStr "7") "original" (JStr "token") tt).
  - reflexivity.
  - reflexivity.
  - reflexivity.
  - intros host [<- | [<- | [<- | []]]]; eexists; reflexivity.
Defined.


Lemma deleted_group_is_checked_group_witness :
  exists n text,
    int (JStr " 12 ") = Ok n /\
    params (api_request "hostgroup.delete" (delete_params 12) (JStr "tok")) =
      JArr [JStr text] /\
    int (JStr text) = Ok n /\
    In (api_request "host.get" (empty_check_params n) (JStr "tok"))
       (calls (snd (delete_empty_group
                      (table_server [("host.get", empty_check_params 12, ok_reply (JArr []))]
                                    (ok_reply (JObj [("groupids", JArr [JStr "12"])])))
                      (JStr " 12 ") (JStr "old") (JStr "tok") tt))).
Proof.
  apply (deleted_group_is_checked_group
           (table_server [("host.get", empty_check_params 12, ok_reply (JArr []))]
                         (ok_reply (JObj [("groupids", JArr [JStr "12"])])))
           tt (JStr " 12 ") (JStr "old") (JStr "tok")).
  - vm_compute. right. left. reflexivity.
  - reflexivity.
Defined.


(* ================================================================== *)
(** * Instances for the template replacer *)
(* ================================================================== *)

Lemma nothing_is_replaced_without_group_and_templates_witness :
  bracketed template_server lookup_methods tt
    (calls (snd (replace_templates_in_group template_server "Linux servers" "old" "absent"
                   true "20240101_000000" "1" EmptyString tt))).
Proof.
  apply (nothing_is_replaced_without_group_and_templates template_server
           "Linux servers" "old" "absent" "20240101_000000" "1" EmptyString true tt).
  right. right. intros self s. reflexivity.
Defined.

Lemma template_not_attached_is_not_replaced_witness :
  exists self' s1 ev,
    replace_host_template template_server (JStr "10084") (JStr "99999") (JStr "10002")
      new_client tt = (Ok (Ok false, self'), s1, ev) /\
    calls ev = [client_request new_client "host.get" (host_by_id_params (JStr "10084")) true].
Proof.
  apply (template_not_attached_is_not_replaced template_server
           (JStr "10084") (JStr "99999") (JStr "10002") new_client tt).
  vm_compute. reflexivity.
Defined.


Lemma every_trigger_is_asked_to_be_deleted_witness :
  exists self' s1 ev,
    _delete_all_triggers template_server
      [sample_entry "501" "disk full"; sample_entry "503" "cpu load"] new_client tt =
      (Ok (Ok tt, self'), s1, ev) /\
    map sent (calls ev) =
      [("trigger.delete", JArr [JStr "501"]); ("trigger.delete", JArr [JStr "503"])].
Proof.
  apply (every_trigger_is_asked_to_be_deleted template_server
           [sample_entry "501" "disk full"; sample_entry "503" "cpu load"] new_client tt).
  vm_compute. reflexivity.
Defined.


Lemma selected_triggers_are_asked_to_be_deleted_witness :
  exists self' s1 ev,
    _selective_delete_triggers template_server
      [sample_entry "501" "disk full"; sample_entry "503" "cpu load"] " 2, 5,1 "
      new_client tt = (Ok (Ok tt, self'), s1, ev) /\
    map sent (calls ev) =
      [("trigger.delete", JArr [JStr "503"]); ("trigger.delete", JArr [JStr "501"])].
Proof.
  apply (selected_triggers_are_asked_to_be_deleted template_server
           [sample_entry "501" "disk full"; sample_entry "503" "cpu load"] " 2, 5,1 "
           [1; 4; 0] new_client tt).
  - vm_compute. reflexivity.
  - vm_compute. reflexivity.
Defined.

